(** * Task-flow manager: transactional audit logging, assignee rules and
      analytics of the backend services, as a shallow embedding.

    The embedding follows the TypeScript sources:
    - [services/task.service.ts]  ([TaskService], [AnalyticsService],
      [ProjectService]),
    - [repositories/*.ts]         ([AuditRepository], [TaskRepository],
      [ProjectRepository], [UserRepository]),
    - the user controller ([UserController.update], [delete]),
    - the authentication service ([AuthService.login], [register]),
    - the middleware ([authenticate], [requireRole], [requireProjectAccess],
      [requireTaskAccess]),
    - the paginated reads ([findAll], [findByUserId], [findByEntity],
      [getAll], [getHistory]),
    - the permission hooks of the client ([useProjectPermissions],
      [canBeAssignedTask]),
    - [utils/AppError.ts], [utils/errorCodes.ts].

    The persistence engine is a record of five tables.  A service call is a
    function from the committed store to an outcome and the new committed
    store; statements issued through the transaction client [tx] work on a
    private copy that [transaction] installs on commit only.

    The patch of an update is the request body as the controller hands it
    on: the properties the interface declares, and whatever other
    properties the body has, which the update statement receives with
    them.  A date of the body is the string the route schema admits. *)

From Stdlib Require Import String Ascii List ZArith QArith Qabs Bool Lia DecimalString
  Permutation Sorted.
Import ListNotations.
Open Scope Z_scope.
Open Scope string_scope.

Set Implicit Arguments.

(** ** JavaScript values that reach the audit rows *)

Module Js.

(** The values stored in [details] and compared by the diff loop. *)
#[warnings="-register-all"] Inductive value : Type :=
  | Undefined
  | Null
  | Str (s : string)
  | Date (ms : Z)
  | Obj (fields : list (string * value)).

(** [String(v)].  The rendering of a [Date] is the runtime's
    ([Date.prototype.toString]); it is taken as a parameter. *)
Definition String_of (date_toString : Z -> string) (v : value) : string :=
  match v with
  | Undefined => "undefined"
  | Null => "null"
  | Str s => s
  | Date ms => date_toString ms
  | Obj _ => "[object Object]"
  end.

(** A [Record<string, V>] with its keys in insertion order. *)
Definition object (V : Type) : Type := list (string * V).

(** [o[k] = v]: overwrite the property when it exists, add it otherwise. *)
Fixpoint set {V : Type} (o : object V) (k : string) (v : V) : object V :=
  match o with
  | [] => [(k, v)]
  | (k', v') :: rest =>
      if k' =? k then (k', v) :: rest else (k', v') :: set rest k v
  end.

(** [o[k]] *)
Fixpoint get {V : Type} (o : object V) (k : string) : option V :=
  match o with
  | [] => None
  | (k', v') :: rest => if k' =? k then Some v' else get rest k
  end.

(** [Object.keys(o)] *)
Definition keys {V : Type} (o : object V) : list string := map fst o.

(** [string | null] as a value *)
Definition of_nullable_string (o : option string) : value :=
  match o with Some s => Str s | None => Null end.

(** [Date | null] as a value *)
Definition of_nullable_date (o : option Z) : value :=
  match o with Some d => Date d | None => Null end.

(** An optional property [x?: T]: absent is [undefined]. *)
Definition of_optional {T : Type} (f : T -> value) (o : option T) : value :=
  match o with Some x => f x | None => Undefined end.

Definition is_undefined (v : value) : bool :=
  match v with Undefined => true | _ => false end.

(** The properties of an object that reach a JSON column or a statement of
    the store client: a property whose value is [undefined] is left out. *)
Definition defined (o : object value) : object value :=
  filter (fun kv => negb (is_undefined (snd kv))) o.

(** The object has a property [k] whose value is not [undefined]. *)
Definition mentions (o : object value) (k : string) : bool :=
  existsb (fun kv => (fst kv =? k) && negb (is_undefined (snd kv))) o.

End Js.

(** ** Enumerations (shared/src/types/index.ts, mirroring the Prisma schema) *)

Module UserRole.
Inductive t : Type := ADMIN | MEMBER | VIEWER.
Definition eqb (a b : t) : bool :=
  match a, b with
  | ADMIN, ADMIN | MEMBER, MEMBER | VIEWER, VIEWER => true
  | _, _ => false
  end.
Definition to_string (r : t) : string :=
  match r with ADMIN => "ADMIN" | MEMBER => "MEMBER" | VIEWER => "VIEWER" end.
End UserRole.

Module ProjectRole.
Inductive t : Type := MEMBER | VIEWER.
Definition eqb (a b : t) : bool :=
  match a, b with
  | MEMBER, MEMBER | VIEWER, VIEWER => true
  | _, _ => false
  end.
Definition to_string (r : t) : string :=
  match r with MEMBER => "MEMBER" | VIEWER => "VIEWER" end.
End ProjectRole.

Module TaskStatus.
Inductive t : Type := TODO | IN_PROGRESS | DONE.
Definition eqb (a b : t) : bool :=
  match a, b with
  | TODO, TODO | IN_PROGRESS, IN_PROGRESS | DONE, DONE => true
  | _, _ => false
  end.
Definition to_string (s : t) : string :=
  match s with TODO => "TODO" | IN_PROGRESS => "IN_PROGRESS" | DONE => "DONE" end.
End TaskStatus.

Module AuditAction.
Inductive t : Type := CREATE | UPDATE | DELETE.
End AuditAction.

(** ** Rows of the five tables *)

Module User.
Record t : Type := mk {
  id : string;
  email : string;
  name : string;
  password : string;
  role : UserRole.t;
  createdAt : Z
  }.
End User.

(** Modelled from the spec: the schema file is not among the sources; the
    columns of a project are those the spec lists.  [updatedAt] is set by
    the store client on every write of the row. *)
Module Project.
Record t : Type := mk {
  id : string;
  name : string;
  description : option string;
  createdAt : Z;
  updatedAt : Z
  }.

Definition set_createdAt (v : Z) (p : t) : t :=
  mk (id p) (name p) (description p) v (updatedAt p).
Definition set_updatedAt (v : Z) (p : t) : t :=
  mk (id p) (name p) (description p) (createdAt p) v.
End Project.

Module ProjectMember.
Record t : Type := mk {
  id : string;
  projectId : string;
  userId : string;
  projectRole : ProjectRole.t;
  joinedAt : Z
  }.
End ProjectMember.

(** Modelled from the spec: the schema file is not among the sources; the
    columns of a task are those the spec lists.  [updatedAt] is set by the
    store client on every write of the row. *)
Module Task.
Record t : Type := mk {
  id : string;
  title : string;
  description : option string;
  status : TaskStatus.t;
  priority : option string;
  dueDate : option Z;
  completedAt : option Z;
  createdAt : Z;
  updatedAt : Z;
  projectId : string;
  assigneeId : option string;
  reporterId : string
  }.

Definition set_completedAt (v : option Z) (x : t) : t :=
  mk (id x) (title x) (description x) (status x) (priority x) (dueDate x)
     v (createdAt x) (updatedAt x) (projectId x) (assigneeId x) (reporterId x).
Definition set_createdAt (v : Z) (x : t) : t :=
  mk (id x) (title x) (description x) (status x) (priority x) (dueDate x)
     (completedAt x) v (updatedAt x) (projectId x) (assigneeId x) (reporterId x).
Definition set_updatedAt (v : Z) (x : t) : t :=
  mk (id x) (title x) (description x) (status x) (priority x) (dueDate x)
     (completedAt x) (createdAt x) v (projectId x) (assigneeId x) (reporterId x).
Definition set_projectId (v : string) (x : t) : t :=
  mk (id x) (title x) (description x) (status x) (priority x) (dueDate x)
     (completedAt x) (createdAt x) (updatedAt x) v (assigneeId x) (reporterId x).
Definition set_reporterId (v : string) (x : t) : t :=
  mk (id x) (title x) (description x) (status x) (priority x) (dueDate x)
     (completedAt x) (createdAt x) (updatedAt x) (projectId x) (assigneeId x) v.
End Task.

Module AuditLog.
Record t : Type := mk {
  id : string;
  entityType : string;
  entityId : string;
  action : AuditAction.t;
  actorId : string;
  timestamp : Z;
  details : Js.object Js.value
  }.
End AuditLog.

Record Store : Type := mkStore {
  users : list User.t;
  projects : list Project.t;
  project_members : list ProjectMember.t;
  tasks : list Task.t;
  audit_logs : list AuditLog.t
}.

Definition set_users (s : Store) (l : list User.t) : Store :=
  mkStore l (projects s) (project_members s) (tasks s) (audit_logs s).
Definition set_projects (s : Store) (l : list Project.t) : Store :=
  mkStore (users s) l (project_members s) (tasks s) (audit_logs s).
Definition set_project_members (s : Store) (l : list ProjectMember.t) : Store :=
  mkStore (users s) (projects s) l (tasks s) (audit_logs s).
Definition set_tasks (s : Store) (l : list Task.t) : Store :=
  mkStore (users s) (projects s) (project_members s) l (audit_logs s).
Definition set_audit_logs (s : Store) (l : list AuditLog.t) : Store :=
  mkStore (users s) (projects s) (project_members s) (tasks s) l.

(** ** Errors (utils/AppError.ts, utils/errorCodes.ts) *)

Module AppError.
Record t : Type := mk {
  message : string;
  statusCode : Z;
  code : option string;
  metadata : option (Js.object Js.value)
}.
(** [new AppError(message, statusCode)] *)
Definition new (message : string) (statusCode : Z) : t :=
  mk message statusCode None None.
Definition notFound (message : string) (code : string) : t :=
  mk message 404 (Some code) None.
Definition badRequest (message : string) (code : string)
    (metadata : Js.object Js.value) : t :=
  mk message 400 (Some code) (Some metadata).
End AppError.

Module ErrorCodes.
Module PROJECT.
Definition NOT_FOUND := "ERR_PROJECT_001".
Definition ALREADY_EXISTS := "ERR_PROJECT_002".
Definition MEMBER_ALREADY_EXISTS := "ERR_PROJECT_003".
Definition MEMBER_NOT_FOUND := "ERR_PROJECT_004".
End PROJECT.
Module TASK.
Definition NOT_FOUND := "ERR_TASK_001".
Definition INVALID_STATUS_TRANSITION := "ERR_TASK_002".
Definition VIEWER_CANNOT_BE_ASSIGNED := "ERR_TASK_003".
Definition ASSIGNEE_NOT_FOUND := "ERR_TASK_004".
Definition ASSIGNEE_NOT_IN_PROJECT := "ERR_TASK_005".
End TASK.
Module USER.
Definition NOT_FOUND := "ERR_USER_001".
Definition EMAIL_ALREADY_EXISTS := "ERR_USER_002".
Definition INVALID_ROLE := "ERR_USER_003".
End USER.
End ErrorCodes.

(** What a call can throw: an [AppError] of the services, or an error of
    the store client (a rejected statement or a failed commit). *)
Inductive Exn : Type :=
| AppErr (e : AppError.t)
| PrismaErr (code : string).

Inductive Outcome (A : Type) : Type :=
| Returned (a : A)
| Thrown (e : Exn).
Arguments Returned {A} a.
Arguments Thrown {A} e.

(** ** The environment of a call

    [js_now] is [new Date()] of the server, [db_now] the store's clock for
    column defaults, [uuid k] the identifier the store generates for the row
    inserted by statement [k] of a transaction, [date_toString] the
    runtime's [Date.prototype.toString], [date_parse] the instant that the
    store client reads from a date-time string (none when the string is not
    a date-time).  [aborts k] tells whether the store
    aborts statement [k] of the transaction (a conflict, a constraint
    violation, a lost connection); the commit counts as the statement after
    the last one.  [default_status] and [default_priority] are the column
    defaults of the schema file, which the services rely on when they
    create a task. *)
Record Env : Type := mkEnv {
  js_now : Z;
  db_now : Z;
  uuid : nat -> string;
  date_toString : Z -> string;
  date_parse : string -> option Z;
  aborts : nat -> bool;
  default_status : TaskStatus.t;
  default_priority : option string
}.

(** ** The transaction client *)

Record TxClient : Type := mkTx {
  tx_db : Store;      (* the transaction's private view of the store *)
  tx_step : nat       (* statements issued so far *)
}.

Definition Tx (A : Type) : Type := TxClient -> Outcome (A * TxClient).

Definition ret {A : Type} (a : A) : Tx A := fun c => Returned (a, c).

Definition bind {A B : Type} (m : Tx A) (k : A -> Tx B) : Tx B :=
  fun c =>
    match m c with
    | Returned (a, c') => k a c'
    | Thrown e => Thrown e
    end.

(** [throw e] inside the callback of [$transaction] *)
Definition throw {A : Type} (e : Exn) : Tx A := fun _ => Thrown e.

Notation "x <- m ;; k" := (bind m (fun x => k))
  (at level 61, m at next level, right associativity).

(** One statement issued through [tx]: the store may abort it; otherwise it
    runs on the private view.  [run] receives the statement number. *)
Definition statement {A : Type} (env : Env)
    (run : nat -> Store -> Outcome (A * Store)) : Tx A :=
  fun c =>
    if aborts env (tx_step c) then Thrown (PrismaErr "aborted")
    else
      match run (tx_step c) (tx_db c) with
      | Returned (a, db') => Returned (a, mkTx db' (S (tx_step c)))
      | Thrown e => Thrown e
      end.

(** A service call: from the committed store to an outcome and the
    committed store afterwards.  Calls are taken one at a time: no other
    request writes between the reads of a call and its transaction. *)
Definition Service (A : Type) : Type := Store -> Outcome A * Store.

(** [prisma.$transaction(async (tx) => body)]: the callback runs on a private
    view; its writes are installed only when it returns and the commit
    succeeds, otherwise the committed store is left as it was. *)
Definition transaction {A : Type} (env : Env) (body : Tx A) : Service A :=
  fun s =>
    match body (mkTx s 0) with
    | Returned (a, c) =>
        if aborts env (tx_step c) then (Thrown (PrismaErr "aborted"), s)
        else (Returned a, tx_db c)
    | Thrown e => (Thrown e, s)
    end.

(** ** Queries and statements of the store client *)

Module Prisma.

(** [prisma.user.findUnique({ where: { id } })] *)
Definition user_findUnique (id : string) (s : Store) : option User.t :=
  find (fun u => User.id u =? id) (users s).

(** [prisma.project.findUnique({ where: { id } })] *)
Definition project_findUnique (id : string) (s : Store) : option Project.t :=
  find (fun p => Project.id p =? id) (projects s).

(** [prisma.task.findUnique({ where: { id } })] *)
Definition task_findUnique (id : string) (s : Store) : option Task.t :=
  find (fun t => Task.id t =? id) (tasks s).

(** [prisma.projectMember.findUnique({ where: { id } })] *)
Definition projectMember_findUnique (id : string) (s : Store)
    : option ProjectMember.t :=
  find (fun m => ProjectMember.id m =? id) (project_members s).

(** [prisma.projectMember.findUnique({ where: { projectId_userId } })] *)
Definition projectMember_findUnique_projectId_userId
    (projectId userId : string) (s : Store) : option ProjectMember.t :=
  find (fun m => (ProjectMember.projectId m =? projectId)
                 && (ProjectMember.userId m =? userId))
       (project_members s).

(** The [data] of [task.create]: the properties the service passes;
    an absent ([undefined]) property takes the column's default. *)
Record TaskCreateInput : Type := mkTaskCreateInput {
  tc_title : string;
  tc_description : option string;
  tc_priority : option string;
  tc_dueDate : option Z;
  tc_projectId : string;
  tc_assigneeId : option (option string);
  tc_reporterId : string
}.

(** Modelled from the spec: the schema file is not among the sources.  A
    task references its project, its reporter and its assignee, a member row
    its project and its user; a statement that would break a reference is
    rejected. *)
Definition user_exists (id : string) (s : Store) : bool :=
  match user_findUnique id s with Some _ => true | None => false end.

(** Modelled from the spec: see [user_exists]. *)
Definition project_exists (id : string) (s : Store) : bool :=
  match project_findUnique id s with Some _ => true | None => false end.

(** Modelled from the spec: see [user_exists]. *)
Definition nullable_user_exists (id : option string) (s : Store) : bool :=
  match id with Some a => user_exists a s | None => true end.

(** Modelled from the spec: the pair (projectId, userId) is unique in the
    member table. *)
Definition pair_is_free (projectId userId : string) (s : Store) : bool :=
  match projectMember_findUnique_projectId_userId projectId userId s with
  | Some _ => false
  | None => true
  end.

(** Modelled from the spec: deleting a project deletes its member rows and
    its tasks (cascade). *)
Definition cascade (projectId : string) (s : Store) : Store :=
  mkStore (users s)
          (projects s)
          (filter (fun m => negb (ProjectMember.projectId m =? projectId))
                  (project_members s))
          (filter (fun t => negb (Task.projectId t =? projectId)) (tasks s))
          (audit_logs s).

(** [tx.task.create({ data, include })]; the included summaries of the
    assignee and the reporter are left out of the result. *)
Definition task_create (env : Env) (d : TaskCreateInput) : Tx Task.t :=
  statement env (fun k s =>
    let row :=
      Task.mk (uuid env k)
              (tc_title d)
              (tc_description d)
              (default_status env)
              (match tc_priority d with
               | Some p => Some p
               | None => default_priority env
               end)
              (tc_dueDate d)
              None
              (db_now env)
              (db_now env)
              (tc_projectId d)
              (match tc_assigneeId d with
               | Some a => a
               | None => None
               end)
              (tc_reporterId d) in
    if project_exists (Task.projectId row) s
       && user_exists (Task.reporterId row) s
       && nullable_user_exists (Task.assigneeId row) s
    then Returned (row, set_tasks s (tasks s ++ [row]))
    else Thrown (PrismaErr "P2003")).

(** A value for a date column in the [data] of a statement: a [Date], or
    a date-time string, which the client reads. *)
Inductive DateInput : Type :=
| OfDate (ms : Z)
| OfString (text : string).

Definition date_of (env : Env) (d : DateInput) : option Z :=
  match d with
  | OfDate ms => Some ms
  | OfString text => date_parse env text
  end.

(** A date of an object that did not go through a typed field *)
Definition as_date (env : Env) (v : Js.value) : option Z :=
  match v with
  | Js.Date ms => Some ms
  | Js.Str text => date_parse env text
  | _ => None
  end.

(** The [data] of [task.update]: the six properties of [UpdateTaskData]
    (an absent property leaves the column as it is, [null] clears it) and
    the other properties of the object. *)
Record TaskUpdateInput : Type := mkTaskUpdateInput {
  tu_title : option string;
  tu_description : option (option string);
  tu_status : option TaskStatus.t;
  tu_priority : option (option string);
  tu_dueDate : option (option DateInput);
  tu_assigneeId : option (option string);
  tu_others : Js.object Js.value
}.

Definition or_current {T : Type} (patch : option T) (current : T) : T :=
  match patch with Some v => v | None => current end.

(** Modelled from the spec: the columns of a task besides the six of the
    patch (the schema file is not among the sources).  What [task.update]
    does with a property of [data] under another key: [undefined] is
    skipped; a string is written to [projectId] or [reporterId]; a date or
    a date-time string to [createdAt], [updatedAt] or [completedAt]; [null]
    clears [completedAt].  Any other property is refused, as the client
    refuses an unknown argument or a value of another type; writes to the
    primary key, operation objects ([{ set: v }]) and the nested writes
    under the relation keys are not modelled and are refused here. *)
Definition task_write (env : Env) (k : string) (v : Js.value) (t : Task.t)
    : option Task.t :=
  if Js.is_undefined v then Some t
  else if k =? "projectId" then
    match v with Js.Str x => Some (Task.set_projectId x t) | _ => None end
  else if k =? "reporterId" then
    match v with Js.Str x => Some (Task.set_reporterId x t) | _ => None end
  else if k =? "createdAt" then
    option_map (fun d => Task.set_createdAt d t) (as_date env v)
  else if k =? "updatedAt" then
    option_map (fun d => Task.set_updatedAt d t) (as_date env v)
  else if k =? "completedAt" then
    match v with
    | Js.Null => Some (Task.set_completedAt None t)
    | _ => option_map (fun d => Task.set_completedAt (Some d) t) (as_date env v)
    end
  else None.

(** All the other properties of [data]; of two properties with one key the
    first counts, as [o[k]] reads it. *)
Definition task_writes (env : Env) (o : Js.object Js.value) (t : Task.t)
    : option Task.t :=
  fold_right (fun kv acc =>
                match acc with
                | Some t' => task_write env (fst kv) (snd kv) t'
                | None => None
                end)
             (Some t) o.

(** The row after the update, or nothing when the client refuses [data].
    [updatedAt] is the time of the write unless [data] gives one. *)
Definition task_apply (env : Env) (d : TaskUpdateInput) (t : Task.t)
    : option Task.t :=
  match
    match tu_dueDate d with
    | None => Some (Task.dueDate t)
    | Some None => Some None
    | Some (Some input) => option_map Some (date_of env input)
    end
  with
  | None => None
  | Some due =>
      task_writes env (tu_others d)
        (Task.mk (Task.id t)
                 (or_current (tu_title d) (Task.title t))
                 (or_current (tu_description d) (Task.description t))
                 (or_current (tu_status d) (Task.status t))
                 (or_current (tu_priority d) (Task.priority t))
                 due
                 (Task.completedAt t)
                 (Task.createdAt t)
                 (db_now env)
                 (Task.projectId t)
                 (or_current (tu_assigneeId d) (Task.assigneeId t))
                 (Task.reporterId t))
  end.

(** [tx.task.update({ where: { id }, data })]; throws when no row has the
    id, when the client refuses [data], and when the new row would break a
    reference. *)
Definition task_update (env : Env) (id : string) (d : TaskUpdateInput)
    : Tx Task.t :=
  statement env (fun _ s =>
    match task_findUnique id s with
    | None => Thrown (PrismaErr "P2025")
    | Some t =>
        match task_apply env d t with
        | None => Thrown (PrismaErr "validation")
        | Some t' =>
            if nullable_user_exists (Task.assigneeId t') s
               && ((Task.projectId t' =? Task.projectId t)
                   || project_exists (Task.projectId t') s)
               && ((Task.reporterId t' =? Task.reporterId t)
                   || user_exists (Task.reporterId t') s)
            then Returned (t',
                           set_tasks s (map (fun r => if Task.id r =? id
                                                      then t' else r)
                                            (tasks s)))
            else Thrown (PrismaErr "P2003")
        end
    end).

(** [tx.task.delete({ where: { id } })] *)
Definition task_delete (env : Env) (id : string) : Tx unit :=
  statement env (fun _ s =>
    match task_findUnique id s with
    | None => Thrown (PrismaErr "P2025")
    | Some _ =>
        Returned (tt, set_tasks s (filter (fun r => negb (Task.id r =? id))
                                          (tasks s)))
    end).

(** [tx.project.create({ data: { name, description } })] *)
Definition project_create (env : Env) (name : string)
    (description : option string) : Tx Project.t :=
  statement env (fun k s =>
    let row := Project.mk (uuid env k) name description (db_now env)
                          (db_now env) in
    Returned (row, set_projects s (projects s ++ [row]))).

(** Modelled from the spec: the columns of a project besides [name] and
    [description] (the schema file is not among the sources).  What
    [project.update] does with a property of [data] under another key:
    [undefined] is skipped; a date or a date-time string is written to
    [createdAt] or [updatedAt].  Any other property is refused; writes to
    the primary key, operation objects and the nested writes under [tasks]
    and [members] are not modelled and are refused here. *)
Definition project_write (env : Env) (k : string) (v : Js.value)
    (p : Project.t) : option Project.t :=
  if Js.is_undefined v then Some p
  else if k =? "createdAt" then
    option_map (fun d => Project.set_createdAt d p) (as_date env v)
  else if k =? "updatedAt" then
    option_map (fun d => Project.set_updatedAt d p) (as_date env v)
  else None.

Definition project_writes (env : Env) (o : Js.object Js.value)
    (p : Project.t) : option Project.t :=
  fold_right (fun kv acc =>
                match acc with
                | Some p' => project_write env (fst kv) (snd kv) p'
                | None => None
                end)
             (Some p) o.

(** The row after the update, or nothing when the client refuses [data]. *)
Definition project_apply (env : Env) (name : option string)
    (description : option (option string)) (others : Js.object Js.value)
    (p : Project.t) : option Project.t :=
  project_writes env others
    (Project.mk (Project.id p)
                (or_current name (Project.name p))
                (or_current description (Project.description p))
                (Project.createdAt p)
                (db_now env)).

(** [tx.project.update({ where: { id }, data })] *)
Definition project_update (env : Env) (id : string) (name : option string)
    (description : option (option string)) (others : Js.object Js.value)
    : Tx Project.t :=
  statement env (fun _ s =>
    match project_findUnique id s with
    | None => Thrown (PrismaErr "P2025")
    | Some p =>
        match project_apply env name description others p with
        | None => Thrown (PrismaErr "validation")
        | Some p' =>
            Returned (p',
                      set_projects s
                        (map (fun r => if Project.id r =? id then p' else r)
                             (projects s)))
        end
    end).

(** [tx.project.delete({ where: { id } })].  The members and the tasks of
    the project go with it. *)
Definition project_delete (env : Env) (id : string) : Tx unit :=
  statement env (fun _ s =>
    match project_findUnique id s with
    | None => Thrown (PrismaErr "P2025")
    | Some _ =>
        Returned (tt,
          cascade id
            (set_projects s
               (filter (fun r => negb (Project.id r =? id)) (projects s))))
    end).

(** [tx.projectMember.create({ data, include: { user } })].  The pair
    (projectId, userId) is unique; the user and the project must exist. *)
Definition projectMember_create (env : Env)
    (projectId userId : string) (projectRole : ProjectRole.t)
    : Tx (ProjectMember.t * User.t) :=
  statement env (fun k s =>
    if pair_is_free projectId userId s
    then
      match user_findUnique userId s with
      | None => Thrown (PrismaErr "P2003")
      | Some u =>
          let row := ProjectMember.mk (uuid env k) projectId userId
                                      projectRole (db_now env) in
          if project_exists projectId s
          then Returned ((row, u),
                         set_project_members s (project_members s ++ [row]))
          else Thrown (PrismaErr "P2003")
      end
    else Thrown (PrismaErr "P2002")).

(** [tx.projectMember.findUnique({ where: { id }, include: { user } })] *)
Definition tx_projectMember_findUnique (env : Env) (id : string)
    : Tx (option (ProjectMember.t * option User.t)) :=
  statement env (fun _ s =>
    match projectMember_findUnique id s with
    | None => Returned (None, s)
    | Some m => Returned (Some (m, user_findUnique (ProjectMember.userId m) s), s)
    end).

Definition member_apply (projectRole : ProjectRole.t) (m : ProjectMember.t)
    : ProjectMember.t :=
  ProjectMember.mk (ProjectMember.id m) (ProjectMember.projectId m)
                   (ProjectMember.userId m) projectRole
                   (ProjectMember.joinedAt m).

(** [tx.projectMember.update({ where: { id }, data: { projectRole } })] *)
Definition projectMember_update (env : Env) (id : string)
    (projectRole : ProjectRole.t) : Tx ProjectMember.t :=
  statement env (fun _ s =>
    match projectMember_findUnique id s with
    | None => Thrown (PrismaErr "P2025")
    | Some m =>
        Returned (member_apply projectRole m,
                  set_project_members s
                    (map (fun r => if ProjectMember.id r =? id
                                   then member_apply projectRole r else r)
                         (project_members s)))
    end).

(** [tx.projectMember.delete({ where: { id } })] *)
Definition projectMember_delete (env : Env) (id : string) : Tx unit :=
  statement env (fun _ s =>
    match projectMember_findUnique id s with
    | None => Thrown (PrismaErr "P2025")
    | Some _ =>
        Returned (tt,
                  set_project_members s
                    (filter (fun r => negb (ProjectMember.id r =? id))
                            (project_members s)))
    end).

(** [tx.auditLog.create({ data })].  The actor of a row is the user of the
    request, whom the authentication found in the store; the reference of
    [actorId] to the users is not checked again here. *)
Definition auditLog_create (env : Env) (entityType entityId : string)
    (action : AuditAction.t) (actorId : string)
    (details : Js.object Js.value) : Tx AuditLog.t :=
  statement env (fun k s =>
    let row := AuditLog.mk (uuid env k) entityType entityId action actorId
                           (db_now env) details in
    Returned (row, set_audit_logs s (audit_logs s ++ [row]))).

(** [prisma.user.update({ where: { id }, data: { name, role } })], issued on
    the client itself: one statement, committed on its own. *)
Definition user_apply (name : option string) (role : option UserRole.t)
    (u : User.t) : User.t :=
  User.mk (User.id u) (User.email u) (or_current name (User.name u))
          (User.password u) (or_current role (User.role u))
          (User.createdAt u).

Definition user_update (env : Env) (id : string) (name : option string)
    (role : option UserRole.t) : Service User.t :=
  fun s =>
    if aborts env 0 then (Thrown (PrismaErr "aborted"), s)
    else
      match user_findUnique id s with
      | None => (Thrown (PrismaErr "P2025"), s)
      | Some u =>
          (Returned (user_apply name role u),
           set_users s (map (fun r => if User.id r =? id
                                      then user_apply name role r else r)
                            (users s)))
      end.

End Prisma.

(** ** Repositories *)

Module AuditRepository.
(** [create(tx, data)]: one row, through the caller's transaction client. *)
Definition create (env : Env) (entityType entityId : string)
    (action : AuditAction.t) (actorId : string)
    (details : Js.object Js.value) : Tx AuditLog.t :=
  Prisma.auditLog_create env entityType entityId action actorId details.
End AuditRepository.

Module TaskRepository.
Definition findById (id : string) (s : Store) : option Task.t :=
  Prisma.task_findUnique id s.
End TaskRepository.

Module ProjectRepository.
(** The included members and task count are not used by the services. *)
Definition findById (id : string) (s : Store) : option Project.t :=
  Prisma.project_findUnique id s.

(** [member?.projectRole || null] *)
Definition getUserProjectRole (projectId userId : string) (s : Store)
    : option ProjectRole.t :=
  match Prisma.projectMember_findUnique_projectId_userId projectId userId s with
  | Some member => Some (ProjectMember.projectRole member)
  | None => None
  end.
End ProjectRepository.

Module UserRepository.
Definition findById (id : string) (s : Store) : option User.t :=
  Prisma.user_findUnique id s.

Definition update (env : Env) (id : string) (name : option string)
    (role : option UserRole.t) : Service User.t :=
  Prisma.user_update env id name role.
End UserRepository.

(** ** Task service (services/task.service.ts) *)

Module CreateTaskData.
Record t : Type := mk {
  title : string;
  description : option string;
  priority : option string;
  dueDate : option Z;
  projectId : string;
  assigneeId : option (option string)
}.
End CreateTaskData.

(** The [data] of [update]: the object the controller passes on, which is
    the body of the request as the client sent it ([validate] checks the body
    against the schema of the route and hands on the body itself).  The six
    properties of the interface are as the schema admits them: an optional
    property is [None] when absent, a nullable one is [Some None] when
    [null]; a due date is a [Date] for a caller that follows the interface
    and a string in a body.  [others] holds the properties of the object
    under other keys than these six, which the schema lets through. *)
Module UpdateTaskData.
Record t : Type := mk {
  title : option string;
  description : option (option string);
  status : option TaskStatus.t;
  priority : option (option string);
  dueDate : option (option Prisma.DateInput);
  assigneeId : option (option string);
  others : Js.object Js.value
}.
End UpdateTaskData.

(** The keys of [UpdateTaskData] *)
Module Field.
Inductive t : Type :=
  title | description | status | priority | assigneeId | dueDate.

Definition name (f : t) : string :=
  match f with
  | title => "title"
  | description => "description"
  | status => "status"
  | priority => "priority"
  | assigneeId => "assigneeId"
  | dueDate => "dueDate"
  end.
End Field.

Module TaskService.

Definition getById (id : string) : Service Task.t :=
  fun s =>
    match TaskRepository.findById id s with
    | None => (Thrown (AppErr (AppError.notFound "Task not found"
                                 ErrorCodes.TASK.NOT_FOUND)), s)
    | Some task => (Returned task, s)
    end.

(** [validateAssignee(projectId, assigneeId)].  [!assigneeId] holds for
    [undefined], [null] and the empty string. *)
Definition validateAssignee (projectId : string)
    (assigneeId : option (option string)) (s : Store) : Outcome unit :=
  match assigneeId with
  | None | Some None => Returned tt
  | Some (Some a) =>
      if a =? "" then Returned tt
      else
        match ProjectRepository.getUserProjectRole projectId a s with
        | None =>
            match Prisma.user_findUnique a s with
            | None =>
                Thrown (AppErr (AppError.badRequest
                  "Assignee not found"
                  ErrorCodes.TASK.ASSIGNEE_NOT_FOUND
                  [("assigneeId", Js.Str a)]))
            | Some user =>
                match User.role user with
                | UserRole.ADMIN => Returned tt
                | _ =>
                    Thrown (AppErr (AppError.badRequest
                      "Assignee is not a member of this project"
                      ErrorCodes.TASK.ASSIGNEE_NOT_IN_PROJECT
                      [("assigneeId", Js.Str a); ("projectId", Js.Str projectId)]))
                end
            end
        | Some ProjectRole.VIEWER =>
            Thrown (AppErr (AppError.badRequest
              "Cannot assign tasks to view-only users. Viewers have read-only access."
              ErrorCodes.TASK.VIEWER_CANNOT_BE_ASSIGNED
              [("assigneeId", Js.Str a); ("projectRole", Js.Str "VIEWER")]))
        | Some ProjectRole.MEMBER => Returned tt
        end
  end.

(** The [details] of the CREATE row, as the JSON column keeps them. *)
Definition create_details (data : CreateTaskData.t) : Js.object Js.value :=
  Js.defined
    [ ("title", Js.Str (CreateTaskData.title data));
      ("description", Js.of_optional Js.Str (CreateTaskData.description data));
      ("priority", Js.of_optional Js.Str (CreateTaskData.priority data));
      ("dueDate", Js.of_optional Js.Date (CreateTaskData.dueDate data));
      ("projectId", Js.Str (CreateTaskData.projectId data));
      ("assigneeId",
        Js.of_optional Js.of_nullable_string (CreateTaskData.assigneeId data)) ].

(** [create(data, actorId)] *)
Definition create (env : Env) (data : CreateTaskData.t) (actorId : string)
    : Service Task.t :=
  fun s =>
    match validateAssignee (CreateTaskData.projectId data)
                           (CreateTaskData.assigneeId data) s with
    | Thrown e => (Thrown e, s)
    | Returned _ =>
        transaction env
          (task <- Prisma.task_create env
                     (Prisma.mkTaskCreateInput
                        (CreateTaskData.title data)
                        (CreateTaskData.description data)
                        (CreateTaskData.priority data)
                        (CreateTaskData.dueDate data)
                        (CreateTaskData.projectId data)
                        (CreateTaskData.assigneeId data)
                        actorId) ;;
           _ <- AuditRepository.create env "Task" (Task.id task)
                  AuditAction.CREATE actorId (create_details data) ;;
           ret task) s
    end.

(** A due date of the patch as a value: the [Date], or the string. *)
Definition of_date_input (d : Prisma.DateInput) : Js.value :=
  match d with
  | Prisma.OfDate ms => Js.Date ms
  | Prisma.OfString text => Js.Str text
  end.

Definition of_nullable_date_input (o : option Prisma.DateInput) : Js.value :=
  match o with Some d => of_date_input d | None => Js.Null end.

(** [data[field]] and [current[field]] *)
Definition data_get (data : UpdateTaskData.t) (field : Field.t) : Js.value :=
  match field with
  | Field.title => Js.of_optional Js.Str (UpdateTaskData.title data)
  | Field.description =>
      Js.of_optional Js.of_nullable_string (UpdateTaskData.description data)
  | Field.status =>
      Js.of_optional (fun st => Js.Str (TaskStatus.to_string st))
                     (UpdateTaskData.status data)
  | Field.priority =>
      Js.of_optional Js.of_nullable_string (UpdateTaskData.priority data)
  | Field.assigneeId =>
      Js.of_optional Js.of_nullable_string (UpdateTaskData.assigneeId data)
  | Field.dueDate =>
      Js.of_optional of_nullable_date_input (UpdateTaskData.dueDate data)
  end.

Definition current_get (current : Task.t) (field : Field.t) : Js.value :=
  match field with
  | Field.title => Js.Str (Task.title current)
  | Field.description => Js.of_nullable_string (Task.description current)
  | Field.status => Js.Str (TaskStatus.to_string (Task.status current))
  | Field.priority => Js.of_nullable_string (Task.priority current)
  | Field.assigneeId => Js.of_nullable_string (Task.assigneeId current)
  | Field.dueDate => Js.of_nullable_date (Task.dueDate current)
  end.

Definition fieldsToCheck : list Field.t :=
  [ Field.title; Field.description; Field.status; Field.priority;
    Field.assigneeId; Field.dueDate ].

(** The body of the loop over [fieldsToCheck] *)
Definition diff_field (env : Env) (current : Task.t) (data : UpdateTaskData.t)
    (diff : Js.object Js.value) (field : Field.t) : Js.object Js.value :=
  match data_get data field with
  | Js.Undefined => diff
  | newVal =>
      let oldVal := current_get current field in
      if negb (Js.String_of (date_toString env) oldVal
               =? Js.String_of (date_toString env) newVal)
      then Js.set diff (Field.name field)
                  (Js.Obj [("old", oldVal); ("new", newVal)])
      else diff
  end.

Definition compute_diff (env : Env) (current : Task.t)
    (data : UpdateTaskData.t) : Js.object Js.value :=
  fold_left (diff_field env current data) fieldsToCheck [].

(** The assignment to [updateData.completedAt]: the current time on
    entering DONE, [null] on leaving it, none otherwise. *)
Definition completedAt_of (env : Env) (current : Task.t)
    (data : UpdateTaskData.t) : option (option Z) :=
  match UpdateTaskData.status data with
  | Some st =>
      if TaskStatus.eqb st TaskStatus.DONE
         && negb (TaskStatus.eqb (Task.status current) TaskStatus.DONE)
      then Some (Some (js_now env))
      else if negb (TaskStatus.eqb st TaskStatus.DONE)
              && TaskStatus.eqb (Task.status current) TaskStatus.DONE
      then Some None
      else None
  | None => None
  end.

(** [updateData = { ...data }]: every property of [data], and then the
    assignment to [updateData.completedAt] on a status transition, which
    replaces a [completedAt] that [data] carries. *)
Definition updateData (env : Env) (current : Task.t) (data : UpdateTaskData.t)
    : Prisma.TaskUpdateInput :=
  Prisma.mkTaskUpdateInput
    (UpdateTaskData.title data)
    (UpdateTaskData.description data)
    (UpdateTaskData.status data)
    (UpdateTaskData.priority data)
    (UpdateTaskData.dueDate data)
    (UpdateTaskData.assigneeId data)
    (match completedAt_of env current data with
     | Some v =>
         Js.set (UpdateTaskData.others data) "completedAt"
                (Js.of_nullable_date v)
     | None => UpdateTaskData.others data
     end).

(** [update(id, data, actorId)] *)
Definition update (env : Env) (id : string) (data : UpdateTaskData.t)
    (actorId : string) : Service Task.t :=
  fun s =>
    match TaskRepository.findById id s with
    | None => (Thrown (AppErr (AppError.notFound "Task not found"
                                 ErrorCodes.TASK.NOT_FOUND)), s)
    | Some current =>
        match
          match UpdateTaskData.assigneeId data with
          | Some a => validateAssignee (Task.projectId current) (Some a) s
          | None => Returned tt
          end
        with
        | Thrown e => (Thrown e, s)
        | Returned _ =>
            transaction env
              (task <- Prisma.task_update env id (updateData env current data) ;;
               let diff := compute_diff env current data in
               if (0 <? length (Js.keys diff))%nat
               then _ <- AuditRepository.create env "Task" id
                           AuditAction.UPDATE actorId diff ;;
                    ret task
               else ret task) s
        end
    end.

Definition delete_details (task : Task.t) : Js.object Js.value :=
  [ ("title", Js.Str (Task.title task));
    ("description", Js.of_nullable_string (Task.description task));
    ("status", Js.Str (TaskStatus.to_string (Task.status task)));
    ("priority", Js.of_nullable_string (Task.priority task));
    ("dueDate", Js.of_nullable_date (Task.dueDate task));
    ("projectId", Js.Str (Task.projectId task));
    ("assigneeId", Js.of_nullable_string (Task.assigneeId task)) ].

(** [delete(id, actorId)] *)
Definition delete (env : Env) (id : string) (actorId : string)
    : Service unit :=
  fun s =>
    match TaskRepository.findById id s with
    | None => (Thrown (AppErr (AppError.notFound "Task not found"
                                 ErrorCodes.TASK.NOT_FOUND)), s)
    | Some task =>
        transaction env
          (_ <- Prisma.task_delete env id ;;
           _ <- AuditRepository.create env "Task" id AuditAction.DELETE
                  actorId (delete_details task) ;;
           ret tt) s
    end.

End TaskService.

(** ** Project service *)

(** The [data] of [update]: the body of the request, as for a task.
    [others] holds the properties under other keys than [name] and
    [description]. *)
Module UpdateProjectData.
Record t : Type := mk {
  name : option string;
  description : option (option string);
  others : Js.object Js.value
}.
End UpdateProjectData.

Module ProjectService.

(** [create(data, actorId)] *)
Definition create (env : Env) (name : string) (description : option string)
    (actorId : string) : Service Project.t :=
  transaction env
    (project <- Prisma.project_create env name description ;;
     _ <- AuditRepository.create env "Project" (Project.id project)
            AuditAction.CREATE actorId
            (Js.defined
               [ ("name", Js.Str name);
                 ("description", Js.of_optional Js.Str description) ]) ;;
     ret project).

(** [a !== b] on [string | null] *)
Definition nullable_string_eqb (a b : option string) : bool :=
  match a, b with
  | Some x, Some y => x =? y
  | None, None => true
  | _, _ => false
  end.

(** The two [if]s that fill [diff] *)
Definition compute_diff (current : Project.t) (data : UpdateProjectData.t)
    : Js.object Js.value :=
  let diff := [] in
  let diff :=
    match UpdateProjectData.name data with
    | Some n =>
        if negb (n =? Project.name current)
        then Js.set diff "name"
               (Js.Obj [("old", Js.Str (Project.name current));
                        ("new", Js.Str n)])
        else diff
    | None => diff
    end in
  match UpdateProjectData.description data with
  | Some d =>
      if negb (nullable_string_eqb d (Project.description current))
      then Js.set diff "description"
             (Js.Obj [("old", Js.of_nullable_string (Project.description current));
                      ("new", Js.of_nullable_string d)])
      else diff
  | None => diff
  end.

(** [update(id, data, actorId)] *)
Definition update (env : Env) (id : string) (data : UpdateProjectData.t)
    (actorId : string) : Service Project.t :=
  fun s =>
    match ProjectRepository.findById id s with
    | None => (Thrown (AppErr (AppError.notFound "Project not found"
                                 ErrorCodes.PROJECT.NOT_FOUND)), s)
    | Some current =>
        transaction env
          (updated <- Prisma.project_update env id
                        (UpdateProjectData.name data)
                        (UpdateProjectData.description data)
                        (UpdateProjectData.others data) ;;
           let diff := compute_diff current data in
           if (0 <? length (Js.keys diff))%nat
           then _ <- AuditRepository.create env "Project" id
                       AuditAction.UPDATE actorId diff ;;
                ret updated
           else ret updated) s
    end.

(** [delete(id, actorId)] *)
Definition delete (env : Env) (id : string) (actorId : string)
    : Service unit :=
  fun s =>
    match ProjectRepository.findById id s with
    | None => (Thrown (AppErr (AppError.notFound "Project not found"
                                 ErrorCodes.PROJECT.NOT_FOUND)), s)
    | Some project =>
        transaction env
          (_ <- Prisma.project_delete env id ;;
           _ <- AuditRepository.create env "Project" id AuditAction.DELETE
                  actorId
                  [ ("name", Js.Str (Project.name project));
                    ("description",
                      Js.of_nullable_string (Project.description project)) ] ;;
           ret tt) s
    end.

Definition memberAdded (userId : string) (user : User.t)
    (projectRole : ProjectRole.t) : Js.object Js.value :=
  [ ("memberAdded",
     Js.Obj [ ("userId", Js.Str userId);
              ("userName", Js.Str (User.name user));
              ("userEmail", Js.Str (User.email user));
              ("projectRole", Js.Str (ProjectRole.to_string projectRole)) ]) ].

(** [addMember(projectId, userId, projectRole, actorId)] *)
Definition addMember (env : Env) (projectId userId : string)
    (projectRole : ProjectRole.t) (actorId : string)
    : Service (ProjectMember.t * User.t) :=
  fun s =>
    match ProjectRepository.findById projectId s with
    | None => (Thrown (AppErr (AppError.notFound "Project not found"
                                 ErrorCodes.PROJECT.NOT_FOUND)), s)
    | Some _ =>
        match UserRepository.findById userId s with
        | None => (Thrown (AppErr (AppError.badRequest "User not found"
                                     ErrorCodes.USER.NOT_FOUND
                                     [("userId", Js.Str userId)])), s)
        | Some _ =>
            match ProjectRepository.getUserProjectRole projectId userId s with
            | Some existingRole =>
                (Thrown (AppErr (AppError.badRequest
                   "User is already a member of this project"
                   ErrorCodes.PROJECT.MEMBER_ALREADY_EXISTS
                   [ ("userId", Js.Str userId);
                     ("projectId", Js.Str projectId);
                     ("existingRole",
                       Js.Str (ProjectRole.to_string existingRole)) ])), s)
            | None =>
                transaction env
                  (member <- Prisma.projectMember_create env projectId userId
                               projectRole ;;
                   _ <- AuditRepository.create env "Project" projectId
                          AuditAction.UPDATE actorId
                          (memberAdded userId (snd member) projectRole) ;;
                   ret member) s
            end
        end
    end.

(** [member.user.name] of an included user.  The relation is required by
    the schema; the absent case only arises in a store that breaks the
    foreign key. *)
Definition included_name (user : option User.t) : Js.value :=
  match user with Some u => Js.Str (User.name u) | None => Js.Undefined end.

Definition included_email (user : option User.t) : Js.value :=
  match user with Some u => Js.Str (User.email u) | None => Js.Undefined end.

Definition memberRoleChanged (member : ProjectMember.t) (user : option User.t)
    (oldRole newRole : ProjectRole.t) : Js.object Js.value :=
  [ ("memberRoleChanged",
     Js.Obj [ ("userId", Js.Str (ProjectMember.userId member));
              ("userName", included_name user);
              ("projectRole",
                Js.Obj [ ("old", Js.Str (ProjectRole.to_string oldRole));
                         ("new", Js.Str (ProjectRole.to_string newRole)) ]) ]) ].

(** [updateMemberRole(projectId, memberId, newRole, actorId)] *)
Definition updateMemberRole (env : Env) (projectId memberId : string)
    (newRole : ProjectRole.t) (actorId : string) : Service ProjectMember.t :=
  fun s =>
    match Prisma.projectMember_findUnique memberId s with
    | None => (Thrown (AppErr (AppError.notFound
                 "Member not found in this project"
                 ErrorCodes.PROJECT.MEMBER_NOT_FOUND)), s)
    | Some member =>
        if negb (ProjectMember.projectId member =? projectId)
        then (Thrown (AppErr (AppError.notFound
                "Member not found in this project"
                ErrorCodes.PROJECT.MEMBER_NOT_FOUND)), s)
        else
          let oldRole := ProjectMember.projectRole member in
          if ProjectRole.eqb oldRole newRole
          then (Returned member, s)
          else
            transaction env
              (updated <- Prisma.projectMember_update env memberId newRole ;;
               _ <- AuditRepository.create env "Project" projectId
                      AuditAction.UPDATE actorId
                      (memberRoleChanged member
                         (Prisma.user_findUnique (ProjectMember.userId member) s)
                         oldRole newRole) ;;
               ret updated) s
    end.

Definition memberRemoved (member : ProjectMember.t) (user : option User.t)
    : Js.object Js.value :=
  [ ("memberRemoved",
     Js.Obj [ ("userId", Js.Str (ProjectMember.userId member));
              ("userName", included_name user);
              ("userEmail", included_email user);
              ("projectRole",
                Js.Str (ProjectRole.to_string
                          (ProjectMember.projectRole member))) ]) ].

(** [removeMember(projectId, memberId, actorId)]: the lookup and the check
    are inside the transaction callback. *)
Definition removeMember (env : Env) (projectId memberId : string)
    (actorId : string) : Service unit :=
  transaction env
    (found <- Prisma.tx_projectMember_findUnique env memberId ;;
     match found with
     | None => throw (AppErr (AppError.notFound
                        "Member not found in this project"
                        ErrorCodes.PROJECT.MEMBER_NOT_FOUND))
     | Some (member, user) =>
         if negb (ProjectMember.projectId member =? projectId)
         then throw (AppErr (AppError.notFound
                       "Member not found in this project"
                       ErrorCodes.PROJECT.MEMBER_NOT_FOUND))
         else
           _ <- Prisma.projectMember_delete env memberId ;;
           _ <- AuditRepository.create env "Project" projectId
                  AuditAction.UPDATE actorId (memberRemoved member user) ;;
           ret tt
     end).

End ProjectService.

(** ** User controller: [update] *)

Module UserController.

(** The parts of the request that [update] reads: [req.params.id],
    [req.user!.id] and the [name] and [role] of the body. *)
Record UpdateRequest : Type := mkUpdateRequest {
  params_id : string;
  user_id : string;
  body_name : option string;
  body_role : option UserRole.t
}.

(** The user of the response, without the password. *)
Record UserWithoutPassword : Type := mkUserWithoutPassword {
  r_id : string;
  r_email : string;
  r_name : string;
  r_role : UserRole.t;
  r_createdAt : Z
}.

Definition withoutPassword (u : User.t) : UserWithoutPassword :=
  mkUserWithoutPassword (User.id u) (User.email u) (User.name u)
                        (User.role u) (User.createdAt u).

(** [update]: on success the response has status 200 and carries the
    updated user. *)
Definition update (env : Env) (req : UpdateRequest)
    : Service (Z * UserWithoutPassword) :=
  fun s =>
    let id := params_id req in
    match UserRepository.findById id s with
    | None => (Thrown (AppErr (AppError.new "User not found" 404)), s)
    | Some existingUser =>
        if (user_id req =? id)
           && match body_role req with
              | Some role => negb (UserRole.eqb role (User.role existingUser))
              | None => false
              end
        then (Thrown (AppErr (AppError.new "Cannot change your own role" 400)), s)
        else
          match UserRepository.update env id (body_name req) (body_role req) s with
          | (Returned updatedUser, s') =>
              (Returned (200, withoutPassword updatedUser), s')
          | (Thrown e, s') => (Thrown e, s')
          end
    end.

End UserController.

(** ** Analytics service

    The SQL of the raw queries is evaluated over the task table with exact
    rational arithmetic: timestamps are milliseconds, a duration in hours
    is a rational (the quotient is not cut to the scale of the store's
    [numeric]), and [toFixed(2)] rounds a rational to hundredths. *)

Module AnalyticsService.

(** [GROUP BY] with [COUNT( * )]: one row per key that occurs. *)
Definition bump (groups : Js.object nat) (k : string) : Js.object nat :=
  match Js.get groups k with
  | Some n => Js.set groups k (S n)
  | None => Js.set groups k 1%nat
  end.

Definition group_count (ks : list string) : Js.object nat :=
  fold_left bump ks [].

(** [results.forEach(row => { o[row.key] = row.count })] *)
Definition assign_all (o : Js.object nat) (rows : Js.object nat)
    : Js.object nat :=
  fold_left (fun acc row => Js.set acc (fst row) (snd row)) rows o.

(** [getTasksByStatus(projectId)] *)
Definition getTasksByStatus (projectId : string) (s : Store) : Js.object nat :=
  let results :=
    group_count
      (map (fun t => TaskStatus.to_string (Task.status t))
           (filter (fun t => Task.projectId t =? projectId) (tasks s))) in
  assign_all [("TODO", 0%nat); ("IN_PROGRESS", 0%nat); ("DONE", 0%nat)] results.

(** [projectId, status: { not: 'DONE' }, dueDate: { lt: new Date() }] *)
Definition overdue (env : Env) (projectId : string) (t : Task.t) : bool :=
  (Task.projectId t =? projectId)
  && negb (TaskStatus.eqb (Task.status t) TaskStatus.DONE)
  && match Task.dueDate t with
     | Some d => (d <? js_now env)%Z
     | None => false
     end.

(** [getOverdueCount(projectId)] *)
Definition getOverdueCount (env : Env) (projectId : string) (s : Store) : nat :=
  length (filter (overdue env projectId) (tasks s)).

Definition due (t : Task.t) : Z :=
  match Task.dueDate t with Some d => d | None => 0 end.

(** [orderBy: { dueDate: 'asc' }] *)
Fixpoint insert_by_due (t : Task.t) (l : list Task.t) : list Task.t :=
  match l with
  | [] => [t]
  | x :: rest =>
      if (due t <? due x)%Z then t :: x :: rest
      else x :: insert_by_due t rest
  end.

Definition order_by_due (l : list Task.t) : list Task.t :=
  fold_right insert_by_due [] l.

(** [getOverdueTasks(projectId, limit = 5)]; the included assignee and
    reporter are left out. *)
Definition getOverdueTasks (env : Env) (projectId : string) (limit : nat)
    (s : Store) : list Task.t :=
  firstn limit (order_by_due (filter (overdue env projectId) (tasks s))).

(** [EXTRACT(EPOCH FROM ("completedAt" - "createdAt")) / 3600] *)
Definition duration_hours (createdAt completedAt : Z) : Q :=
  (completedAt - createdAt) # 3600000.

(** The rows of
    [WHERE "projectId" = ... AND "status" = 'DONE' AND "completedAt" IS NOT NULL],
    as their durations. *)
Definition completed_durations (projectId : string) (s : Store) : list Q :=
  flat_map (fun t =>
              if (Task.projectId t =? projectId)
                 && TaskStatus.eqb (Task.status t) TaskStatus.DONE
              then match Task.completedAt t with
                   | Some c => [duration_hours (Task.createdAt t) c]
                   | None => []
                   end
              else [])
           (tasks s).

(** SQL [AVG]: [NULL] over no row. *)
Definition sql_avg (l : list Q) : option Q :=
  match l with
  | [] => None
  | _ => Some (fold_right Qplus 0%Q l / inject_Z (Z.of_nat (length l)))%Q
  end.

(** [x.toFixed(2)] of the decimal that the store returns for [AVG]: the
    nearest hundredth, the one away from zero on a tie (the rounding mode of
    the decimal library); [parseFloat] reads that decimal back. *)
Definition nearest_hundredth (x : Q) : Z :=
  ((200 * Qnum x + Zpos (Qden x)) / (2 * Zpos (Qden x)))%Z.

Definition toFixed2 (x : Q) : Q :=
  if Qle_bool 0 x then nearest_hundredth x # 100
  else (- nearest_hundredth (- x))%Z # 100.

(** [getAvgCompletionTime(projectId)]:
    [result[0]?.avg_hours ? parseFloat(result[0].avg_hours.toFixed(2)) : null].
    The store returns the average of a [numeric] expression as a decimal
    object, or [null] over no row; the condition is false for [null] only:
    an object is truthy, also the decimal zero. *)
Definition getAvgCompletionTime (projectId : string) (s : Store) : option Q :=
  match sql_avg (completed_durations projectId s) with
  | None => None
  | Some avg_hours => Some (toFixed2 avg_hours)
  end.

(** The [CASE] of the histogram query *)
Definition range_of (duration_hours : Q) : string :=
  if negb (Qle_bool 24 duration_hours) then "< 1 Day"
  else if Qle_bool 24 duration_hours && Qle_bool duration_hours 72
  then "1-3 Days"
  else if Qle_bool 72 duration_hours && Qle_bool duration_hours 168
  then "3-7 Days"
  else "> 7 Days".

(** [getCompletionTimeDistribution(projectId)] *)
Definition getCompletionTimeDistribution (projectId : string) (s : Store)
    : Js.object nat :=
  let results := group_count (map range_of (completed_durations projectId s)) in
  assign_all [ ("< 1 Day", 0%nat); ("1-3 Days", 0%nat);
               ("3-7 Days", 0%nat); ("> 7 Days", 0%nat) ] results.

Record ProjectAnalytics : Type := mkProjectAnalytics {
  projectId : string;
  tasksByStatus : Js.object nat;
  overdueCount : nat;
  overdueTasks : list Task.t;
  avgCompletionTimeHours : option Q;
  completionTimeDistribution : Js.object nat
}.

(** [getProjectAnalytics(projectId)] *)
Definition getProjectAnalytics (env : Env) (projectId : string) (s : Store)
    : ProjectAnalytics :=
  mkProjectAnalytics projectId
    (getTasksByStatus projectId s)
    (getOverdueCount env projectId s)
    (getOverdueTasks env projectId 5 s)
    (getAvgCompletionTime projectId s)
    (getCompletionTimeDistribution projectId s).

End AnalyticsService.

(** ** A sample environment and sample stores for the examples *)

Module Sample.

(** The date-time strings of the examples, in the form that
    [Date.prototype.toISOString] writes, with their instants. *)
Definition iso_instant (text : string) : option Z :=
  if text =? "2023-11-20T17:06:40.000Z" then Some 1700500000000
  else if text =? "2023-11-09T03:20:00.000Z" then Some 1699500000000
  else if text =? "2020-01-01T00:00:00.000Z" then Some 1577836800000
  else None.

(** No statement aborts; a date is rendered to the second; the date-time
    strings that are read are those of [iso_instant]. *)
Definition env : Env :=
  mkEnv 1700000600000 1700000000000
        (fun k => "gen-" ++ NilZero.string_of_uint (Nat.to_uint k))
        (fun ms => "date:" ++ NilZero.string_of_int (Z.to_int (ms / 1000)))
        iso_instant
        (fun _ => false)
        TaskStatus.TODO
        None.

Definition admin : User.t :=
  User.mk "u-admin" "admin@example.com" "Ada" "hash-a" UserRole.ADMIN 1000.
Definition member : User.t :=
  User.mk "u-member" "member@example.com" "Mem" "hash-m" UserRole.MEMBER 2000.
Definition viewer : User.t :=
  User.mk "u-viewer" "viewer@example.com" "Vic" "hash-v" UserRole.VIEWER 3000.
Definition outsider : User.t :=
  User.mk "u-outsider" "out@example.com" "Out" "hash-o" UserRole.MEMBER 4000.

Definition project : Project.t :=
  Project.mk "p1" "Apollo" (Some "Launch plan") 5000 5000.

Definition todo_task : Task.t :=
  Task.mk "t-todo" "Write report" None TaskStatus.TODO (Some "High")
          (Some 1700500000000) None 1699000000000 1699000000000 "p1"
          (Some "u-member") "u-admin".

Definition done_task : Task.t :=
  Task.mk "t-done" "Ship build" (Some "v1") TaskStatus.DONE None None
          (Some 1699500000000) 1699000000000 1699500000000 "p1" None
          "u-member".

Definition store : Store :=
  mkStore [admin; member; viewer; outsider]
          [project]
          [ ProjectMember.mk "m1" "p1" "u-member" ProjectRole.MEMBER 6000;
            ProjectMember.mk "m2" "p1" "u-viewer" ProjectRole.VIEWER 7000 ]
          [todo_task; done_task]
          [].

(** The sample store after the administrator was added to the project as a
    viewer. *)
Definition store_admin_viewer : Store :=
  snd (ProjectService.addMember env "p1" "u-admin" ProjectRole.VIEWER
         "u-admin" store).

(** A project whose only task was completed at the instant of its creation. *)
Definition instant_task : Task.t :=
  Task.mk "t-instant" "Import data" None TaskStatus.DONE None None
          (Some 1699000000000) 1699000000000 1699000000000 "p1" None
          "u-admin".

Definition store_instant : Store :=
  mkStore [admin] [project] [] [instant_task] [].

(** An environment whose store aborts statement [k] of a transaction. *)
Definition env_aborting (k : nat) : Env :=
  mkEnv (js_now env) (db_now env) (uuid env) (date_toString env)
        (date_parse env) (fun n => Nat.eqb n k) (default_status env)
        (default_priority env).

End Sample.

(** ** Sample patches and requests *)

Module SampleInput.

(** [{ status: 'DONE' }] *)
Definition patch_complete : UpdateTaskData.t :=
  UpdateTaskData.mk None None (Some TaskStatus.DONE) None None None [].

(** [{ status: 'TODO' }] *)
Definition patch_reopen : UpdateTaskData.t :=
  UpdateTaskData.mk None None (Some TaskStatus.TODO) None None None [].

(** A patch that repeats values of [Sample.todo_task]. *)
Definition patch_same : UpdateTaskData.t :=
  UpdateTaskData.mk (Some "Write report") (Some None) (Some TaskStatus.TODO)
                    (Some (Some "High")) None (Some (Some "u-member")) [].

(** [{ description: 'null' }] *)
Definition patch_null_string : UpdateTaskData.t :=
  UpdateTaskData.mk None (Some (Some "null")) None None None None [].

(** [Sample.todo_task] after [patch_complete] in [Sample.env] *)
Definition todo_completed : Task.t :=
  Task.mk "t-todo" "Write report" None TaskStatus.DONE (Some "High")
          (Some 1700500000000) (Some 1700000600000) 1699000000000
          1700000000000 "p1" (Some "u-member") "u-admin".

(** [Sample.done_task] after [patch_reopen] *)
Definition done_reopened : Task.t :=
  Task.mk "t-done" "Ship build" (Some "v1") TaskStatus.TODO None None
          None 1699000000000 1700000000000 "p1" None "u-member".

(** [Sample.todo_task] after [patch_null_string] *)
Definition todo_null_string : Task.t :=
  Task.mk "t-todo" "Write report" (Some "null") TaskStatus.TODO (Some "High")
          (Some 1700500000000) None 1699000000000 1700000000000 "p1"
          (Some "u-member") "u-admin".

(** [{ dueDate: '2023-11-20T17:06:40.000Z' }]: the due date that
    [Sample.todo_task] has, as a body carries it. *)
Definition patch_same_due : UpdateTaskData.t :=
  UpdateTaskData.mk None None None None
    (Some (Some (Prisma.OfString "2023-11-20T17:06:40.000Z"))) None [].

(** [Sample.todo_task] after an update that changes no column of its own *)
Definition todo_touched : Task.t :=
  Task.mk "t-todo" "Write report" None TaskStatus.TODO (Some "High")
          (Some 1700500000000) None 1699000000000 1700000000000 "p1"
          (Some "u-member") "u-admin".

(** [{ completedAt: null }] *)
Definition patch_clear_completedAt : UpdateTaskData.t :=
  UpdateTaskData.mk None None None None None None [("completedAt", Js.Null)].

(** [Sample.done_task] after [patch_clear_completedAt] *)
Definition done_without_completedAt : Task.t :=
  Task.mk "t-done" "Ship build" (Some "v1") TaskStatus.DONE None None
          None 1699000000000 1700000000000 "p1" None "u-member".

(** [{ title: 'Write report', projectId: 'p2', reporterId: 'u-outsider',
       createdAt: '2020-01-01T00:00:00.000Z' }] *)
Definition patch_move : UpdateTaskData.t :=
  UpdateTaskData.mk (Some "Write report") None None None None None
    [ ("projectId", Js.Str "p2");
      ("reporterId", Js.Str "u-outsider");
      ("createdAt", Js.Str "2020-01-01T00:00:00.000Z") ].

(** [Sample.todo_task] after [patch_move] *)
Definition todo_moved : Task.t :=
  Task.mk "t-todo" "Write report" None TaskStatus.TODO (Some "High")
          (Some 1700500000000) None 1577836800000 1700000000000 "p2"
          (Some "u-member") "u-outsider".

(** A project patch that repeats the name of [Sample.project]. *)
Definition project_patch_same : UpdateProjectData.t :=
  UpdateProjectData.mk (Some "Apollo") None [].

(** [{ description: 'Moon' }] *)
Definition project_patch_describe : UpdateProjectData.t :=
  UpdateProjectData.mk None (Some (Some "Moon")) [].

Definition project_described : Project.t :=
  Project.mk "p1" "Apollo" (Some "Moon") 5000 1700000000000.

End SampleInput.

Module SampleCreate.

(** A task submitted for [Sample.project], assigned to its member. *)
Definition data : CreateTaskData.t :=
  CreateTaskData.mk "Plan sprint" (Some "two weeks") (Some "Low") None "p1"
                    (Some (Some "u-member")).

(** The row that [TaskService.create] inserts for [data] when the member
    is the actor, in [Sample.env]. *)
Definition created : Task.t :=
  Task.mk "gen-0" "Plan sprint" (Some "two weeks") TaskStatus.TODO
          (Some "Low") None None 1700000000000 1700000000000 "p1"
          (Some "u-member") "u-member".

End SampleCreate.

Module SampleAssign.

(** A task submitted for [Sample.project], assigned to the administrator. *)
Definition data_admin : CreateTaskData.t :=
  CreateTaskData.mk "Review budget" None None None "p1" (Some (Some "u-admin")).

(** The administrator sends their own id and their current role. *)
Definition request_same_role : UserController.UpdateRequest :=
  UserController.mkUpdateRequest "u-admin" "u-admin" None (Some UserRole.ADMIN).

(** The administrator sends their own id and another role. *)
Definition request_demote : UserController.UpdateRequest :=
  UserController.mkUpdateRequest "u-admin" "u-admin" None (Some UserRole.MEMBER).

End SampleAssign.

Module SampleProject.

(** A project without description, and the patch [{ description: 'null' }]. *)
Definition bare : Project.t := Project.mk "p2" "Gemini" None 8000 8000.

Definition store : Store := mkStore [Sample.admin] [bare] [] [] [].

Definition patch_null_string : UpdateProjectData.t :=
  UpdateProjectData.mk None (Some (Some "null")) [].

(** The sample store with [bare] as a second project. *)
Definition store_two_projects : Store :=
  set_projects Sample.store [Sample.project; bare].

End SampleProject.

(** The four ranges of the completion-time histogram *)
Definition ranges : list string :=
  ["< 1 Day"; "1-3 Days"; "3-7 Days"; "> 7 Days"].

(** ** Predicates of the statements *)

(** The patch repeats the task's current values: every property it
    carries is the current value of that property. *)
Definition task_patch_identical (current : Task.t) (data : UpdateTaskData.t)
    : Prop :=
  forall field : Field.t,
    TaskService.data_get data field = Js.Undefined
    \/ TaskService.data_get data field = TaskService.current_get current field.

Definition project_patch_identical (current : Project.t)
    (data : UpdateProjectData.t) : Prop :=
  (forall n, UpdateProjectData.name data = Some n -> n = Project.name current)
  /\ (forall d, UpdateProjectData.description data = Some d ->
                d = Project.description current).

(** An entry [{ old, new }] of an update diff *)
Definition change (old new : Js.value) : Js.value :=
  Js.Obj [("old", old); ("new", new)].

(** Modelled from the spec: the foreign keys of the member table, as a
    check of a store.  Every member row references a project and a user of
    the store. *)
Definition members_reference_rows (s : Store) : bool :=
  forallb (fun m => Prisma.project_exists (ProjectMember.projectId m) s
                    && Prisma.user_exists (ProjectMember.userId m) s)
          (project_members s).

(** No statement of the transaction is aborted by the store. *)
Definition never_aborts (env : Env) : Prop :=
  forall k : nat, aborts env k = false.

(** The user with this id has the global role ADMIN. *)
Definition is_global_admin (userId : string) (s : Store) : Prop :=
  exists u, Prisma.user_findUnique userId s = Some u
            /\ User.role u = UserRole.ADMIN.

(** What an entry of the diff of Task.update says: a checked field, carried
    by the patch, whose current and supplied values differ. *)
Definition diff_entry_ok (current : Task.t) (data : UpdateTaskData.t)
    (k : string) (v : Js.value) : Prop :=
  exists field,
    In field TaskService.fieldsToCheck
    /\ k = Field.name field
    /\ v = change (TaskService.current_get current field)
                  (TaskService.data_get data field)
    /\ TaskService.data_get data field <> Js.Undefined
    /\ TaskService.current_get current field <> TaskService.data_get data field.

(** The test of the diff loop, for one field and for the six: the patch
    has the property, and [String] renders the current value and the
    supplied one differently. *)
Definition field_is_logged (env : Env) (current : Task.t)
    (data : UpdateTaskData.t) (field : Field.t) : bool :=
  negb (Js.is_undefined (TaskService.data_get data field))
  && negb (Js.String_of (date_toString env)
             (TaskService.current_get current field)
           =? Js.String_of (date_toString env)
                (TaskService.data_get data field)).

Definition update_is_logged (env : Env) (current : Task.t)
    (data : UpdateTaskData.t) : bool :=
  existsb (field_is_logged env current data) TaskService.fieldsToCheck.

(** The same for Project.update. *)
Definition project_diff_entry_ok (current : Project.t)
    (data : UpdateProjectData.t) (k : string) (v : Js.value) : Prop :=
  (k = "name"
   /\ exists n, UpdateProjectData.name data = Some n
                /\ n <> Project.name current
                /\ v = change (Js.Str (Project.name current)) (Js.Str n))
  \/ (k = "description"
      /\ exists d, UpdateProjectData.description data = Some d
                   /\ d <> Project.description current
                   /\ v = change (Js.of_nullable_string (Project.description current))
                                 (Js.of_nullable_string d)).

(** ** The other error factories and code groups *)

Module AppErrorFactory.
Definition unauthorized (message : string) (code : string) : AppError.t :=
  AppError.mk message 401 (Some code) None.
Definition forbidden (message : string) (code : string) : AppError.t :=
  AppError.mk message 403 (Some code) None.
(** [badRequest(message, code)] without metadata *)
Definition badRequest0 (message : string) (code : string) : AppError.t :=
  AppError.mk message 400 (Some code) None.
End AppErrorFactory.

Module AuthCodes.
Module AUTH.
Definition INVALID_TOKEN := "ERR_AUTH_001".
Definition TOKEN_EXPIRED := "ERR_AUTH_002".
Definition USER_NOT_FOUND := "ERR_AUTH_003".
Definition INVALID_CREDENTIALS := "ERR_AUTH_004".
Definition AUTHENTICATION_REQUIRED := "ERR_AUTH_005".
End AUTH.
Module AUTHZ.
Definition INSUFFICIENT_PERMISSIONS := "ERR_AUTHZ_001".
Definition ROLE_REQUIRED := "ERR_AUTHZ_002".
Definition PROJECT_ACCESS_DENIED := "ERR_AUTHZ_003".
Definition ADMIN_REQUIRED := "ERR_AUTHZ_004".
Definition WRITE_ACCESS_REQUIRED := "ERR_AUTHZ_005".
End AUTHZ.
Module VALIDATION.
Definition INVALID_INPUT := "ERR_VALIDATION_001".
Definition MISSING_REQUIRED_FIELD := "ERR_VALIDATION_002".
Definition INVALID_UUID := "ERR_VALIDATION_003".
End VALIDATION.
End AuthCodes.

(** ** Access middleware (auth.middleware.ts, task.middleware.ts) *)

Module Middleware.

(** [req.user] *)
Record AuthUser : Type := mkAuthUser {
  au_id : string;
  au_email : string;
  au_role : UserRole.t
}.

(** What a middleware hands to [next]: nothing, or an error. *)
Inductive Next : Type :=
| Continue
| Fail (e : AppError.t).

(** [roles.join(', ')] *)
Definition join (names : list string) : string := String.concat ", " names.

(** [requireRole(...allowedRoles)] *)
Definition requireRole (allowedRoles : list UserRole.t) (user : option AuthUser)
    : Next :=
  match user with
  | None =>
      Fail (AppErrorFactory.unauthorized "Authentication required."
              AuthCodes.AUTH.AUTHENTICATION_REQUIRED)
  | Some u =>
      if existsb (UserRole.eqb (au_role u)) allowedRoles then Continue
      else Fail (AppErrorFactory.forbidden
                   ("This action requires one of the following roles: "
                    ++ join (map UserRole.to_string allowedRoles))
                   AuthCodes.AUTHZ.ROLE_REQUIRED)
  end.

Definition requireAdminRole : option AuthUser -> Next :=
  requireRole [UserRole.ADMIN].

(** [a || b] on route parameters: an absent or empty [a] gives [b]. *)
Definition or_param (a b : option string) : option string :=
  match a with
  | Some x => if x =? "" then b else Some x
  | None => b
  end.

(** The parts of the request that the project middleware reads. *)
Record ProjectRequest : Type := mkProjectRequest {
  pr_user : option AuthUser;
  pr_params_projectId : option string;
  pr_params_id : option string
}.

(** [requireProjectAccess(requiredRoles?)] *)
Definition requireProjectAccess (requiredRoles : option (list ProjectRole.t))
    (req : ProjectRequest) (s : Store) : Next :=
  match pr_user req with
  | None =>
      Fail (AppErrorFactory.unauthorized "Authentication required."
              AuthCodes.AUTH.AUTHENTICATION_REQUIRED)
  | Some user =>
      let projectId := or_param (pr_params_projectId req) (pr_params_id req) in
      match projectId with
      | None =>
          Fail (AppErrorFactory.badRequest0 "Project ID is required."
                  AuthCodes.VALIDATION.MISSING_REQUIRED_FIELD)
      | Some pid =>
          if pid =? "" then
            Fail (AppErrorFactory.badRequest0 "Project ID is required."
                    AuthCodes.VALIDATION.MISSING_REQUIRED_FIELD)
          else if UserRole.eqb (au_role user) UserRole.ADMIN then Continue
          else
            match ProjectRepository.getUserProjectRole pid (au_id user) s with
            | None =>
                Fail (AppErrorFactory.forbidden
                        "You do not have access to this project."
                        AuthCodes.AUTHZ.PROJECT_ACCESS_DENIED)
            | Some userProjectRole =>
                match requiredRoles with
                | Some (r :: roles) =>
                    if existsb (ProjectRole.eqb userProjectRole) (r :: roles)
                    then Continue
                    else
                      Fail (AppErrorFactory.forbidden
                              ("This action requires one of the following project roles: "
                               ++ join (map ProjectRole.to_string (r :: roles)))
                              AuthCodes.AUTHZ.WRITE_ACCESS_REQUIRED)
                | _ => Continue
                end
            end
      end
  end.

Definition requireProjectWriteAccess : ProjectRequest -> Store -> Next :=
  requireProjectAccess (Some [ProjectRole.MEMBER]).

Definition requireProjectReadAccess : ProjectRequest -> Store -> Next :=
  requireProjectAccess (Some [ProjectRole.MEMBER; ProjectRole.VIEWER]).

(** The parts of the request that the task middleware reads. *)
Record TaskRequest : Type := mkTaskRequest {
  tr_user : option AuthUser;
  tr_params_id : option string
}.

(** [requireTaskAccess(requireWrite)]: the decision, and the task context
    [req.task] it attaches when it lets the request through. *)
Definition requireTaskAccess (requireWrite : bool) (req : TaskRequest)
    (s : Store) : Next * option (string * string) :=
  match tr_user req with
  | None =>
      (Fail (AppErrorFactory.unauthorized "Authentication required."
               AuthCodes.AUTH.AUTHENTICATION_REQUIRED), None)
  | Some user =>
      match tr_params_id req with
      | None =>
          (Fail (AppErrorFactory.badRequest0 "Task ID is required."
                   AuthCodes.VALIDATION.MISSING_REQUIRED_FIELD), None)
      | Some taskId =>
          if taskId =? "" then
            (Fail (AppErrorFactory.badRequest0 "Task ID is required."
                     AuthCodes.VALIDATION.MISSING_REQUIRED_FIELD), None)
          else
            match TaskRepository.findById taskId s with
            | None =>
                (Fail (AppError.notFound "Task not found."
                         ErrorCodes.TASK.NOT_FOUND), None)
            | Some task =>
                if UserRole.eqb (au_role user) UserRole.ADMIN
                then (Continue, Some (Task.id task, Task.projectId task))
                else
                  match ProjectRepository.getUserProjectRole
                          (Task.projectId task) (au_id user) s with
                  | None =>
                      (Fail (AppErrorFactory.forbidden
                               "You do not have access to this task's project."
                               AuthCodes.AUTHZ.PROJECT_ACCESS_DENIED), None)
                  | Some projectRole =>
                      if requireWrite
                         && ProjectRole.eqb projectRole ProjectRole.VIEWER
                      then
                        (Fail (AppErrorFactory.forbidden
                                 "You do not have write access to tasks in this project. Viewers have read-only access."
                                 AuthCodes.AUTHZ.WRITE_ACCESS_REQUIRED), None)
                      else (Continue, Some (Task.id task, Task.projectId task))
                  end
            end
      end
  end.

Definition requireTaskWriteAccess := requireTaskAccess true.
Definition requireTaskReadAccess := requireTaskAccess false.

(** The request interceptor of the client (api/client.ts):
    [config.headers.Authorization = `Bearer ${token}`] *)
Definition client_authorization (token : string) : string :=
  "Bearer " ++ token.

(** The outcome of [jwt.verify(token, secret)]: the decoded payload, a
    [TokenExpiredError], or another error.  The library is a parameter of
    [authenticate]. *)
Inductive JwtResult : Type :=
| Decoded (id email : string) (role : UserRole.t)
| TokenExpired
| JwtError.

(** The characters before the first space. *)
Fixpoint until_space (h : string) : string :=
  match h with
  | EmptyString => EmptyString
  | String c rest =>
      if Ascii.eqb c " "%char then EmptyString else String c (until_space rest)
  end.

(** [authHeader.split(' ')[1]] for a header that starts with ["Bearer "] *)
Definition bearer_token (authHeader : string) : string :=
  until_space (substring 7 (String.length authHeader - 7) authHeader).

(** [authenticate]: the error handed to [next], or the user it attaches to
    the request. *)
Definition authenticate (jwt_verify : string -> JwtResult)
    (authorization : option string) (s : Store) : Next * option AuthUser :=
  match authorization with
  | None =>
      (Fail (AppErrorFactory.unauthorized
               "Authentication required. Please provide a valid Bearer token."
               AuthCodes.AUTH.AUTHENTICATION_REQUIRED), None)
  | Some authHeader =>
      if negb (prefix "Bearer " authHeader) then
        (Fail (AppErrorFactory.unauthorized
                 "Authentication required. Please provide a valid Bearer token."
                 AuthCodes.AUTH.AUTHENTICATION_REQUIRED), None)
      else
        match jwt_verify (bearer_token authHeader) with
        | TokenExpired =>
            (Fail (AppErrorFactory.unauthorized
                     "Token has expired. Please login again."
                     AuthCodes.AUTH.TOKEN_EXPIRED), None)
        | JwtError =>
            (Fail (AppErrorFactory.unauthorized
                     "Invalid authentication token."
                     AuthCodes.AUTH.INVALID_TOKEN), None)
        | Decoded id _ _ =>
            match UserRepository.findById id s with
            | None =>
                (Fail (AppErrorFactory.unauthorized "User no longer exists."
                         AuthCodes.AUTH.USER_NOT_FOUND), None)
            | Some user =>
                (Continue,
                 Some (mkAuthUser (User.id user) (User.email user)
                                  (User.role user)))
            end
        end
  end.

End Middleware.

(** ** Paginated reads

    [page] and [pageSize] range over the positive integers, as the
    pagination schema has them; [skip] and [take] are then natural numbers
    and [Math.ceil(total / pageSize)] is the rounded-up quotient. *)

Module Reads.

(** [skip = (page - 1) * pageSize] *)
Definition skip (page pageSize : positive) : nat :=
  (Pos.to_nat page - 1) * Pos.to_nat pageSize.

(** [findMany({ skip, take })] over the selected rows in their order *)
Definition window {A : Type} (page pageSize : positive) (rows : list A)
    : list A :=
  firstn (Pos.to_nat pageSize) (skipn (skip page pageSize) rows).

(** [Math.ceil(total / pageSize)] *)
Definition ceil_div (total : nat) (pageSize : positive) : nat :=
  (total + Pos.to_nat pageSize - 1) / Pos.to_nat pageSize.

(** [orderBy: { key: 'desc' }].  The order of rows with equal keys is the
    store's choice; here they keep their order in the table. *)
Fixpoint insert_desc {A : Type} (key : A -> Z) (x : A) (l : list A) : list A :=
  match l with
  | [] => [x]
  | y :: rest =>
      if (key y <=? key x)%Z then x :: y :: rest
      else y :: insert_desc key x rest
  end.

Definition order_desc {A : Type} (key : A -> Z) (l : list A) : list A :=
  fold_right (insert_desc key) [] l.

(** [{ data, total }] of a repository *)
Record Found (A : Type) : Type := mkFound {
  found_data : list A;
  found_total : nat
}.

(** [{ data, meta: { total, page, pageSize, totalPages } }] of a service *)
Record Paged (A : Type) : Type := mkPaged {
  data : list A;
  total : nat;
  page : positive;
  pageSize : positive;
  totalPages : nat
}.

(** [projectRepository.findAll(page, pageSize)]; the included members and
    task counts are left out. *)
Definition findAll (page pageSize : positive) (s : Store) : Found Project.t :=
  mkFound (window page pageSize (order_desc Project.createdAt (projects s)))
          (length (projects s)).

(** [where: { members: { some: { userId } } }] *)
Definition has_member (userId : string) (s : Store) (p : Project.t) : bool :=
  existsb (fun m => (ProjectMember.projectId m =? Project.id p)
                    && (ProjectMember.userId m =? userId))
          (project_members s).

(** [projectRepository.findByUserId(userId, userIsAdmin, page, pageSize)] *)
Definition findByUserId (userId : string) (userIsAdmin : bool)
    (page pageSize : positive) (s : Store) : Found Project.t :=
  if userIsAdmin then findAll page pageSize s
  else
    mkFound (window page pageSize
               (order_desc Project.createdAt
                  (filter (has_member userId s) (projects s))))
            (length (filter (has_member userId s) (projects s))).

(** [projectService.getAll(userId, isAdmin, page, pageSize)] *)
Definition getAll (userId : string) (isAdmin : bool) (page pageSize : positive)
    (s : Store) : Paged Project.t :=
  let result := findByUserId userId isAdmin page pageSize s in
  mkPaged (found_data result) (found_total result) page pageSize
          (ceil_div (found_total result) pageSize).

(** [where: { entityType, entityId }] *)
Definition of_entity (entityType entityId : string) (a : AuditLog.t) : bool :=
  (AuditLog.entityType a =? entityType) && (AuditLog.entityId a =? entityId).

(** [auditRepository.findByEntity(entityType, entityId, page, pageSize)];
    the included actor is left out. *)
Definition findByEntity (entityType entityId : string)
    (page pageSize : positive) (s : Store) : Found AuditLog.t :=
  mkFound (window page pageSize
             (order_desc AuditLog.timestamp
                (filter (of_entity entityType entityId) (audit_logs s))))
          (length (filter (of_entity entityType entityId) (audit_logs s))).

(** [taskService.getHistory(taskId, page, pageSize)] *)
Definition task_getHistory (taskId : string) (page pageSize : positive)
    (s : Store) : Found AuditLog.t :=
  findByEntity "Task" taskId page pageSize s.

(** [projectService.getHistory(projectId, page, pageSize)] *)
Definition project_getHistory (projectId : string) (page pageSize : positive)
    (s : Store) : Found AuditLog.t :=
  findByEntity "Project" projectId page pageSize s.

(** [projectService.getById(id)] *)
Definition project_getById (id : string) : Service Project.t :=
  fun s =>
    match ProjectRepository.findById id s with
    | None => (Thrown (AppErr (AppError.notFound "Project not found"
                                 ErrorCodes.PROJECT.NOT_FOUND)), s)
    | Some project => (Returned project, s)
    end.

End Reads.

(** ** Authentication service

    Password hashing and token signing are the libraries'; they are the
    fields of [Crypto]. *)

Module AuthService.

Record Payload : Type := mkPayload {
  p_id : string;
  p_email : string;
  p_role : UserRole.t
}.

Record Crypto : Type := mkCrypto {
  bcrypt_hash : string -> string;             (* [bcrypt.hash(password, 10)] *)
  bcrypt_compare : string -> string -> bool;  (* [bcrypt.compare(password, hash)] *)
  jwt_sign : Payload -> string                (* [jwt.sign(payload, secret, options)] *)
}.

(** [userRepository.findByEmail(email)] *)
Definition findByEmail (email : string) (s : Store) : option User.t :=
  find (fun u => User.email u =? email) (users s).

(** Modelled from the spec: the email of a user is unique; the statement
    that would insert a second user with an email is rejected. *)
Definition email_is_free (email : string) (s : Store) : bool :=
  match findByEmail email s with
  | Some _ => false
  | None => true
  end.

(** [userRepository.create(data)]: [prisma.user.create], one statement on
    the client itself. *)
Definition user_create (env : Env) (email name password : string)
    (role : UserRole.t) : Service User.t :=
  fun s =>
    if aborts env 0 then (Thrown (PrismaErr "aborted"), s)
    else if email_is_free email s then
      let row := User.mk (uuid env 0) email name password role (db_now env) in
      (Returned row, set_users s (users s ++ [row]))
    else (Thrown (PrismaErr "P2002"), s).

(** The user of the responses: id, email, name and role. *)
Record Summary : Type := mkSummary {
  s_id : string;
  s_email : string;
  s_name : string;
  s_role : UserRole.t
}.

Definition summary (u : User.t) : Summary :=
  mkSummary (User.id u) (User.email u) (User.name u) (User.role u).

(** [login(email, password)] *)
Definition login (crypto : Crypto) (email password : string)
    : Service (string * Summary) :=
  fun s =>
    match findByEmail email s with
    | None => (Thrown (AppErr (AppError.new "Invalid email or password" 401)), s)
    | Some user =>
        if bcrypt_compare crypto password (User.password user)
        then (Returned (jwt_sign crypto
                          (mkPayload (User.id user) (User.email user)
                                     (User.role user)),
                        summary user), s)
        else (Thrown (AppErr (AppError.new "Invalid email or password" 401)), s)
    end.

(** [register(email, name, password, role = 'VIEWER')] *)
Definition register (env : Env) (crypto : Crypto) (email name password : string)
    (role : option UserRole.t) : Service Summary :=
  fun s =>
    match findByEmail email s with
    | Some _ =>
        (Thrown (AppErr (AppError.new "User with this email already exists" 400)),
         s)
    | None =>
        let hashedPassword := bcrypt_hash crypto password in
        match user_create env email name hashedPassword
                (match role with Some r => r | None => UserRole.VIEWER end) s with
        | (Returned user, s') => (Returned (summary user), s')
        | (Thrown e, s') => (Thrown e, s')
        end
    end.

End AuthService.

(** ** User controller: [delete]

    The statement [prisma.user.delete] is a parameter: what it does to the
    rows that reference the user is decided by the schema. *)

Module UserDelete.

Record DeleteRequest : Type := mkDeleteRequest {
  params_id : string;
  user_id : string
}.

(** [delete]: the status of the response *)
Definition delete (user_delete : string -> Service unit) (req : DeleteRequest)
    : Service Z :=
  fun s =>
    let id := params_id req in
    match UserRepository.findById id s with
    | None => (Thrown (AppErr (AppError.new "User not found" 404)), s)
    | Some _ =>
        if user_id req =? id
        then (Thrown (AppErr (AppError.new "Cannot delete your own account" 400)),
              s)
        else
          match user_delete id s with
          | (Returned _, s') => (Returned 204, s')
          | (Thrown e, s') => (Thrown e, s')
          end
    end.

End UserDelete.

(** ** The permission hooks of the client (usePermissions.ts) *)

Module Permissions.

(** [projectMembers.find((m) => m.userId === userId)] *)
Definition membership (userId : string) (projectMembers : list ProjectMember.t)
    : option ProjectMember.t :=
  find (fun m => ProjectMember.userId m =? userId) projectMembers.

(** [canBeAssignedTask(userId, projectMembers, globalRole?)] *)
Definition canBeAssignedTask (userId : string)
    (projectMembers : list ProjectMember.t) (globalRole : option UserRole.t)
    : bool :=
  match globalRole with
  | Some UserRole.ADMIN => true
  | _ =>
      match membership userId projectMembers with
      | None => false
      | Some m =>
          negb (ProjectRole.eqb (ProjectMember.projectRole m) ProjectRole.VIEWER)
      end
  end.

(** [currentUserProjectRole] of [useProjectPermissions]; [user] is the id
    and the role of the signed-in user. *)
Definition currentUserProjectRole (user : option (string * UserRole.t))
    (projectMembers : option (list ProjectMember.t)) : option ProjectRole.t :=
  match user, projectMembers with
  | Some (id, _), Some members =>
      match membership id members with
      | Some m => Some (ProjectMember.projectRole m)
      | None => None
      end
  | _, _ => None
  end.

Definition isGlobalAdmin (user : option (string * UserRole.t)) : bool :=
  match user with
  | Some (_, role) => UserRole.eqb role UserRole.ADMIN
  | None => false
  end.

Definition canWrite (user : option (string * UserRole.t))
    (projectMembers : option (list ProjectMember.t)) : bool :=
  match user with
  | None => false
  | Some _ =>
      if isGlobalAdmin user then true
      else
        match currentUserProjectRole user projectMembers with
        | Some r => ProjectRole.eqb r ProjectRole.MEMBER
        | None => false
        end
  end.

Definition isReadOnly (user : option (string * UserRole.t))
    (projectMembers : option (list ProjectMember.t)) : bool :=
  match user with
  | None => true
  | Some _ =>
      if isGlobalAdmin user then false
      else
        match currentUserProjectRole user projectMembers with
        | Some r => ProjectRole.eqb r ProjectRole.VIEWER
        | None => false
        end
  end.

(** The member rows of a project, as the client receives them with the
    project. *)
Definition members_of (projectId : string) (s : Store) : list ProjectMember.t :=
  filter (fun m => ProjectMember.projectId m =? projectId) (project_members s).

End Permissions.

(** The pages [1 .. n] *)
Definition pages (n : nat) : list positive := map Pos.of_nat (seq 1 n).

(** A string without a space *)
Fixpoint no_space (t : string) : bool :=
  match t with
  | EmptyString => true
  | String c rest => negb (Ascii.eqb c " "%char) && no_space rest
  end.

(** The ids of the member and task rows *)
Definition member_ids (s : Store) : list string :=
  map ProjectMember.id (project_members s).

Definition task_ids (s : Store) : list string := map Task.id (tasks s).

Definition project_ids (s : Store) : list string := map Project.id (projects s).

(** A delete statement that leaves the users with another id as they are. *)
Definition deletes_only_the_target (user_delete : string -> Service unit)
    : Prop :=
  forall (id other : string) (s : Store),
    other <> id ->
    UserRepository.findById other (snd (user_delete id s))
    = UserRepository.findById other s.

(** A delete statement of that kind: it removes the rows of the user. *)
Definition sample_user_delete (id : string) : Service unit :=
  fun s => (Returned tt,
            set_users s (filter (fun u => negb (User.id u =? id)) (users s))).

(** Sample libraries: the hash marks the password, the token carries the
    id. *)
Definition sample_crypto : AuthService.Crypto :=
  AuthService.mkCrypto (fun p => "hashed:" ++ p)
                       (fun p h => h =? "hashed:" ++ p)
                       (fun payload => "token-" ++ AuthService.p_id payload).

(** * Proofs *)

(** ** The transaction client *)

Ltac inv H := inversion H; subst; clear H.

(** A call of [$transaction] that throws leaves the committed store as it
    was, whatever the callback did on its private view. *)
Lemma transaction_thrown_rolls_back :
  forall (A : Type) (env : Env) (body : Tx A) (s s' : Store) (e : Exn),
    transaction env body s = (Thrown e, s') -> s' = s.
Proof.
  intros A env body s s' e H. unfold transaction in H.
  destruct (body (mkTx s 0)) as [[a c] | e0]; [destruct (aborts env (tx_step c)) |];
    congruence.
Qed.

(** A call that returns has run its callback to the end and committed the
    callback's private view. *)
Lemma transaction_returned_commits :
  forall (A : Type) (env : Env) (body : Tx A) (s s' : Store) (a : A),
    transaction env body s = (Returned a, s') ->
    exists c, body (mkTx s 0) = Returned (a, c) /\ s' = tx_db c
              /\ aborts env (tx_step c) = false.
Proof.
  intros A env body s s' a H. unfold transaction in H.
  destruct (body (mkTx s 0)) as [[a0 c] | e0]; [| congruence].
  destruct (aborts env (tx_step c)) eqn:E; [congruence |].
  inv H. exists c. auto.
Qed.

(** A statement that the store aborts throws, whatever it would have done. *)
Lemma aborted_statement_throws :
  forall (A : Type) (env : Env) (run : nat -> Store -> Outcome (A * Store))
         (c : TxClient),
    aborts env (tx_step c) = true ->
    statement env run c = Thrown (PrismaErr "aborted").
Proof. intros A env run c H. unfold statement. rewrite H. reflexivity. Qed.

(** Either outcome: the committed store is the old one or the private view
    the callback ended with. *)
Lemma transaction_all_or_nothing :
  forall (A : Type) (env : Env) (body : Tx A) (s : Store),
    snd (transaction env body s) = s
    \/ exists a c, body (mkTx s 0) = Returned (a, c)
                   /\ transaction env body s = (Returned a, tx_db c).
Proof.
  intros A env body s. unfold transaction.
  destruct (body (mkTx s 0)) as [[a c] | e0]; [| now left].
  destruct (aborts env (tx_step c)); [now left |].
  right. exists a, c. auto.
Qed.

(** ** Lookups after an update in place *)

Section Keyed.
Variable R : Type.
Variable key : R -> string.
Variable f : R -> R.
Hypothesis key_f : forall r, key (f r) = key r.

Lemma find_update_same :
  forall (id : string) (l : list R) (x : R),
    find (fun r => key r =? id) l = Some x ->
    find (fun r => key r =? id)
         (map (fun r => if key r =? id then f r else r) l) = Some (f x).
Proof.
  intros id l x. induction l as [| r l IH]; simpl; [discriminate |].
  destruct (key r =? id) eqn:E.
  - intros H. inv H. rewrite key_f, E. reflexivity.
  - rewrite E. exact IH.
Qed.

Lemma find_update_other :
  forall (id id' : string) (l : list R),
    id' <> id ->
    find (fun r => key r =? id')
         (map (fun r => if key r =? id then f r else r) l)
    = find (fun r => key r =? id') l.
Proof.
  intros id id' l Hne. induction l as [| r l IH]; simpl; [reflexivity |].
  destruct (key r =? id) eqn:E.
  - rewrite key_f. apply String.eqb_eq in E. rewrite E.
    destruct (id =? id') eqn:E'.
    + apply String.eqb_eq in E'. congruence.
    + exact IH.
  - rewrite IH. reflexivity.
Qed.
End Keyed.

Section Replaced.
Variable R : Type.
Variable key : R -> string.

Lemma find_replace_same :
  forall (id : string) (l : list R) (x y : R),
    key y = id ->
    find (fun r => key r =? id) l = Some x ->
    find (fun r => key r =? id)
         (map (fun r => if key r =? id then y else r) l) = Some y.
Proof.
  intros id l x y Hy. induction l as [| r l IH]; simpl; [discriminate |].
  destruct (key r =? id) eqn:E.
  - intros _. rewrite Hy, String.eqb_refl. reflexivity.
  - rewrite E. exact IH.
Qed.

Lemma find_replace_other :
  forall (id id' : string) (l : list R) (y : R),
    key y = id -> id' <> id ->
    find (fun r => key r =? id')
         (map (fun r => if key r =? id then y else r) l)
    = find (fun r => key r =? id') l.
Proof.
  intros id id' l y Hy Hne. induction l as [| r l IH]; simpl; [reflexivity |].
  destruct (key r =? id) eqn:E.
  - apply String.eqb_eq in E. rewrite Hy, E.
    destruct (id =? id') eqn:E'.
    + apply String.eqb_eq in E'. congruence.
    + exact IH.
  - rewrite IH. reflexivity.
Qed.

Lemma find_key :
  forall (id : string) (l : list R) (x : R),
    find (fun r => key r =? id) l = Some x -> key x = id.
Proof.
  intros id l x H. apply find_some in H. destruct H as [_ H].
  apply String.eqb_eq in H. exact H.
Qed.
End Replaced.

(** ** The other properties of a patch *)

Lemma mentions_cons :
  forall (o : Js.object Js.value) (k0 k : string) (v0 : Js.value),
    Js.mentions ((k0, v0) :: o) k
    = ((k0 =? k) && negb (Js.is_undefined v0)) || Js.mentions o k.
Proof. reflexivity. Qed.

(** One write of another property leaves the columns of the six properties
    and the id as they are. *)
Lemma task_write_keeps_declared :
  forall env k v t t',
    Prisma.task_write env k v t = Some t' ->
    Task.id t' = Task.id t
    /\ Task.title t' = Task.title t
    /\ Task.description t' = Task.description t
    /\ Task.status t' = Task.status t
    /\ Task.priority t' = Task.priority t
    /\ Task.dueDate t' = Task.dueDate t
    /\ Task.assigneeId t' = Task.assigneeId t.
Proof.
  intros env k v t t'. unfold Prisma.task_write.
  destruct (Js.is_undefined v); [intros H; inv H; auto 10 |].
  repeat match goal with
         | |- context [if ?b then _ else _] => destruct b
         end;
    try discriminate;
    destruct v; simpl; try discriminate;
    try (destruct (date_parse env _); simpl; try discriminate);
    intros H; inv H; auto 10.
Qed.

Lemma task_writes_keeps_declared :
  forall env o t t',
    Prisma.task_writes env o t = Some t' ->
    Task.id t' = Task.id t
    /\ Task.title t' = Task.title t
    /\ Task.description t' = Task.description t
    /\ Task.status t' = Task.status t
    /\ Task.priority t' = Task.priority t
    /\ Task.dueDate t' = Task.dueDate t
    /\ Task.assigneeId t' = Task.assigneeId t.
Proof.
  intros env o t. induction o as [| [k v] o IH]; simpl; intros t' H.
  - inv H. auto 10.
  - destruct (Prisma.task_writes env o t) as [t1 |] eqn:E; [| discriminate].
    simpl in H. apply task_write_keeps_declared in H.
    destruct (IH t1 eq_refl) as [? [? [? [? [? [? ?]]]]]].
    destruct H as [? [? [? [? [? [? ?]]]]]].
    repeat split; congruence.
Qed.

(** A write of a property other than a defined [completedAt] leaves
    [completedAt] as it is. *)
Lemma task_write_keeps_completedAt :
  forall env k v t t',
    Prisma.task_write env k v t = Some t' ->
    (k =? "completedAt") && negb (Js.is_undefined v) = false ->
    Task.completedAt t' = Task.completedAt t.
Proof.
  intros env k v t t'. unfold Prisma.task_write.
  destruct (Js.is_undefined v); [intros H _; inv H; reflexivity |].
  rewrite andb_true_r.
  repeat match goal with
         | |- context [if ?b then _ else _] => destruct b eqn:?
         end;
    try discriminate;
    destruct v; simpl; try discriminate;
    try (destruct (date_parse env _); simpl; try discriminate);
    intros H Hk; inv H; try reflexivity; discriminate.
Qed.

Lemma task_writes_keeps_completedAt :
  forall env o t t',
    Prisma.task_writes env o t = Some t' ->
    Js.mentions o "completedAt" = false ->
    Task.completedAt t' = Task.completedAt t.
Proof.
  intros env o t. induction o as [| [k v] o IH]; intros t' H Hm; simpl in H.
  - inv H. reflexivity.
  - destruct (Prisma.task_writes env o t) as [t1 |] eqn:E; [| discriminate].
    simpl in H. rewrite mentions_cons in Hm. apply orb_false_iff in Hm.
    destruct Hm as [Hk Hm].
    rewrite (task_write_keeps_completedAt _ _ _ _ H Hk). apply IH; auto.
Qed.

(** After the assignment [updateData.completedAt = v], the row that the
    statement writes has [v] as its [completedAt]. *)
Lemma task_writes_set_completedAt :
  forall env o v t t',
    Prisma.task_writes env
      (Js.set o "completedAt" (Js.of_nullable_date v)) t = Some t' ->
    Task.completedAt t' = v.
Proof.
  intros env o v t.
  assert (Hlast : forall t1 t',
            Prisma.task_write env "completedAt" (Js.of_nullable_date v) t1
            = Some t' -> Task.completedAt t' = v).
  { intros t1 t' H. unfold Prisma.task_write in H.
    destruct v as [d |]; simpl in H; inv H; reflexivity. }
  induction o as [| [k0 v0] o IH]; simpl; intros t' H.
  - apply (Hlast t t'). exact H.
  - destruct (k0 =? "completedAt") eqn:E; simpl in H.
    + destruct (Prisma.task_writes env o t) as [t1 |]; [| discriminate].
      apply String.eqb_eq in E. subst k0. apply (Hlast t1 t'). exact H.
    + destruct (Prisma.task_writes env
                  (Js.set o "completedAt" (Js.of_nullable_date v)) t)
        as [t1 |] eqn:E1; [| discriminate].
      simpl in H.
      rewrite (task_write_keeps_completedAt _ _ _ _ H)
        by (rewrite E; reflexivity).
      apply IH. reflexivity.
Qed.

(** What the update statement does to the columns of the six properties. *)
Lemma task_apply_declared :
  forall env d t t',
    Prisma.task_apply env d t = Some t' ->
    Task.id t' = Task.id t
    /\ Task.title t' = Prisma.or_current (Prisma.tu_title d) (Task.title t)
    /\ Task.description t'
       = Prisma.or_current (Prisma.tu_description d) (Task.description t)
    /\ Task.status t' = Prisma.or_current (Prisma.tu_status d) (Task.status t)
    /\ Task.priority t'
       = Prisma.or_current (Prisma.tu_priority d) (Task.priority t)
    /\ Task.assigneeId t'
       = Prisma.or_current (Prisma.tu_assigneeId d) (Task.assigneeId t)
    /\ match Prisma.tu_dueDate d with
       | None => Task.dueDate t' = Task.dueDate t
       | Some None => Task.dueDate t' = None
       | Some (Some input) =>
           exists ms, Prisma.date_of env input = Some ms
                      /\ Task.dueDate t' = Some ms
       end.
Proof.
  intros env d t t' H. unfold Prisma.task_apply in H.
  destruct (Prisma.tu_dueDate d) as [[input |] |]; simpl in H.
  - destruct (Prisma.date_of env input) as [ms |]; simpl in H; [| discriminate].
    apply task_writes_keeps_declared in H. simpl in H.
    destruct H as [? [? [? [? [? [? ?]]]]]]. repeat split; auto. eauto.
  - apply task_writes_keeps_declared in H. simpl in H.
    destruct H as [? [? [? [? [? [? ?]]]]]]. repeat split; auto.
  - apply task_writes_keeps_declared in H. simpl in H.
    destruct H as [? [? [? [? [? [? ?]]]]]]. repeat split; auto.
Qed.

(** ** Task.update *)

(** What a returning [update] did: it found the task, the statement
    accepted [updateData] and replaced the row, and one audit row was
    appended exactly when the diff has a key. *)
Lemma task_update_returned :
  forall env id data actorId s task s',
    TaskService.update env id data actorId s = (Returned task, s') ->
    exists current,
      TaskRepository.findById id s = Some current
      /\ Prisma.task_apply env (TaskService.updateData env current data) current
         = Some task
      /\ users s' = users s
      /\ projects s' = projects s
      /\ project_members s' = project_members s
      /\ tasks s' = map (fun r => if Task.id r =? id then task else r) (tasks s)
      /\ audit_logs s' =
           if (0 <? length (Js.keys (TaskService.compute_diff env current data)))%nat
           then (audit_logs s
                 ++ [AuditLog.mk (uuid env 1) "Task" id AuditAction.UPDATE actorId
                                 (db_now env)
                                 (TaskService.compute_diff env current data)])%list
           else audit_logs s.
Proof.
  intros env id data actorId s task s' H.
  unfold TaskService.update in H.
  destruct (TaskRepository.findById id s) as [current |] eqn:Hfind; [| discriminate].
  exists current. split; [reflexivity |].
  match type of H with
  | match ?v with _ => _ end = _ => destruct v; [| discriminate]
  end.
  apply transaction_returned_commits in H. destruct H as [c [Hc [Hs' _]]].
  unfold bind, Prisma.task_update, statement in Hc. simpl in Hc.
  destruct (aborts env 0); [discriminate |].
  unfold TaskRepository.findById in Hfind. rewrite Hfind in Hc.
  destruct (Prisma.task_apply env (TaskService.updateData env current data)
              current) as [t' |]; [| discriminate].
  match type of Hc with
  | context [if ?b then _ else _] => destruct b; [| discriminate]
  end.
  destruct (0 <? length (Js.keys (TaskService.compute_diff env current data)))%nat.
  - unfold bind, AuditRepository.create, Prisma.auditLog_create, statement, ret in Hc.
    simpl in Hc. destruct (aborts env 1); [discriminate |].
    inv Hc. simpl. auto 10.
  - unfold ret in Hc. inv Hc. simpl. auto 10.
Qed.

(** ** The objects built by property assignment *)

Lemma set_in :
  forall (V : Type) (o : Js.object V) (k k' : string) (v v' : V),
    In (k, v) (Js.set o k' v') -> (k = k' /\ v = v') \/ In (k, v) o.
Proof.
  intros V o k k' v v'. induction o as [| [k0 v0] o IH]; simpl.
  - intros [H | []]. inv H. auto.
  - destruct (k0 =? k') eqn:E; simpl.
    + apply String.eqb_eq in E. subst k0.
      intros [H | H]; [inv H; auto | auto].
    + intros [H | H]; [auto | destruct (IH H); auto].
Qed.

Lemma get_set_same :
  forall (V : Type) (o : Js.object V) (k : string) (v : V),
    Js.get (Js.set o k v) k = Some v.
Proof.
  intros V o k v. induction o as [| [k0 v0] o IH]; simpl.
  - rewrite String.eqb_refl. reflexivity.
  - destruct (k0 =? k) eqn:E; simpl; rewrite E; auto.
Qed.

Lemma get_set_other :
  forall (V : Type) (o : Js.object V) (k k' : string) (v : V),
    k <> k' -> Js.get (Js.set o k' v) k = Js.get o k.
Proof.
  intros V o k k' v Hne. induction o as [| [k0 v0] o IH]; simpl.
  - destruct (k' =? k) eqn:E; [apply String.eqb_eq in E; congruence | reflexivity].
  - destruct (k0 =? k') eqn:E; simpl.
    + apply String.eqb_eq in E. subst k0.
      destruct (k' =? k) eqn:E'; [apply String.eqb_eq in E'; congruence | reflexivity].
    + destruct (k0 =? k); auto.
Qed.

Lemma keys_set_present :
  forall (V : Type) (o : Js.object V) (k : string) (v : V),
    In k (Js.keys o) -> Js.keys (Js.set o k v) = Js.keys o.
Proof.
  intros V o k v. unfold Js.keys. induction o as [| [k0 v0] o IH]; simpl.
  - intros [].
  - destruct (k0 =? k) eqn:E; simpl.
    + reflexivity.
    + intros [H | H].
      * subst k0. rewrite String.eqb_refl in E. discriminate.
      * rewrite IH; auto.
Qed.

(** ** The diff of Task.update *)

Lemma status_to_string_inj :
  forall a b, TaskStatus.to_string a = TaskStatus.to_string b -> a = b.
Proof. intros [] []; simpl; intros H; congruence. Qed.

Lemma diff_field_entries :
  forall env current data diff field,
    In field TaskService.fieldsToCheck ->
    (forall k v, In (k, v) diff -> diff_entry_ok current data k v) ->
    forall k v, In (k, v) (TaskService.diff_field env current data diff field) ->
                diff_entry_ok current data k v.
Proof.
  intros env current data diff field Hin IH k v.
  unfold TaskService.diff_field.
  destruct (TaskService.data_get data field) eqn:Hd; auto;
    match goal with
    | |- context [negb (?a =? ?b)] => destruct (a =? b) eqn:E
    end; simpl; auto;
    intros H; apply set_in in H; destruct H as [[-> ->] | H]; auto;
    exists field; rewrite Hd; repeat split; auto; try discriminate;
    intros Heq; rewrite Heq in E; rewrite String.eqb_refl in E; discriminate.
Qed.

Lemma fold_diff_entries :
  forall env current data fields diff,
    incl fields TaskService.fieldsToCheck ->
    (forall k v, In (k, v) diff -> diff_entry_ok current data k v) ->
    forall k v,
      In (k, v) (fold_left (TaskService.diff_field env current data) fields diff) ->
      diff_entry_ok current data k v.
Proof.
  intros env current data fields.
  induction fields as [| f fields IH]; simpl; intros diff Hincl Hd; auto.
  apply IH.
  - intros x Hx. apply Hincl. now right.
  - apply diff_field_entries; auto. apply Hincl. now left.
Qed.

(** Every entry of the computed diff is a checked field whose current and
    supplied values differ. *)
Lemma compute_diff_entries :
  forall env current data k v,
    In (k, v) (TaskService.compute_diff env current data) ->
    diff_entry_ok current data k v.
Proof.
  intros env current data. unfold TaskService.compute_diff.
  apply fold_diff_entries.
  - apply incl_refl.
  - intros k v [].
Qed.

Lemma diff_field_identical :
  forall env current data diff field,
    task_patch_identical current data ->
    TaskService.diff_field env current data diff field = diff.
Proof.
  intros env current data diff field Hid.
  unfold TaskService.diff_field.
  destruct (Hid field) as [H | H]; rewrite H; [reflexivity |].
  destruct (TaskService.current_get current field);
    try rewrite String.eqb_refl; reflexivity.
Qed.

(** A patch that repeats the current values has the empty diff. *)
Lemma compute_diff_identical :
  forall env current data,
    task_patch_identical current data ->
    TaskService.compute_diff env current data = [].
Proof.
  intros env current data Hid. unfold TaskService.compute_diff.
  induction TaskService.fieldsToCheck as [| f fs IH]; simpl.
  - reflexivity.
  - rewrite diff_field_identical by assumption. exact IH.
Qed.

(** A status that differs from the current one is an entry of the diff. *)
Lemma compute_diff_status :
  forall env current data st,
    UpdateTaskData.status data = Some st ->
    st <> Task.status current ->
    Js.get (TaskService.compute_diff env current data) "status"
    = Some (change (Js.Str (TaskStatus.to_string (Task.status current)))
                   (Js.Str (TaskStatus.to_string st))).
Proof.
  intros env current data st Hst Hne.
  assert (Hother : forall diff field,
             Field.name field <> "status" ->
             Js.get (TaskService.diff_field env current data diff field) "status"
             = Js.get diff "status").
  { intros diff field Hf. unfold TaskService.diff_field.
    destruct (TaskService.data_get data field); auto;
      match goal with
      | |- context [negb (?a =? ?b)] => destruct (a =? b)
      end; simpl; auto; apply get_set_other; congruence. }
  unfold TaskService.compute_diff, TaskService.fieldsToCheck. simpl.
  rewrite !Hother by (simpl; discriminate).
  unfold TaskService.diff_field at 1. simpl. rewrite Hst. simpl.
  destruct (TaskStatus.to_string (Task.status current) =? TaskStatus.to_string st) eqn:E.
  - apply String.eqb_eq, status_to_string_inj in E. congruence.
  - simpl. apply get_set_same.
Qed.

(** No entry of the diff is named [completedAt]: the loop visits the six
    keys of [UpdateTaskData] only. *)
Lemma compute_diff_no_completedAt :
  forall env current data,
    Js.get (TaskService.compute_diff env current data) "completedAt" = None.
Proof.
  intros env current data.
  destruct (Js.get (TaskService.compute_diff env current data) "completedAt")
    as [v |] eqn:E; [| reflexivity].
  exfalso.
  assert (Hin : forall (o : Js.object Js.value) k v,
             Js.get o k = Some v -> In (k, v) o).
  { induction o as [| [k0 v0] o IH]; simpl; intros k w; [discriminate |].
    destruct (k0 =? k) eqn:E0.
    - intros H. inv H. apply String.eqb_eq in E0. subst. now left.
    - intros H. right. auto. }
  apply Hin, compute_diff_entries in E.
  destruct E as [field [_ [Hk _]]]. destruct field; discriminate.
Qed.

(** ** Atomicity of the write methods

    A write method that throws leaves the committed store as it was: its
    guards throw before any statement, and every statement after them is
    issued through the transaction client. *)

Ltac atomic H :=
  repeat match type of H with
         | match ?x with _ => _ end = _ => destruct x eqn:?
         end;
  first [ congruence
        | now inv H
        | eapply transaction_thrown_rolls_back; exact H ].

Lemma task_create_atomic :
  forall env data actorId s e s',
    TaskService.create env data actorId s = (Thrown e, s') -> s' = s.
Proof. intros * H. unfold TaskService.create in H. atomic H. Qed.

Lemma task_update_atomic :
  forall env id data actorId s e s',
    TaskService.update env id data actorId s = (Thrown e, s') -> s' = s.
Proof. intros * H. unfold TaskService.update in H. atomic H. Qed.

Lemma task_delete_atomic :
  forall env id actorId s e s',
    TaskService.delete env id actorId s = (Thrown e, s') -> s' = s.
Proof. intros * H. unfold TaskService.delete in H. atomic H. Qed.

Lemma project_create_atomic :
  forall env name description actorId s e s',
    ProjectService.create env name description actorId s = (Thrown e, s') ->
    s' = s.
Proof. intros * H. unfold ProjectService.create in H. atomic H. Qed.

Lemma project_update_atomic :
  forall env id data actorId s e s',
    ProjectService.update env id data actorId s = (Thrown e, s') -> s' = s.
Proof. intros * H. unfold ProjectService.update in H. atomic H. Qed.

Lemma project_delete_atomic :
  forall env id actorId s e s',
    ProjectService.delete env id actorId s = (Thrown e, s') -> s' = s.
Proof. intros * H. unfold ProjectService.delete in H. atomic H. Qed.

Lemma addMember_atomic :
  forall env projectId userId projectRole actorId s e s',
    ProjectService.addMember env projectId userId projectRole actorId s
    = (Thrown e, s') -> s' = s.
Proof. intros * H. unfold ProjectService.addMember in H. atomic H. Qed.

Lemma updateMemberRole_atomic :
  forall env projectId memberId newRole actorId s e s',
    ProjectService.updateMemberRole env projectId memberId newRole actorId s
    = (Thrown e, s') -> s' = s.
Proof. intros * H. unfold ProjectService.updateMemberRole in H. atomic H. Qed.

Lemma removeMember_atomic :
  forall env projectId memberId actorId s e s',
    ProjectService.removeMember env projectId memberId actorId s
    = (Thrown e, s') -> s' = s.
Proof. intros * H. unfold ProjectService.removeMember in H. atomic H. Qed.

(** ** The diff of Project.update *)

Lemma nullable_string_eqb_eq :
  forall a b, ProjectService.nullable_string_eqb a b = true <-> a = b.
Proof.
  intros [a |] [b |]; simpl; split; intros H; try congruence.
  - apply String.eqb_eq in H. congruence.
  - inv H. apply String.eqb_refl.
Qed.

Lemma project_compute_diff_entries :
  forall current data k v,
    In (k, v) (ProjectService.compute_diff current data) ->
    project_diff_entry_ok current data k v.
Proof.
  intros current data k v. unfold ProjectService.compute_diff, project_diff_entry_ok.
  destruct (UpdateProjectData.name data) as [n |];
    destruct (UpdateProjectData.description data) as [d |];
    try destruct (n =? Project.name current) eqn:En;
    try destruct (ProjectService.nullable_string_eqb d (Project.description current)) eqn:Ed;
    simpl; try rewrite ?String.eqb_refl; simpl; intros H;
    repeat match goal with
           | H : _ \/ _ |- _ => destruct H
           | H : False |- _ => destruct H
           | H : (_, _) = (_, _) |- _ => inv H
           end;
    try (left; split; [reflexivity |]; eexists; repeat split; eauto;
         intros ->; rewrite String.eqb_refl in En; discriminate);
    try (right; split; [reflexivity |]; eexists; repeat split; eauto;
         intros ->;
         assert (Hr : ProjectService.nullable_string_eqb
                        (Project.description current)
                        (Project.description current) = true)
           by (apply nullable_string_eqb_eq; reflexivity);
         congruence).
Qed.

Lemma project_compute_diff_identical :
  forall current data,
    project_patch_identical current data ->
    ProjectService.compute_diff current data = [].
Proof.
  intros current data [Hn Hd]. unfold ProjectService.compute_diff.
  destruct (UpdateProjectData.name data) as [n |].
  - rewrite (Hn n eq_refl), String.eqb_refl. simpl.
    destruct (UpdateProjectData.description data) as [d |]; [| reflexivity].
    rewrite (Hd d eq_refl).
    replace (ProjectService.nullable_string_eqb _ _) with true
      by (symmetry; apply nullable_string_eqb_eq; reflexivity).
    reflexivity.
  - destruct (UpdateProjectData.description data) as [d |]; [| reflexivity].
    rewrite (Hd d eq_refl).
    replace (ProjectService.nullable_string_eqb _ _) with true
      by (symmetry; apply nullable_string_eqb_eq; reflexivity).
    reflexivity.
Qed.

(** The writes of the other properties leave the id, the name and the
    description of a project as they are. *)
Lemma project_writes_keeps_declared :
  forall env o p p',
    Prisma.project_writes env o p = Some p' ->
    Project.id p' = Project.id p
    /\ Project.name p' = Project.name p
    /\ Project.description p' = Project.description p.
Proof.
  intros env o p. induction o as [| [k v] o IH]; simpl; intros p' H.
  - inv H. auto.
  - destruct (Prisma.project_writes env o p) as [p1 |] eqn:E; [| discriminate].
    simpl in H. destruct (IH p1 eq_refl) as [Hi [Hn Hd]].
    unfold Prisma.project_write in H.
    destruct (Js.is_undefined v); [inv H; auto |].
    repeat match type of H with
           | context [if ?b then _ else _] => destruct b
           end;
      try discriminate;
      destruct (Prisma.as_date env v); simpl in H; try discriminate;
      inv H; auto.
Qed.

Lemma project_apply_declared :
  forall env name description others p p',
    Prisma.project_apply env name description others p = Some p' ->
    Project.id p' = Project.id p
    /\ Project.name p' = Prisma.or_current name (Project.name p)
    /\ Project.description p'
       = Prisma.or_current description (Project.description p).
Proof.
  intros env name description others p p' H. unfold Prisma.project_apply in H.
  apply project_writes_keeps_declared in H. exact H.
Qed.

Lemma project_update_returned :
  forall env id data actorId s project s',
    ProjectService.update env id data actorId s = (Returned project, s') ->
    exists current,
      ProjectRepository.findById id s = Some current
      /\ Prisma.project_apply env (UpdateProjectData.name data)
           (UpdateProjectData.description data) (UpdateProjectData.others data)
           current
         = Some project
      /\ users s' = users s
      /\ project_members s' = project_members s
      /\ tasks s' = tasks s
      /\ audit_logs s' =
           (if (0 <? length (Js.keys (ProjectService.compute_diff current data)))%nat
            then (audit_logs s
                  ++ [AuditLog.mk (uuid env 1) "Project" id AuditAction.UPDATE
                                  actorId (db_now env)
                                  (ProjectService.compute_diff current data)])%list
            else audit_logs s)
      /\ projects s'
         = map (fun r => if Project.id r =? id then project else r) (projects s).
Proof.
  intros env id data actorId s project s' H.
  unfold ProjectService.update in H.
  destruct (ProjectRepository.findById id s) as [current |] eqn:Hfind; [| discriminate].
  exists current. split; [reflexivity |].
  apply transaction_returned_commits in H. destruct H as [c [Hc [Hs' _]]].
  unfold bind, Prisma.project_update, statement in Hc. simpl in Hc.
  destruct (aborts env 0); [discriminate |].
  unfold ProjectRepository.findById in Hfind. rewrite Hfind in Hc.
  destruct (Prisma.project_apply env (UpdateProjectData.name data)
              (UpdateProjectData.description data)
              (UpdateProjectData.others data) current) as [p' |];
    [| discriminate].
  destruct (0 <? length (Js.keys (ProjectService.compute_diff current data)))%nat.
  - unfold bind, AuditRepository.create, Prisma.auditLog_create, statement, ret in Hc.
    simpl in Hc. destruct (aborts env 1); [discriminate |].
    inv Hc. simpl. auto 10.
  - unfold ret in Hc. inv Hc. simpl. auto 10.
Qed.

Lemma keys_nonempty :
  forall (V : Type) (o : Js.object V),
    (0 <? length (Js.keys o))%nat = true -> o <> [].
Proof. intros V [| x o]; simpl; [discriminate | discriminate]. Qed.

(** ** No-op updates and the contents of a diff *)

(** A Task.update or Project.update whose patch carries, for each property,
    the very value that the entity has appends no audit row; and when an
    update does append one, it is a single UPDATE row whose details are not
    empty and list only checked fields whose old and new value are not the
    same value. *)
Lemma noop_update_writes_no_audit_row :
  (forall env id data actorId s current,
      TaskRepository.findById id s = Some current ->
      task_patch_identical current data ->
      audit_logs (snd (TaskService.update env id data actorId s)) = audit_logs s)
  /\ (forall env id data actorId s current,
      ProjectRepository.findById id s = Some current ->
      project_patch_identical current data ->
      audit_logs (snd (ProjectService.update env id data actorId s)) = audit_logs s)
  /\ (forall env id data actorId s task s' current,
      TaskService.update env id data actorId s = (Returned task, s') ->
      TaskRepository.findById id s = Some current ->
      audit_logs s' = audit_logs s
      \/ exists a,
           audit_logs s' = (audit_logs s ++ [a])%list
           /\ AuditLog.action a = AuditAction.UPDATE
           /\ AuditLog.entityType a = "Task" /\ AuditLog.entityId a = id
           /\ AuditLog.details a <> []
           /\ forall k v, In (k, v) (AuditLog.details a) ->
                          diff_entry_ok current data k v)
  /\ (forall env id data actorId s project s' current,
      ProjectService.update env id data actorId s = (Returned project, s') ->
      ProjectRepository.findById id s = Some current ->
      audit_logs s' = audit_logs s
      \/ exists a,
           audit_logs s' = (audit_logs s ++ [a])%list
           /\ AuditLog.action a = AuditAction.UPDATE
           /\ AuditLog.entityType a = "Project" /\ AuditLog.entityId a = id
           /\ AuditLog.details a <> []
           /\ forall k v, In (k, v) (AuditLog.details a) ->
                          project_diff_entry_ok current data k v).
Proof.
  repeat split.
  - intros env id data actorId s current Hfind Hid.
    destruct (TaskService.update env id data actorId s) as [[task | e] s'] eqn:H; simpl.
    + apply task_update_returned in H.
      destruct H as [c [Hc [_ [_ [_ [_ [_ Ha]]]]]]].
      rewrite Hfind in Hc. inv Hc.
      rewrite compute_diff_identical in Ha by assumption. exact Ha.
    + apply task_update_atomic in H. now subst.
  - intros env id data actorId s current Hfind Hid.
    destruct (ProjectService.update env id data actorId s) as [[p | e] s'] eqn:H; simpl.
    + apply project_update_returned in H.
      destruct H as [c [Hc [_ [_ [_ [_ [Ha _]]]]]]].
      rewrite Hfind in Hc. inv Hc.
      rewrite project_compute_diff_identical in Ha by assumption. exact Ha.
    + apply project_update_atomic in H. now subst.
  - intros env id data actorId s task s' current H Hfind.
    apply task_update_returned in H.
    destruct H as [c [Hc [_ [_ [_ [_ [_ Ha]]]]]]].
    rewrite Hfind in Hc. inv Hc.
    destruct (0 <? length (Js.keys (TaskService.compute_diff env c data)))%nat eqn:E.
    + right. eexists. split; [exact Ha |]. simpl. repeat split; auto.
      * apply keys_nonempty; assumption.
      * apply compute_diff_entries.
    + now left.
  - intros env id data actorId s project s' current H Hfind.
    apply project_update_returned in H.
    destruct H as [c [Hc [_ [_ [_ [_ [Ha _]]]]]]].
    rewrite Hfind in Hc. inv Hc.
    destruct (0 <? length (Js.keys (ProjectService.compute_diff c data)))%nat eqn:E.
    + right. eexists. split; [exact Ha |]. simpl. repeat split; auto.
      * apply keys_nonempty; assumption.
      * apply project_compute_diff_entries.
    + now left.
Qed.

Example noop_update_on_the_samples :
  audit_logs (snd (TaskService.update Sample.env "t-todo" SampleInput.patch_same
                     "u-admin" Sample.store)) = audit_logs Sample.store
  /\ audit_logs (snd (ProjectService.update Sample.env "p1"
                        SampleInput.project_patch_same "u-admin" Sample.store))
     = audit_logs Sample.store.
Proof. split; vm_compute; reflexivity. Qed.

(** The diff of a patch that carries only a due date, as a string: the
    stored date is rendered by [String], the string is itself. *)
Lemma compute_diff_due_string :
  forall env current text,
    TaskService.compute_diff env current
      (UpdateTaskData.mk None None None None
         (Some (Some (Prisma.OfString text))) None [])
    = if Js.String_of (date_toString env)
           (Js.of_nullable_date (Task.dueDate current)) =? text
      then []
      else [("dueDate",
             change (Js.of_nullable_date (Task.dueDate current)) (Js.Str text))].
Proof.
  intros env current text.
  unfold TaskService.compute_diff, TaskService.fieldsToCheck,
    TaskService.diff_field. simpl.
  destruct (Js.String_of (date_toString env)
              (Js.of_nullable_date (Task.dueDate current)) =? text);
    reflexivity.
Qed.

(** A body that repeats the due date of the task is logged as a change
    whenever the runtime's rendering of the stored date is not the string
    of the body: the stored date is kept, and the audit log gets a row whose
    only entry is [dueDate], from the date to the string that denotes it. *)
Lemma repeated_due_date_string_is_logged :
  forall env id actorId s current d text task s',
    TaskRepository.findById id s = Some current ->
    Task.dueDate current = Some d ->
    date_parse env text = Some d ->
    date_toString env d <> text ->
    TaskService.update env id
      (UpdateTaskData.mk None None None None
         (Some (Some (Prisma.OfString text))) None [])
      actorId s
    = (Returned task, s') ->
    Task.dueDate task = Some d
    /\ audit_logs s'
       = (audit_logs s
          ++ [AuditLog.mk (uuid env 1) "Task" id AuditAction.UPDATE actorId
                (db_now env)
                [("dueDate", change (Js.Date d) (Js.Str text))]])%list.
Proof.
  intros env id actorId s current d text task s' Hfind Hdue Hparse Hne Hrun.
  apply task_update_returned in Hrun.
  destruct Hrun as [c [Hc [Happ [_ [_ [_ [_ Ha]]]]]]].
  rewrite Hfind in Hc. inv Hc.
  rewrite compute_diff_due_string in Ha. rewrite Hdue in Ha. simpl in Ha.
  apply String.eqb_neq in Hne. rewrite Hne in Ha. simpl in Ha.
  split; [| exact Ha].
  apply task_apply_declared in Happ.
  destruct Happ as [_ [_ [_ [_ [_ [_ Hd]]]]]]. simpl in Hd.
  destruct Hd as [ms [Hms Hd]]. rewrite Hparse in Hms. congruence.
Qed.

(** C5 at its failing input.  The sample task is due at an instant that
    the string [2023-11-20T17:06:40.000Z] denotes.  The patch that carries
    this string as [dueDate], and nothing else, leaves every column of the
    task's own as it was, and yet the audit log gets a row: an UPDATE whose
    details have the entry [dueDate], with the stored date as old and the
    string as new value. *)
Theorem repeated_due_date_is_logged_as_a_change :
  TaskRepository.findById "t-todo" Sample.store = Some Sample.todo_task
  /\ Task.dueDate Sample.todo_task = Some 1700500000000
  /\ UpdateTaskData.dueDate SampleInput.patch_same_due
     = Some (Some (Prisma.OfString "2023-11-20T17:06:40.000Z"))
  /\ Prisma.date_of Sample.env (Prisma.OfString "2023-11-20T17:06:40.000Z")
     = Some 1700500000000
  /\ TaskService.update Sample.env "t-todo" SampleInput.patch_same_due
       "u-admin" Sample.store
     = (Returned SampleInput.todo_touched,
        mkStore (users Sample.store) (projects Sample.store)
          (project_members Sample.store)
          [SampleInput.todo_touched; Sample.done_task]
          [AuditLog.mk "gen-1" "Task" "t-todo" AuditAction.UPDATE "u-admin"
             1700000000000
             [("dueDate",
               change (Js.Date 1700500000000)
                      (Js.Str "2023-11-20T17:06:40.000Z"))]])
  /\ Task.dueDate SampleInput.todo_touched = Task.dueDate Sample.todo_task
  /\ Task.set_updatedAt (Task.updatedAt Sample.todo_task)
       SampleInput.todo_touched
     = Sample.todo_task.
Proof.
  repeat split; vm_compute; reflexivity.
Qed.

(** ** Status transitions and [completedAt] *)

Lemma task_update_stored :
  forall env id data actorId s task s' current,
    TaskService.update env id data actorId s = (Returned task, s') ->
    TaskRepository.findById id s = Some current ->
    Prisma.task_apply env (TaskService.updateData env current data) current
    = Some task
    /\ Task.id task = id
    /\ TaskRepository.findById id s' = Some task.
Proof.
  intros env id data actorId s task s' current H Hfind.
  apply task_update_returned in H.
  destruct H as [c [Hc [Ht [_ [_ [_ [Htasks _]]]]]]].
  rewrite Hfind in Hc. inv Hc. split; [exact Ht |].
  assert (Hid : Task.id task = id).
  { destruct (task_apply_declared _ _ _ Ht) as [Hid _]. rewrite Hid.
    apply (@find_key Task.t Task.id id (tasks s) c). exact Hfind. }
  split; [exact Hid |].
  unfold TaskRepository.findById, Prisma.task_findUnique in *.
  rewrite Htasks.
  apply (@find_replace_same Task.t Task.id id (tasks s) c task Hid Hfind).
Qed.

Lemma task_apply_completedAt :
  forall env d t t',
    Prisma.task_apply env d t = Some t' ->
    (forall o v,
        Prisma.tu_others d = Js.set o "completedAt" (Js.of_nullable_date v) ->
        Task.completedAt t' = v)
    /\ (Js.mentions (Prisma.tu_others d) "completedAt" = false ->
        Task.completedAt t' = Task.completedAt t).
Proof.
  intros env d t t' H. unfold Prisma.task_apply in H.
  destruct (match Prisma.tu_dueDate d with
            | Some (Some input) => option_map Some (Prisma.date_of env input)
            | Some None => Some None
            | None => Some (Task.dueDate t)
            end) as [due |]; [| discriminate].
  split.
  - intros o v Ho. rewrite Ho in H.
    apply (task_writes_set_completedAt _ _ _ _ H).
  - intros Hm. apply (task_writes_keeps_completedAt _ _ _ H Hm).
Qed.

Lemma completedAt_of_entering :
  forall env current data,
    UpdateTaskData.status data = Some TaskStatus.DONE ->
    Task.status current <> TaskStatus.DONE ->
    TaskService.completedAt_of env current data = Some (Some (js_now env)).
Proof.
  intros env current data Hst Hc. unfold TaskService.completedAt_of.
  rewrite Hst. destruct (Task.status current); simpl; congruence.
Qed.

Lemma completedAt_of_leaving :
  forall env current data st,
    UpdateTaskData.status data = Some st ->
    st <> TaskStatus.DONE ->
    Task.status current = TaskStatus.DONE ->
    TaskService.completedAt_of env current data = Some None.
Proof.
  intros env current data st Hst Hne Hc. unfold TaskService.completedAt_of.
  rewrite Hst, Hc. destruct st; simpl; congruence.
Qed.

Lemma completedAt_of_otherwise :
  forall env current data,
    (UpdateTaskData.status data = None
     \/ (UpdateTaskData.status data = Some TaskStatus.DONE
         /\ Task.status current = TaskStatus.DONE)
     \/ (exists st, UpdateTaskData.status data = Some st
                    /\ st <> TaskStatus.DONE
                    /\ Task.status current <> TaskStatus.DONE)) ->
    TaskService.completedAt_of env current data = None.
Proof.
  intros env current data [Hst | [[Hst Hc] | [st [Hst [Hne Hc]]]]];
    unfold TaskService.completedAt_of; rewrite Hst; try reflexivity.
  - rewrite Hc. reflexivity.
  - destruct st; destruct (Task.status current); simpl; congruence.
Qed.

(** After a Task.update that returns, the stored row is the returned task,
    and its [completedAt] is the server's current time when the patch moves
    the task into DONE and [null] when the patch moves it out of DONE,
    whatever else the patch carries; in every other case (a patch without
    status, DONE on a DONE task, a status other than DONE on a task that is
    not DONE) it is the previous value, provided that the patch has no
    [completedAt] of its own. *)
Lemma update_sets_completedAt_on_status_transition :
  forall env id data actorId s task s' current,
    TaskService.update env id data actorId s = (Returned task, s') ->
    TaskRepository.findById id s = Some current ->
    TaskRepository.findById id s' = Some task
    /\ (UpdateTaskData.status data = Some TaskStatus.DONE ->
        Task.status current <> TaskStatus.DONE ->
        Task.completedAt task = Some (js_now env))
    /\ (forall st, UpdateTaskData.status data = Some st ->
                   st <> TaskStatus.DONE ->
                   Task.status current = TaskStatus.DONE ->
                   Task.completedAt task = None)
    /\ (Js.mentions (UpdateTaskData.others data) "completedAt" = false ->
        (UpdateTaskData.status data = None
         \/ (UpdateTaskData.status data = Some TaskStatus.DONE
             /\ Task.status current = TaskStatus.DONE)
         \/ (exists st, UpdateTaskData.status data = Some st
                        /\ st <> TaskStatus.DONE
                        /\ Task.status current <> TaskStatus.DONE)) ->
        Task.completedAt task = Task.completedAt current).
Proof.
  intros env id data actorId s task s' current H Hfind.
  destruct (task_update_stored _ _ _ _ _ H Hfind) as [Ht [_ Hstored]].
  split; [exact Hstored |].
  destruct (task_apply_completedAt _ _ _ Ht) as [Hset Hkeep].
  unfold TaskService.updateData in Hset, Hkeep. simpl in Hset, Hkeep.
  split; [| split].
  - intros Hst Hc.
    rewrite (completedAt_of_entering env current data Hst Hc) in Hset.
    apply (Hset _ _ eq_refl).
  - intros st Hst Hne Hc.
    rewrite (completedAt_of_leaving env current data Hst Hne Hc) in Hset.
    apply (Hset _ _ eq_refl).
  - intros Hm Hcase.
    rewrite (completedAt_of_otherwise env current data Hcase) in Hkeep.
    apply Hkeep. exact Hm.
Qed.

Example update_sets_completedAt_on_the_sample :
  TaskService.update Sample.env "t-todo" SampleInput.patch_complete "u-admin"
    Sample.store
  = (Returned SampleInput.todo_completed,
     mkStore (users Sample.store) (projects Sample.store)
       (project_members Sample.store)
       [SampleInput.todo_completed; Sample.done_task]
       [AuditLog.mk "gen-1" "Task" "t-todo" AuditAction.UPDATE "u-admin"
          1700000000000
          [("status", change (Js.Str "TODO") (Js.Str "DONE"))]])
  /\ Task.completedAt SampleInput.todo_completed = Some (js_now Sample.env).
Proof. split; vm_compute; reflexivity. Qed.

(** C3 at its failing input.  The sample task [t-done] is DONE and has a
    completion time.  The patch [{ completedAt: null }] carries no status,
    so there is no transition; the update returns, the task is still DONE,
    and its [completedAt] is now [null]: the property of the body was
    handed to the update statement with the rest of [data].  No audit row
    records the change, since [completedAt] is not a checked field. *)
Theorem client_completedAt_is_written_without_transition :
  TaskRepository.findById "t-done" Sample.store = Some Sample.done_task
  /\ Task.status Sample.done_task = TaskStatus.DONE
  /\ Task.completedAt Sample.done_task = Some 1699500000000
  /\ UpdateTaskData.status SampleInput.patch_clear_completedAt = None
  /\ TaskService.update Sample.env "t-done"
       SampleInput.patch_clear_completedAt "u-admin" Sample.store
     = (Returned SampleInput.done_without_completedAt,
        set_tasks Sample.store
          [Sample.todo_task; SampleInput.done_without_completedAt])
  /\ Task.status SampleInput.done_without_completedAt = TaskStatus.DONE
  /\ Task.completedAt SampleInput.done_without_completedAt = None.
Proof.
  repeat split; vm_compute; reflexivity.
Qed.

(** ** The frame of Task.update *)

Lemma map_update_same_column :
  forall (R C : Type) (col : R -> C) (p : R -> bool) (f : R -> R) (l : list R),
    (forall r, col (f r) = col r) ->
    map col (map (fun r => if p r then f r else r) l) = map col l.
Proof.
  intros R C col p f l Hcol. induction l as [| r l IH]; simpl; [reflexivity |].
  rewrite IH. destruct (p r); [rewrite Hcol |]; reflexivity.
Qed.

(** A Task.update whose patch has the six properties of the interface only
    leaves the id, the project, the reporter and the creation time of the
    task as they were; the rows with another id are untouched, and so are
    the user, project and member tables. *)
Lemma update_keeps_project_reporter_createdAt :
  forall env id data actorId s task s' current,
    TaskService.update env id data actorId s = (Returned task, s') ->
    TaskRepository.findById id s = Some current ->
    UpdateTaskData.others data = [] ->
    TaskRepository.findById id s' = Some task
    /\ Task.id task = Task.id current
    /\ Task.projectId task = Task.projectId current
    /\ Task.reporterId task = Task.reporterId current
    /\ Task.createdAt task = Task.createdAt current
    /\ (forall id', id' <> id ->
                    TaskRepository.findById id' s' = TaskRepository.findById id' s)
    /\ users s' = users s
    /\ projects s' = projects s
    /\ project_members s' = project_members s.
Proof.
  intros env id data actorId s task s' current H Hfind Hothers.
  destruct (task_update_stored _ _ _ _ _ H Hfind) as [Ht [Hid Hstored]].
  apply task_update_returned in H.
  destruct H as [c [Hc [_ [Hu [Hp [Hm [Htasks _]]]]]]].
  rewrite Hfind in Hc. injection Hc as <-.
  assert (Hcols : Task.projectId task = Task.projectId current
                  /\ Task.reporterId task = Task.reporterId current
                  /\ Task.createdAt task = Task.createdAt current).
  { unfold Prisma.task_apply in Ht.
    destruct (match Prisma.tu_dueDate (TaskService.updateData env current data) with
              | Some (Some input) => option_map Some (Prisma.date_of env input)
              | Some None => Some None
              | None => Some (Task.dueDate current)
              end) as [due |]; [| discriminate].
    unfold TaskService.updateData in Ht. simpl in Ht. rewrite Hothers in Ht.
    destruct (TaskService.completedAt_of env current data) as [[d |] |];
      simpl in Ht; injection Ht as <-; auto. }
  destruct Hcols as [H1 [H2 H3]].
  assert (Hcur : Task.id current = id)
    by (apply (@find_key Task.t Task.id id (tasks s) current); exact Hfind).
  split; [exact Hstored |].
  split; [congruence |].
  repeat split; auto.
  intros id' Hne. unfold TaskRepository.findById, Prisma.task_findUnique.
  rewrite Htasks.
  apply (@find_replace_other Task.t Task.id id id' (tasks s) task Hid Hne).
Qed.

(** C10 at its failing input.  The sample store with a second project, and
    the patch [{ title, projectId: 'p2', reporterId: 'u-outsider',
    createdAt: '2020-01-01T00:00:00.000Z' }] on the sample task: the update
    returns, and the stored task has moved to the other project, has another
    reporter and another creation time.  The title is the one it had, so
    the diff is empty and no audit row is written. *)
Theorem body_keys_rewrite_project_reporter_createdAt :
  TaskRepository.findById "t-todo" SampleProject.store_two_projects
  = Some Sample.todo_task
  /\ TaskService.update Sample.env "t-todo" SampleInput.patch_move "u-admin"
       SampleProject.store_two_projects
     = (Returned SampleInput.todo_moved,
        set_tasks SampleProject.store_two_projects
          [SampleInput.todo_moved; Sample.done_task])
  /\ (Task.projectId Sample.todo_task = "p1"
      /\ Task.projectId SampleInput.todo_moved = "p2")
  /\ (Task.reporterId Sample.todo_task = "u-admin"
      /\ Task.reporterId SampleInput.todo_moved = "u-outsider")
  /\ (Task.createdAt Sample.todo_task = 1699000000000
      /\ Task.createdAt SampleInput.todo_moved = 1577836800000)
  /\ audit_logs
       (snd (TaskService.update Sample.env "t-todo" SampleInput.patch_move
               "u-admin" SampleProject.store_two_projects))
     = audit_logs SampleProject.store_two_projects.
Proof.
  repeat split; vm_compute; reflexivity.
Qed.

(** ** The audit row of a status change *)

(** C4, as the code has it.  When a Task.update that returns changes the
    status, it appends one UPDATE row for the task whose details hold the
    status change and no [completedAt] entry, also when the transition set or
    cleared [completedAt]: the keys of the details are among title,
    description, status, priority, assigneeId and dueDate. *)
Theorem status_change_audit_row_omits_completedAt :
  forall env id data actorId s task s' current st,
    TaskService.update env id data actorId s = (Returned task, s') ->
    TaskRepository.findById id s = Some current ->
    UpdateTaskData.status data = Some st ->
    st <> Task.status current ->
    exists a,
      audit_logs s' = (audit_logs s ++ [a])%list
      /\ AuditLog.entityType a = "Task"
      /\ AuditLog.entityId a = id
      /\ AuditLog.action a = AuditAction.UPDATE
      /\ AuditLog.actorId a = actorId
      /\ Js.get (AuditLog.details a) "status"
         = Some (change (Js.Str (TaskStatus.to_string (Task.status current)))
                        (Js.Str (TaskStatus.to_string st)))
      /\ Js.get (AuditLog.details a) "completedAt" = None
      /\ (forall k, In k (Js.keys (AuditLog.details a)) ->
                    In k (map Field.name TaskService.fieldsToCheck)).
Proof.
  intros env id data actorId s task s' current st H Hfind Hst Hne.
  apply task_update_returned in H.
  destruct H as [c [Hc [_ [_ [_ [_ [_ Ha]]]]]]].
  rewrite Hfind in Hc. inv Hc.
  pose proof (compute_diff_status env c data Hst Hne) as Hstatus.
  assert (Hlen : (0 <? length (Js.keys (TaskService.compute_diff env c data)))%nat
                 = true).
  { destruct (TaskService.compute_diff env c data); [discriminate | reflexivity]. }
  rewrite Hlen in Ha.
  eexists. split; [exact Ha |]. simpl.
  repeat split; auto.
  - apply compute_diff_no_completedAt.
  - intros k Hk. unfold Js.keys in Hk.
    apply in_map_iff in Hk. destruct Hk as [[k' v] [Hk Hin]]. simpl in Hk. subst k'.
    apply compute_diff_entries in Hin.
    destruct Hin as [field [Hf [-> _]]]. destruct field; simpl; auto 10.
Qed.

Lemma status_change_audit_row_omits_completedAt_witness :
  exists a,
    audit_logs (snd (TaskService.update Sample.env "t-done"
                       SampleInput.patch_reopen "u-admin" Sample.store))
    = (audit_logs Sample.store ++ [a])%list
    /\ Js.get (AuditLog.details a) "status"
       = Some (change (Js.Str "DONE") (Js.Str "TODO"))
    /\ Js.get (AuditLog.details a) "completedAt" = None.
Proof.
  assert (Hrun : TaskService.update Sample.env "t-done" SampleInput.patch_reopen
                   "u-admin" Sample.store
                 = (Returned SampleInput.done_reopened,
                    snd (TaskService.update Sample.env "t-done"
                           SampleInput.patch_reopen "u-admin" Sample.store)))
    by (vm_compute; reflexivity).
  destruct (status_change_audit_row_omits_completedAt
              _ _ _ _ _ Hrun
              (eq_refl : TaskRepository.findById "t-done" Sample.store
                         = Some Sample.done_task)
              (eq_refl : UpdateTaskData.status SampleInput.patch_reopen
                         = Some TaskStatus.TODO))
    as [a [Hlog [_ [_ [_ [_ [Hstatus [Hcompleted _]]]]]]]].
  - discriminate.
  - exists a. auto.
Defined.

(** C4, as stated, fails: re-opening the DONE sample task clears its
    [completedAt], and the audit row of the update has the single key
    [status]. *)
Lemma reopening_done_task_logs_status_only :
  exists s' a,
    TaskService.update Sample.env "t-done" SampleInput.patch_reopen "u-admin"
                       Sample.store
    = (Returned SampleInput.done_reopened, s')
    /\ Task.completedAt Sample.done_task = Some 1699500000000
    /\ Task.completedAt SampleInput.done_reopened = None
    /\ audit_logs s' = [a]
    /\ Js.keys (AuditLog.details a) = ["status"]
    /\ Js.get (AuditLog.details a) "completedAt" = None.
Proof.
  eexists. eexists.
  split; [vm_compute; reflexivity |].
  split; [reflexivity |].
  split; [reflexivity |].
  split; [vm_compute; reflexivity |].
  split; reflexivity.
Qed.

(** ** Task.create *)

Lemma task_create_returned :
  forall env data actorId s task s',
    TaskService.create env data actorId s = (Returned task, s') ->
    task = Task.mk (uuid env 0)
                   (CreateTaskData.title data)
                   (CreateTaskData.description data)
                   (default_status env)
                   (match CreateTaskData.priority data with
                    | Some p => Some p
                    | None => default_priority env
                    end)
                   (CreateTaskData.dueDate data)
                   None
                   (db_now env)
                   (db_now env)
                   (CreateTaskData.projectId data)
                   (match CreateTaskData.assigneeId data with
                    | Some a => a
                    | None => None
                    end)
                   actorId
    /\ tasks s' = (tasks s ++ [task])%list
    /\ audit_logs s' =
         (audit_logs s
          ++ [AuditLog.mk (uuid env 1) "Task" (Task.id task) AuditAction.CREATE
                          actorId (db_now env) (TaskService.create_details data)])%list
    /\ users s' = users s
    /\ projects s' = projects s
    /\ project_members s' = project_members s.
Proof.
  intros env data actorId s task s' H.
  unfold TaskService.create in H.
  destruct (TaskService.validateAssignee _ _ s); [| discriminate].
  apply transaction_returned_commits in H. destruct H as [c [Hc [Hs' _]]].
  unfold bind, Prisma.task_create, AuditRepository.create,
    Prisma.auditLog_create, statement, ret in Hc. simpl in Hc.
  destruct (aborts env 0); [discriminate |].
  match type of Hc with
  | context [if ?b then _ else _] => destruct b; [| discriminate]
  end.
  simpl in Hc. destruct (aborts env 1); [discriminate |].
  inv Hc. simpl. auto 10.
Qed.

(** C8.  The task that Task.create returns and stores has the actor as
    its reporter, whatever the submitted data. *)
Theorem created_task_reporter_is_actor :
  forall env data actorId s task s',
    TaskService.create env data actorId s = (Returned task, s') ->
    Task.reporterId task = actorId
    /\ tasks s' = (tasks s ++ [task])%list.
Proof.
  intros env data actorId s task s' H.
  apply task_create_returned in H. destruct H as [Ht [Htasks _]].
  split; [subst task; reflexivity | exact Htasks].
Qed.

Lemma created_task_reporter_is_actor_witness :
  Task.reporterId SampleCreate.created = "u-member"
  /\ tasks (snd (TaskService.create Sample.env SampleCreate.data "u-member"
                   Sample.store))
     = (tasks Sample.store ++ [SampleCreate.created])%list.
Proof.
  apply (created_task_reporter_is_actor Sample.env SampleCreate.data "u-member"
           Sample.store).
  vm_compute. reflexivity.
Defined.

(** ** Assignee validation *)

(** C2, as the code has it.  For a non-empty assignee id, validation
    succeeds exactly when the assignee's role in the project is MEMBER, or
    the assignee has no member row of the project and is a global ADMIN; it
    throws "Assignee not found" when there is neither a member row nor a
    user, "not a member of this project" when the user exists without a
    member row and is not ADMIN, and "view-only" when the member row has the
    role VIEWER, whatever the global role.  The three error codes differ, and
    a Task.create or Task.update whose validation throws rethrows the error
    and leaves the store as it was. *)
Theorem validateAssignee_outcomes :
  forall projectId a s,
    a <> "" ->
    (TaskService.validateAssignee projectId (Some (Some a)) s = Returned tt
     <-> ProjectRepository.getUserProjectRole projectId a s = Some ProjectRole.MEMBER
         \/ (ProjectRepository.getUserProjectRole projectId a s = None
             /\ is_global_admin a s))
    /\ (ProjectRepository.getUserProjectRole projectId a s = None ->
        Prisma.user_findUnique a s = None ->
        TaskService.validateAssignee projectId (Some (Some a)) s
        = Thrown (AppErr (AppError.badRequest "Assignee not found"
                            ErrorCodes.TASK.ASSIGNEE_NOT_FOUND
                            [("assigneeId", Js.Str a)])))
    /\ (forall u,
        ProjectRepository.getUserProjectRole projectId a s = None ->
        Prisma.user_findUnique a s = Some u ->
        User.role u <> UserRole.ADMIN ->
        TaskService.validateAssignee projectId (Some (Some a)) s
        = Thrown (AppErr (AppError.badRequest
                            "Assignee is not a member of this project"
                            ErrorCodes.TASK.ASSIGNEE_NOT_IN_PROJECT
                            [("assigneeId", Js.Str a);
                             ("projectId", Js.Str projectId)])))
    /\ (ProjectRepository.getUserProjectRole projectId a s = Some ProjectRole.VIEWER ->
        TaskService.validateAssignee projectId (Some (Some a)) s
        = Thrown (AppErr (AppError.badRequest
                            "Cannot assign tasks to view-only users. Viewers have read-only access."
                            ErrorCodes.TASK.VIEWER_CANNOT_BE_ASSIGNED
                            [("assigneeId", Js.Str a);
                             ("projectRole", Js.Str "VIEWER")])))
    /\ (ErrorCodes.TASK.ASSIGNEE_NOT_FOUND <> ErrorCodes.TASK.ASSIGNEE_NOT_IN_PROJECT
        /\ ErrorCodes.TASK.ASSIGNEE_NOT_FOUND <> ErrorCodes.TASK.VIEWER_CANNOT_BE_ASSIGNED
        /\ ErrorCodes.TASK.ASSIGNEE_NOT_IN_PROJECT
           <> ErrorCodes.TASK.VIEWER_CANNOT_BE_ASSIGNED)
    /\ (forall env data actorId e,
        CreateTaskData.projectId data = projectId ->
        CreateTaskData.assigneeId data = Some (Some a) ->
        TaskService.validateAssignee projectId (Some (Some a)) s = Thrown e ->
        TaskService.create env data actorId s = (Thrown e, s))
    /\ (forall env id data actorId current e,
        TaskRepository.findById id s = Some current ->
        Task.projectId current = projectId ->
        UpdateTaskData.assigneeId data = Some (Some a) ->
        TaskService.validateAssignee projectId (Some (Some a)) s = Thrown e ->
        TaskService.update env id data actorId s = (Thrown e, s)).
Proof.
  intros projectId a s Ha.
  assert (Hne : (a =? "") = false) by (apply String.eqb_neq; exact Ha).
  unfold is_global_admin.
  repeat split.
  - unfold TaskService.validateAssignee. rewrite Hne.
    destruct (ProjectRepository.getUserProjectRole projectId a s) as [[|] |];
      [auto | discriminate |].
    destruct (Prisma.user_findUnique a s) as [u |]; [| discriminate].
    destruct (User.role u) eqn:Hr; try discriminate.
    intros _. right. split; [reflexivity |]. exists u. auto.
  - unfold TaskService.validateAssignee. rewrite Hne.
    intros [H | [H [u [Hu Hr]]]]; rewrite H; [reflexivity |].
    rewrite Hu, Hr. reflexivity.
  - intros Hrole Huser. unfold TaskService.validateAssignee.
    rewrite Hne, Hrole, Huser. reflexivity.
  - intros u Hrole Huser Hadmin. unfold TaskService.validateAssignee.
    rewrite Hne, Hrole, Huser. destruct (User.role u); congruence.
  - intros Hrole. unfold TaskService.validateAssignee.
    rewrite Hne, Hrole. reflexivity.
  - discriminate.
  - discriminate.
  - discriminate.
  - intros env data actorId e Hp Hd Hv. unfold TaskService.create.
    rewrite Hp, Hd, Hv. reflexivity.
  - intros env id data actorId current e Hfind Hp Hd Hv.
    unfold TaskService.update. rewrite Hfind, Hd, Hp, Hv. reflexivity.
Qed.

Lemma validateAssignee_outcomes_witness :
  TaskService.validateAssignee "p1" (Some (Some "u-member")) Sample.store
  = Returned tt
  /\ TaskService.validateAssignee "p1" (Some (Some "u-admin")) Sample.store
     = Returned tt
  /\ TaskService.validateAssignee "p1" (Some (Some "u-viewer")) Sample.store
     = Thrown (AppErr (AppError.badRequest
                         "Cannot assign tasks to view-only users. Viewers have read-only access."
                         ErrorCodes.TASK.VIEWER_CANNOT_BE_ASSIGNED
                         [("assigneeId", Js.Str "u-viewer");
                          ("projectRole", Js.Str "VIEWER")]))
  /\ TaskService.validateAssignee "p1" (Some (Some "u-nobody")) Sample.store
     = Thrown (AppErr (AppError.badRequest "Assignee not found"
                         ErrorCodes.TASK.ASSIGNEE_NOT_FOUND
                         [("assigneeId", Js.Str "u-nobody")])).
Proof.
  split; [| split; [| split]].
  - apply (validateAssignee_outcomes "p1" (a := "u-member") Sample.store);
      [discriminate |]. left. reflexivity.
  - apply (validateAssignee_outcomes "p1" (a := "u-admin") Sample.store);
      [discriminate |]. right. split; [reflexivity |].
    exists Sample.admin. split; reflexivity.
  - apply (validateAssignee_outcomes "p1" (a := "u-viewer") Sample.store);
      [discriminate | reflexivity].
  - apply (validateAssignee_outcomes "p1" (a := "u-nobody") Sample.store);
      [discriminate | reflexivity | reflexivity].
Defined.

(** C2, as stated, fails: an administrator who was added to the project
    as a viewer is a global ADMIN, and is refused as an assignee; and the
    empty id, which no user has, passes validation as "unassigned". *)
Lemma admin_with_viewer_row_is_refused :
  (exists m, ProjectService.addMember Sample.env "p1" "u-admin"
               ProjectRole.VIEWER "u-admin" Sample.store
             = (Returned m, Sample.store_admin_viewer))
  /\ is_global_admin "u-admin" Sample.store_admin_viewer
  /\ TaskService.validateAssignee "p1" (Some (Some "u-admin"))
       Sample.store_admin_viewer
     = Thrown (AppErr (AppError.badRequest
                         "Cannot assign tasks to view-only users. Viewers have read-only access."
                         ErrorCodes.TASK.VIEWER_CANNOT_BE_ASSIGNED
                         [("assigneeId", Js.Str "u-admin");
                          ("projectRole", Js.Str "VIEWER")]))
  /\ (exists e, TaskService.create Sample.env SampleAssign.data_admin "u-member"
                  Sample.store_admin_viewer
                = (Thrown e, Sample.store_admin_viewer))
  /\ Prisma.user_findUnique "" Sample.store = None
  /\ TaskService.validateAssignee "p1" (Some (Some "")) Sample.store
     = Returned tt.
Proof.
  split; [eexists; vm_compute; reflexivity |].
  split; [exists Sample.admin; split; reflexivity |].
  split; [vm_compute; reflexivity |].
  split; [eexists; vm_compute; reflexivity |].
  split; reflexivity.
Qed.

(** ** A user updating their own role *)

Lemma UserRole_eqb_eq :
  forall a b, UserRole.eqb a b = true <-> a = b.
Proof. intros [] []; simpl; split; congruence. Qed.

(** C6, as the code has it.  When the actor is the target user: a request
    that supplies a role other than the user's current role is refused with
    the 400 error "Cannot change your own role" and writes nothing; a
    request that supplies the current role passes the check and, unless the
    store aborts the statement, is answered with status 200; and whatever the
    request and its outcome, the stored role of the user is the same
    afterwards. *)
Theorem self_role_change_refused_unless_same_role :
  forall env req s existingUser,
    UserController.user_id req = UserController.params_id req ->
    UserRepository.findById (UserController.params_id req) s = Some existingUser ->
    (forall role,
        UserController.body_role req = Some role ->
        role <> User.role existingUser ->
        UserController.update env req s
        = (Thrown (AppErr (AppError.new "Cannot change your own role" 400)), s))
    /\ (UserController.body_role req = Some (User.role existingUser) ->
        aborts env 0 = false ->
        exists user s',
          UserController.update env req s = (Returned (200, user), s')
          /\ UserController.r_role user = User.role existingUser)
    /\ (option_map User.role
          (UserRepository.findById (UserController.params_id req)
             (snd (UserController.update env req s)))
        = Some (User.role existingUser)).
Proof.
  intros env req s existingUser Hself Hfind. repeat split.
  - intros role Hrole Hne. unfold UserController.update.
    rewrite Hfind, Hself, String.eqb_refl, Hrole. simpl.
    destruct (UserRole.eqb role (User.role existingUser)) eqn:E;
      [apply UserRole_eqb_eq in E; congruence | reflexivity].
  - intros Hrole Hab. unfold UserController.update.
    rewrite Hfind, Hself, String.eqb_refl, Hrole. simpl.
    replace (UserRole.eqb (User.role existingUser) (User.role existingUser))
      with true by (symmetry; apply UserRole_eqb_eq; reflexivity).
    simpl. unfold UserRepository.update, Prisma.user_update. rewrite Hab.
    unfold UserRepository.findById in Hfind. rewrite Hfind.
    eexists. eexists. split; [reflexivity |]. reflexivity.
  - unfold UserController.update. rewrite Hfind, Hself, String.eqb_refl. simpl.
    destruct (UserController.body_role req) as [role |] eqn:Hrole.
    + destruct (UserRole.eqb role (User.role existingUser)) eqn:E; simpl.
      * apply UserRole_eqb_eq in E. subst role.
        unfold UserRepository.update, Prisma.user_update.
        destruct (aborts env 0); simpl; [rewrite Hfind; reflexivity |].
        unfold UserRepository.findById in *. rewrite Hfind. simpl.
        unfold Prisma.user_findUnique in *. simpl.
        rewrite (@find_update_same User.t User.id
                   (Prisma.user_apply (UserController.body_name req)
                      (Some (User.role existingUser)))
                   (fun r => eq_refl) _ _ _ Hfind).
        reflexivity.
      * rewrite Hfind. reflexivity.
    + unfold UserRepository.update, Prisma.user_update.
      destruct (aborts env 0); simpl; [rewrite Hfind; reflexivity |].
      unfold UserRepository.findById in *. rewrite Hfind. simpl.
      unfold Prisma.user_findUnique in *. simpl.
      rewrite (@find_update_same User.t User.id
                 (Prisma.user_apply (UserController.body_name req) None)
                 (fun r => eq_refl) _ _ _ Hfind).
      reflexivity.
Qed.

Lemma self_role_change_refused_unless_same_role_witness :
  UserController.update Sample.env SampleAssign.request_demote Sample.store
  = (Thrown (AppErr (AppError.new "Cannot change your own role" 400)),
     Sample.store)
  /\ option_map User.role
       (UserRepository.findById "u-admin"
          (snd (UserController.update Sample.env SampleAssign.request_same_role
                  Sample.store)))
     = Some UserRole.ADMIN.
Proof.
  split.
  - destruct (self_role_change_refused_unless_same_role Sample.env
                SampleAssign.request_demote Sample.store
                (existingUser := Sample.admin) eq_refl eq_refl) as [Hrefuse _].
    apply (Hrefuse UserRole.MEMBER); [reflexivity | discriminate].
  - apply (self_role_change_refused_unless_same_role Sample.env
             SampleAssign.request_same_role Sample.store
             (existingUser := Sample.admin) eq_refl eq_refl).
Defined.

(** C6, as stated, fails: an administrator who sends their own id with
    their current role gets the 200 response, not an error. *)
Lemma self_update_with_same_role_succeeds :
  UserController.user_id SampleAssign.request_same_role
  = UserController.params_id SampleAssign.request_same_role
  /\ UserController.body_role SampleAssign.request_same_role = Some UserRole.ADMIN
  /\ option_map User.role (UserRepository.findById "u-admin" Sample.store)
     = Some UserRole.ADMIN
  /\ UserController.update Sample.env SampleAssign.request_same_role Sample.store
     = (Returned (200, UserController.withoutPassword Sample.admin), Sample.store).
Proof.
  repeat split.
Qed.

(** ** Project.addMember *)

Lemma member_row_references :
  forall projectId userId s existingRole,
    members_reference_rows s = true ->
    ProjectRepository.getUserProjectRole projectId userId s = Some existingRole ->
    (exists project, ProjectRepository.findById projectId s = Some project)
    /\ (exists user, UserRepository.findById userId s = Some user).
Proof.
  intros projectId userId s existingRole Hfk Hrole.
  unfold ProjectRepository.getUserProjectRole,
    Prisma.projectMember_findUnique_projectId_userId in Hrole.
  destruct (find _ (project_members s)) as [m |] eqn:Hfind; [| discriminate].
  apply find_some in Hfind. destruct Hfind as [Hin Hkey].
  apply andb_true_iff in Hkey. destruct Hkey as [Hp Hu].
  apply String.eqb_eq in Hp. apply String.eqb_eq in Hu.
  unfold members_reference_rows in Hfk.
  rewrite forallb_forall in Hfk. specialize (Hfk m Hin).
  apply andb_true_iff in Hfk. destruct Hfk as [Hpe Hue].
  rewrite Hp in Hpe. rewrite Hu in Hue.
  unfold Prisma.project_exists in Hpe. unfold Prisma.user_exists in Hue.
  unfold ProjectRepository.findById, UserRepository.findById.
  destruct (Prisma.project_findUnique projectId s); [| discriminate].
  destruct (Prisma.user_findUnique userId s); [| discriminate].
  eauto.
Qed.

(** C7.  Project.addMember throws the "already a member" error
    (MEMBER_ALREADY_EXISTS) when a member row for the pair exists, and the
    store, hence the member's role, stays as it was; it throws "Project not
    found" (PROJECT.NOT_FOUND) when the project is absent and "User not
    found" (a 400 error that carries the code USER.NOT_FOUND) when the user
    is absent; otherwise, when the store aborts nothing, it appends the
    member row and one audit row, an UPDATE on the Project entity by the
    actor whose details are the single entry [memberAdded] with the id, the
    name and the email of the user and the role given. *)
Theorem addMember_outcomes :
  forall env projectId userId projectRole actorId s,
    (forall existingRole,
        members_reference_rows s = true ->
        ProjectRepository.getUserProjectRole projectId userId s = Some existingRole ->
        ProjectService.addMember env projectId userId projectRole actorId s
        = (Thrown (AppErr (AppError.badRequest
                     "User is already a member of this project"
                     ErrorCodes.PROJECT.MEMBER_ALREADY_EXISTS
                     [ ("userId", Js.Str userId);
                       ("projectId", Js.Str projectId);
                       ("existingRole",
                         Js.Str (ProjectRole.to_string existingRole)) ])), s)
        /\ ProjectRepository.getUserProjectRole projectId userId
             (snd (ProjectService.addMember env projectId userId projectRole
                     actorId s))
           = Some existingRole)
    /\ (ProjectRepository.findById projectId s = None ->
        ProjectService.addMember env projectId userId projectRole actorId s
        = (Thrown (AppErr (AppError.notFound "Project not found"
                             ErrorCodes.PROJECT.NOT_FOUND)), s))
    /\ (forall project,
        ProjectRepository.findById projectId s = Some project ->
        UserRepository.findById userId s = None ->
        ProjectService.addMember env projectId userId projectRole actorId s
        = (Thrown (AppErr (AppError.badRequest "User not found"
                             ErrorCodes.USER.NOT_FOUND
                             [("userId", Js.Str userId)])), s))
    /\ (forall project user,
        ProjectRepository.findById projectId s = Some project ->
        UserRepository.findById userId s = Some user ->
        ProjectRepository.getUserProjectRole projectId userId s = None ->
        aborts env 0%nat = false -> aborts env 1%nat = false ->
        aborts env 2%nat = false ->
        ProjectService.addMember env projectId userId projectRole actorId s
        = (Returned (ProjectMember.mk (uuid env 0) projectId userId projectRole
                                      (db_now env), user),
           mkStore (users s) (projects s)
                   (project_members s
                    ++ [ProjectMember.mk (uuid env 0) projectId userId
                                         projectRole (db_now env)])
                   (tasks s)
                   (audit_logs s
                    ++ [AuditLog.mk (uuid env 1) "Project" projectId
                          AuditAction.UPDATE actorId (db_now env)
                          [ ("memberAdded",
                             Js.Obj
                               [ ("userId", Js.Str userId);
                                 ("userName", Js.Str (User.name user));
                                 ("userEmail", Js.Str (User.email user));
                                 ("projectRole",
                                   Js.Str (ProjectRole.to_string projectRole)) ])
                          ]]))).
Proof.
  intros env projectId userId projectRole actorId s.
  split; [| split; [| split]].
  - intros existingRole Hfk Hrole.
    destruct (member_row_references _ _ _ Hfk Hrole) as [[p Hp] [u Hu]].
    unfold ProjectService.addMember. rewrite Hp, Hu, Hrole. simpl. auto.
  - intros Hp. unfold ProjectService.addMember. rewrite Hp. reflexivity.
  - intros project Hp Hu. unfold ProjectService.addMember.
    rewrite Hp, Hu. reflexivity.
  - intros project user Hp Hu Hrole H0 H1 H2.
    unfold ProjectService.addMember. rewrite Hp, Hu, Hrole.
    unfold transaction, bind, Prisma.projectMember_create,
      AuditRepository.create, Prisma.auditLog_create, statement, ret. simpl.
    rewrite H0.
    unfold ProjectRepository.getUserProjectRole in Hrole.
    unfold Prisma.pair_is_free.
    destruct (Prisma.projectMember_findUnique_projectId_userId projectId userId s);
      [discriminate |].
    unfold UserRepository.findById in Hu. rewrite Hu.
    unfold Prisma.project_exists. unfold ProjectRepository.findById in Hp.
    rewrite Hp. simpl. rewrite H1. simpl. rewrite H2. reflexivity.
Qed.

Lemma addMember_outcomes_witness :
  (ProjectService.addMember Sample.env "p1" "u-member" ProjectRole.VIEWER
     "u-admin" Sample.store
   = (Thrown (AppErr (AppError.badRequest
                "User is already a member of this project"
                ErrorCodes.PROJECT.MEMBER_ALREADY_EXISTS
                [ ("userId", Js.Str "u-member");
                  ("projectId", Js.Str "p1");
                  ("existingRole", Js.Str "MEMBER") ])), Sample.store)
   /\ ProjectRepository.getUserProjectRole "p1" "u-member"
        (snd (ProjectService.addMember Sample.env "p1" "u-member"
                ProjectRole.VIEWER "u-admin" Sample.store))
      = Some ProjectRole.MEMBER)
  /\ ProjectService.addMember Sample.env "p9" "u-member" ProjectRole.VIEWER
       "u-admin" Sample.store
     = (Thrown (AppErr (AppError.notFound "Project not found"
                          ErrorCodes.PROJECT.NOT_FOUND)), Sample.store)
  /\ ProjectService.addMember Sample.env "p1" "u-nobody" ProjectRole.VIEWER
       "u-admin" Sample.store
     = (Thrown (AppErr (AppError.badRequest "User not found"
                          ErrorCodes.USER.NOT_FOUND
                          [("userId", Js.Str "u-nobody")])), Sample.store)
  /\ project_members
       (snd (ProjectService.addMember Sample.env "p1" "u-outsider"
               ProjectRole.MEMBER "u-admin" Sample.store))
     = (project_members Sample.store
        ++ [ProjectMember.mk "gen-0" "p1" "u-outsider" ProjectRole.MEMBER
                             1700000000000])%list
  /\ audit_logs
       (snd (ProjectService.addMember Sample.env "p1" "u-outsider"
               ProjectRole.MEMBER "u-admin" Sample.store))
     = [AuditLog.mk "gen-1" "Project" "p1" AuditAction.UPDATE "u-admin"
          1700000000000
          [ ("memberAdded",
             Js.Obj [ ("userId", Js.Str "u-outsider");
                      ("userName", Js.Str "Out");
                      ("userEmail", Js.Str "out@example.com");
                      ("projectRole", Js.Str "MEMBER") ]) ]].
Proof.
  split; [| split; [| split]].
  - destruct (addMember_outcomes Sample.env "p1" "u-member" ProjectRole.VIEWER
                "u-admin" Sample.store) as [Hexists _].
    apply (Hexists ProjectRole.MEMBER); reflexivity.
  - destruct (addMember_outcomes Sample.env "p9" "u-member" ProjectRole.VIEWER
                "u-admin" Sample.store) as [_ [Hproject _]].
    apply Hproject. reflexivity.
  - destruct (addMember_outcomes Sample.env "p1" "u-nobody" ProjectRole.VIEWER
                "u-admin" Sample.store) as [_ [_ [Huser _]]].
    apply (Huser Sample.project); reflexivity.
  - destruct (addMember_outcomes Sample.env "p1" "u-outsider" ProjectRole.MEMBER
                "u-admin" Sample.store) as [_ [_ [_ Hadd]]].
    rewrite (Hadd Sample.project Sample.outsider); try reflexivity.
    split; reflexivity.
Defined.

(** ** What the other write methods commit when they return *)

Lemma task_delete_returned :
  forall env id actorId s s',
    TaskService.delete env id actorId s = (Returned tt, s') ->
    exists task,
      TaskRepository.findById id s = Some task
      /\ tasks s' = filter (fun r => negb (Task.id r =? id)) (tasks s)
      /\ audit_logs s' =
           (audit_logs s
            ++ [AuditLog.mk (uuid env 1) "Task" id AuditAction.DELETE actorId
                            (db_now env) (TaskService.delete_details task)])%list
      /\ users s' = users s
      /\ projects s' = projects s
      /\ project_members s' = project_members s.
Proof.
  intros env id actorId s s' H. unfold TaskService.delete in H.
  destruct (TaskRepository.findById id s) as [task |] eqn:Hfind; [| discriminate].
  exists task. split; [reflexivity |].
  apply transaction_returned_commits in H. destruct H as [c [Hc [Hs' _]]].
  unfold bind, Prisma.task_delete, AuditRepository.create,
    Prisma.auditLog_create, statement, ret in Hc. simpl in Hc.
  destruct (aborts env 0); [discriminate |].
  unfold TaskRepository.findById in Hfind. rewrite Hfind in Hc. simpl in Hc.
  destruct (aborts env 1); [discriminate |].
  inv Hc. simpl. auto 10.
Qed.

Lemma project_create_returned :
  forall env name description actorId s project s',
    ProjectService.create env name description actorId s = (Returned project, s') ->
    project = Project.mk (uuid env 0) name description (db_now env)
                         (db_now env)
    /\ projects s' = (projects s ++ [project])%list
    /\ audit_logs s' =
         (audit_logs s
          ++ [AuditLog.mk (uuid env 1) "Project" (Project.id project)
                          AuditAction.CREATE actorId (db_now env)
                          (Js.defined
                             [ ("name", Js.Str name);
                               ("description",
                                 Js.of_optional Js.Str description) ])])%list
    /\ users s' = users s
    /\ project_members s' = project_members s
    /\ tasks s' = tasks s.
Proof.
  intros env name description actorId s project s' H.
  unfold ProjectService.create in H.
  apply transaction_returned_commits in H. destruct H as [c [Hc [Hs' _]]].
  unfold bind, Prisma.project_create, AuditRepository.create,
    Prisma.auditLog_create, statement, ret in Hc. simpl in Hc.
  destruct (aborts env 0); [discriminate |]. simpl in Hc.
  destruct (aborts env 1); [discriminate |].
  inv Hc. simpl. auto 10.
Qed.

Lemma project_delete_returned :
  forall env id actorId s s',
    ProjectService.delete env id actorId s = (Returned tt, s') ->
    exists project,
      ProjectRepository.findById id s = Some project
      /\ projects s' = filter (fun r => negb (Project.id r =? id)) (projects s)
      /\ project_members s'
         = filter (fun m => negb (ProjectMember.projectId m =? id))
                  (project_members s)
      /\ tasks s' = filter (fun t => negb (Task.projectId t =? id)) (tasks s)
      /\ audit_logs s' =
           (audit_logs s
            ++ [AuditLog.mk (uuid env 1) "Project" id AuditAction.DELETE actorId
                            (db_now env)
                            [ ("name", Js.Str (Project.name project));
                              ("description",
                                Js.of_nullable_string
                                  (Project.description project)) ]])%list
      /\ users s' = users s.
Proof.
  intros env id actorId s s' H. unfold ProjectService.delete in H.
  destruct (ProjectRepository.findById id s) as [project |] eqn:Hfind;
    [| discriminate].
  exists project. split; [reflexivity |].
  apply transaction_returned_commits in H. destruct H as [c [Hc [Hs' _]]].
  unfold bind, Prisma.project_delete, AuditRepository.create,
    Prisma.auditLog_create, statement, ret in Hc. simpl in Hc.
  destruct (aborts env 0); [discriminate |].
  unfold ProjectRepository.findById in Hfind. rewrite Hfind in Hc. simpl in Hc.
  destruct (aborts env 1); [discriminate |].
  inv Hc. simpl. auto 10.
Qed.

Lemma addMember_returned :
  forall env projectId userId projectRole actorId s member s',
    ProjectService.addMember env projectId userId projectRole actorId s
    = (Returned member, s') ->
    fst member = ProjectMember.mk (uuid env 0) projectId userId projectRole
                                  (db_now env)
    /\ Prisma.project_exists projectId s = true
    /\ UserRepository.findById userId s = Some (snd member)
    /\ project_members s' = (project_members s ++ [fst member])%list
    /\ audit_logs s' =
         (audit_logs s
          ++ [AuditLog.mk (uuid env 1) "Project" projectId AuditAction.UPDATE
                          actorId (db_now env)
                          (ProjectService.memberAdded userId (snd member)
                                                      projectRole)])%list
    /\ users s' = users s
    /\ projects s' = projects s
    /\ tasks s' = tasks s.
Proof.
  intros env projectId userId projectRole actorId s member s' H.
  unfold ProjectService.addMember in H.
  destruct (ProjectRepository.findById projectId s); [| discriminate].
  destruct (UserRepository.findById userId s) as [u |] eqn:Hu; [| discriminate].
  destruct (ProjectRepository.getUserProjectRole projectId userId s);
    [discriminate |].
  apply transaction_returned_commits in H. destruct H as [c [Hc [Hs' _]]].
  unfold bind, Prisma.projectMember_create, AuditRepository.create,
    Prisma.auditLog_create, statement, ret in Hc. simpl in Hc.
  destruct (aborts env 0); [discriminate |].
  destruct (Prisma.pair_is_free projectId userId s); [| discriminate].
  unfold UserRepository.findById in Hu. rewrite Hu in Hc.
  destruct (Prisma.project_exists projectId s); [| discriminate].
  simpl in Hc. destruct (aborts env 1); [discriminate |].
  inv Hc. simpl. auto 10.
Qed.

(** Project.addMember keeps the foreign keys of the member table. *)
Lemma addMember_keeps_member_references :
  forall env projectId userId projectRole actorId s member s',
    members_reference_rows s = true ->
    ProjectService.addMember env projectId userId projectRole actorId s
    = (Returned member, s') ->
    members_reference_rows s' = true.
Proof.
  intros env projectId userId projectRole actorId s member s' Hfk H.
  apply addMember_returned in H.
  destruct H as [Hm [Hp [Hu [Hmembers [_ [Husers [Hprojects _]]]]]]].
  unfold members_reference_rows, Prisma.project_exists, Prisma.user_exists,
    Prisma.project_findUnique, Prisma.user_findUnique in *.
  unfold UserRepository.findById, Prisma.user_findUnique in Hu.
  rewrite Hmembers, Husers, Hprojects, forallb_app, Hfk. simpl.
  rewrite Hm. simpl. rewrite Hp, Hu. reflexivity.
Qed.

Lemma updateMemberRole_returned :
  forall env projectId memberId newRole actorId s updated s',
    ProjectService.updateMemberRole env projectId memberId newRole actorId s
    = (Returned updated, s') ->
    exists member,
      Prisma.projectMember_findUnique memberId s = Some member
      /\ ProjectMember.projectId member = projectId
      /\ ((ProjectMember.projectRole member = newRole
           /\ updated = member /\ s' = s)
          \/ (ProjectMember.projectRole member <> newRole
              /\ updated = Prisma.member_apply newRole member
              /\ project_members s'
                 = map (fun r => if ProjectMember.id r =? memberId
                                 then Prisma.member_apply newRole r else r)
                       (project_members s)
              /\ audit_logs s' =
                   (audit_logs s
                    ++ [AuditLog.mk (uuid env 1) "Project" projectId
                                    AuditAction.UPDATE actorId (db_now env)
                                    (ProjectService.memberRoleChanged member
                                       (Prisma.user_findUnique
                                          (ProjectMember.userId member) s)
                                       (ProjectMember.projectRole member)
                                       newRole)])%list
              /\ users s' = users s
              /\ projects s' = projects s
              /\ tasks s' = tasks s)).
Proof.
  intros env projectId memberId newRole actorId s updated s' H.
  unfold ProjectService.updateMemberRole in H.
  destruct (Prisma.projectMember_findUnique memberId s) as [member |] eqn:Hfind;
    [| discriminate].
  exists member. split; [reflexivity |].
  destruct (ProjectMember.projectId member =? projectId) eqn:Hp;
    simpl in H; [| discriminate].
  apply String.eqb_eq in Hp. split; [exact Hp |].
  destruct (ProjectRole.eqb (ProjectMember.projectRole member) newRole) eqn:Hr.
  - left. injection H as Hupdated Hstore. repeat split; auto.
    destruct (ProjectMember.projectRole member), newRole; simpl in Hr; congruence.
  - right. split.
    { intros Heq. rewrite Heq in Hr. destruct newRole; discriminate. }
    apply transaction_returned_commits in H. destruct H as [c [Hc [Hs' _]]].
    unfold bind, Prisma.projectMember_update, AuditRepository.create,
      Prisma.auditLog_create, statement, ret in Hc. simpl in Hc.
    destruct (aborts env 0); [discriminate |].
    rewrite Hfind in Hc. simpl in Hc.
    destruct (aborts env 1); [discriminate |].
    inv Hc. simpl. auto 10.
Qed.

Lemma removeMember_returned :
  forall env projectId memberId actorId s s',
    ProjectService.removeMember env projectId memberId actorId s
    = (Returned tt, s') ->
    exists member,
      Prisma.projectMember_findUnique memberId s = Some member
      /\ ProjectMember.projectId member = projectId
      /\ project_members s'
         = filter (fun r => negb (ProjectMember.id r =? memberId))
                  (project_members s)
      /\ audit_logs s' =
           (audit_logs s
            ++ [AuditLog.mk (uuid env 2) "Project" projectId AuditAction.UPDATE
                            actorId (db_now env)
                            (ProjectService.memberRemoved member
                               (Prisma.user_findUnique
                                  (ProjectMember.userId member) s))])%list
      /\ users s' = users s
      /\ projects s' = projects s
      /\ tasks s' = tasks s.
Proof.
  intros env projectId memberId actorId s s' H.
  unfold ProjectService.removeMember in H.
  apply transaction_returned_commits in H. destruct H as [c [Hc [Hs' _]]].
  unfold bind, Prisma.tx_projectMember_findUnique, statement in Hc. simpl in Hc.
  destruct (aborts env 0); [discriminate |].
  destruct (Prisma.projectMember_findUnique memberId s) as [member |] eqn:Hfind;
    simpl in Hc; [| discriminate].
  exists member. split; [reflexivity |].
  destruct (ProjectMember.projectId member =? projectId) eqn:Hp;
    simpl in Hc; [| discriminate].
  apply String.eqb_eq in Hp. split; [exact Hp |].
  unfold Prisma.projectMember_delete, AuditRepository.create,
    Prisma.auditLog_create, statement, ret in Hc. simpl in Hc.
  destruct (aborts env 1); [discriminate |].
  rewrite Hfind in Hc. simpl in Hc.
  destruct (aborts env 2); [discriminate |].
  inv Hc. simpl. auto 10.
Qed.

(** The store aborts the audit write that follows the entity write, or the
    commit: nothing of the transaction is left in the store. *)
Example create_aborted_at_the_audit_write :
  TaskService.create (Sample.env_aborting 1) SampleCreate.data "u-member"
                     Sample.store
  = (Thrown (PrismaErr "aborted"), Sample.store).
Proof. vm_compute. reflexivity. Qed.

Example create_aborted_at_the_commit :
  TaskService.create (Sample.env_aborting 2) SampleCreate.data "u-member"
                     Sample.store
  = (Thrown (PrismaErr "aborted"), Sample.store).
Proof. vm_compute. reflexivity. Qed.

Example delete_project_aborted_at_the_audit_write :
  ProjectService.delete (Sample.env_aborting 1) "p1" "u-admin" Sample.store
  = (Thrown (PrismaErr "aborted"), Sample.store).
Proof. vm_compute. reflexivity. Qed.

(** ** A change that leaves no audit row *)

(** C1 at its failing input.  The sample task has no description; the
    patch [{ description: 'null' }] is committed, the stored description
    becomes the string "null", and no audit row is written: [String(null)] and
    [String('null')] are the same string, so the diff is empty. *)
Theorem null_string_description_is_committed_without_audit_row :
  TaskService.update Sample.env "t-todo" SampleInput.patch_null_string
                     "u-admin" Sample.store
  = (Returned SampleInput.todo_null_string,
     set_tasks Sample.store [SampleInput.todo_null_string; Sample.done_task])
  /\ TaskRepository.findById "t-todo" Sample.store = Some Sample.todo_task
  /\ Task.description Sample.todo_task = None
  /\ Task.description SampleInput.todo_null_string = Some "null"
  /\ tasks (snd (TaskService.update Sample.env "t-todo"
                   SampleInput.patch_null_string "u-admin" Sample.store))
     <> tasks Sample.store
  /\ audit_logs (snd (TaskService.update Sample.env "t-todo"
                        SampleInput.patch_null_string "u-admin" Sample.store))
     = audit_logs Sample.store.
Proof.
  split; [vm_compute; reflexivity |].
  split; [reflexivity |].
  split; [reflexivity |].
  split; [reflexivity |].
  split; [vm_compute; discriminate | vm_compute; reflexivity].
Qed.

(** The same patch on a project is logged: Project.update compares with
    [!==]. *)
Lemma project_null_string_description_is_logged :
  audit_logs (snd (ProjectService.update Sample.env "p2"
                     SampleProject.patch_null_string "u-admin"
                     SampleProject.store))
  = [AuditLog.mk "gen-1" "Project" "p2" AuditAction.UPDATE "u-admin"
                 1700000000000
                 [("description", change Js.Null (Js.Str "null"))]].
Proof. vm_compute. reflexivity. Qed.

(** ** Analytics *)

Lemma keys_set_absent :
  forall (V : Type) (o : Js.object V) (k : string) (v : V),
    ~ In k (Js.keys o) -> Js.keys (Js.set o k v) = (Js.keys o ++ [k])%list.
Proof.
  intros V o k v. unfold Js.keys. induction o as [| [k0 v0] o IH]; simpl.
  - reflexivity.
  - intros Hn. destruct (k0 =? k) eqn:E.
    + apply String.eqb_eq in E. exfalso. auto.
    + simpl. rewrite IH; auto.
Qed.

Lemma get_none_not_key :
  forall (V : Type) (o : Js.object V) (k : string),
    Js.get o k = None <-> ~ In k (Js.keys o).
Proof.
  intros V o k. unfold Js.keys. induction o as [| [k0 v0] o IH]; simpl.
  - tauto.
  - destruct (k0 =? k) eqn:E.
    + apply String.eqb_eq in E. split; [discriminate | intros H; exfalso; auto].
    + apply String.eqb_neq in E. rewrite IH. tauto.
Qed.

Lemma keys_set_nodup :
  forall (V : Type) (o : Js.object V) (k : string) (v : V),
    NoDup (Js.keys o) -> NoDup (Js.keys (Js.set o k v)).
Proof.
  intros V o k v Hnd.
  destruct (in_dec string_dec k (Js.keys o)) as [Hin | Hnin].
  - rewrite keys_set_present; assumption.
  - rewrite keys_set_absent by assumption.
    apply NoDup_app; [assumption | repeat constructor; auto |].
    intros x Hx [Hk | []]. subst. auto.
Qed.

(** The counts of [GROUP BY]: a key that occurs has its number of
    occurrences, a key that does not occur has no row. *)
Lemma fold_bump_get :
  forall ks groups k,
    Js.get (fold_left AnalyticsService.bump ks groups) k
    = match Js.get groups k, count_occ string_dec ks k with
      | None, O => None
      | None, S n => Some (S n)
      | Some m, n => Some (m + n)%nat
      end.
Proof.
  induction ks as [| k0 ks IH]; intros groups k; simpl.
  - destruct (Js.get groups k); [f_equal; lia | reflexivity].
  - rewrite IH. unfold AnalyticsService.bump.
    destruct (string_dec k0 k) as [-> | Hne].
    + destruct (Js.get groups k) as [m |]; rewrite get_set_same.
      * f_equal. lia.
      * reflexivity.
    + assert (Hne' : k <> k0) by congruence.
      destruct (Js.get groups k0); rewrite get_set_other by assumption;
        reflexivity.
Qed.

Lemma fold_bump_nodup :
  forall ks groups,
    NoDup (Js.keys groups) ->
    NoDup (Js.keys (fold_left AnalyticsService.bump ks groups)).
Proof.
  induction ks as [| k0 ks IH]; intros groups Hnd; simpl; [assumption |].
  apply IH. unfold AnalyticsService.bump.
  destruct (Js.get groups k0); apply keys_set_nodup; assumption.
Qed.

Lemma group_count_get :
  forall ks k,
    Js.get (AnalyticsService.group_count ks) k
    = match count_occ string_dec ks k with
      | O => None
      | S n => Some (S n)
      end.
Proof.
  intros ks k. unfold AnalyticsService.group_count.
  rewrite fold_bump_get. reflexivity.
Qed.

(** [forEach] over rows with distinct keys: a key with a row takes the
    row's count, every other key keeps its value. *)
Lemma assign_all_get :
  forall rows o k,
    NoDup (Js.keys rows) ->
    Js.get (AnalyticsService.assign_all o rows) k
    = match Js.get rows k with
      | Some n => Some n
      | None => Js.get o k
      end.
Proof.
  unfold AnalyticsService.assign_all.
  induction rows as [| [k0 n0] rows IH]; intros o k Hnd; simpl; [reflexivity |].
  inversion Hnd as [| x l Hnotin Hnd']; subst.
  rewrite IH by assumption.
  destruct (k0 =? k) eqn:E.
  - apply String.eqb_eq in E. subst k0.
    apply get_none_not_key in Hnotin. unfold Js.keys in Hnotin.
    rewrite Hnotin. apply get_set_same.
  - apply String.eqb_neq in E.
    destruct (Js.get rows k); [reflexivity |].
    apply get_set_other. congruence.
Qed.

Lemma assign_all_keys :
  forall rows o,
    (forall k, In k (Js.keys rows) -> In k (Js.keys o)) ->
    Js.keys (AnalyticsService.assign_all o rows) = Js.keys o.
Proof.
  unfold AnalyticsService.assign_all.
  induction rows as [| [k0 n0] rows IH]; intros o Hin; simpl; [reflexivity |].
  assert (Hk0 : In k0 (Js.keys o)) by (apply Hin; now left).
  rewrite IH.
  - apply keys_set_present. exact Hk0.
  - intros k Hk. rewrite keys_set_present by exact Hk0. apply Hin. now right.
Qed.

Lemma range_of_is_a_range :
  forall h, In (AnalyticsService.range_of h) ranges.
Proof.
  intros h. unfold AnalyticsService.range_of, ranges.
  destruct (Qle_bool 24 h); simpl; auto.
  destruct (Qle_bool h 72); simpl; auto.
  destruct (Qle_bool 72 h); simpl; auto.
  destruct (Qle_bool h 168); simpl; auto.
Qed.


(** The value of a range is the number of completed tasks whose duration
    falls into it; an empty range has the value 0. *)
Lemma distribution_counts :
  forall projectId s range,
    In range ranges ->
    Js.get (AnalyticsService.getCompletionTimeDistribution projectId s) range
    = Some (count_occ string_dec
              (map AnalyticsService.range_of
                   (AnalyticsService.completed_durations projectId s))
              range).
Proof.
  intros projectId s range Hin.
  unfold AnalyticsService.getCompletionTimeDistribution.
  rewrite assign_all_get
    by (apply fold_bump_nodup; constructor).
  rewrite group_count_get.
  destruct (count_occ string_dec _ range); [| reflexivity].
  unfold ranges in Hin. simpl in Hin.
  destruct Hin as [<- | [<- | [<- | [<- | []]]]]; reflexivity.
Qed.

(** The query selects no row exactly when the project has no DONE task
    with [completedAt] set. *)
Lemma no_completed_durations_iff :
  forall projectId s,
    AnalyticsService.completed_durations projectId s = []
    <-> (forall t, In t (tasks s) ->
                   Task.projectId t = projectId ->
                   Task.status t = TaskStatus.DONE ->
                   Task.completedAt t = None).
Proof.
  intros projectId s. unfold AnalyticsService.completed_durations.
  induction (tasks s) as [| t l IH]; simpl.
  - split; [intros _ t [] | reflexivity].
  - split.
    + intros H. apply app_eq_nil in H. destruct H as [Ht Hl].
      intros t' [<- | Hin] Hp Hs.
      * apply String.eqb_eq in Hp. rewrite Hp, Hs in Ht. simpl in Ht.
        destruct (Task.completedAt t); [discriminate | reflexivity].
      * apply IH; assumption.
    + intros H.
      assert (Hl : flat_map
                     (fun t0 =>
                        if (Task.projectId t0 =? projectId)
                           && TaskStatus.eqb (Task.status t0) TaskStatus.DONE
                        then match Task.completedAt t0 with
                             | Some c =>
                                 [AnalyticsService.duration_hours
                                    (Task.createdAt t0) c]
                             | None => []
                             end
                        else []) l = []).
      { apply IH. intros t' Hin. apply H. now right. }
      rewrite Hl, app_nil_r.
      destruct (Task.projectId t =? projectId) eqn:Hp; [| reflexivity].
      destruct (TaskStatus.eqb (Task.status t) TaskStatus.DONE) eqn:Hs;
        [| reflexivity].
      simpl. apply String.eqb_eq in Hp.
      rewrite (H t); auto.
      destruct (Task.status t); simpl in Hs; congruence.
Qed.

(** Without a completed task the average is [null] and every range is 0. *)
Lemma analytics_without_completed_tasks :
  forall env projectId s,
    AnalyticsService.completed_durations projectId s = [] ->
    AnalyticsService.avgCompletionTimeHours
      (AnalyticsService.getProjectAnalytics env projectId s) = None
    /\ AnalyticsService.completionTimeDistribution
         (AnalyticsService.getProjectAnalytics env projectId s)
       = [ ("< 1 Day", 0%nat); ("1-3 Days", 0%nat);
           ("3-7 Days", 0%nat); ("> 7 Days", 0%nat) ].
Proof.
  intros env projectId s H. simpl.
  unfold AnalyticsService.getAvgCompletionTime,
    AnalyticsService.getCompletionTimeDistribution.
  rewrite H. split; reflexivity.
Qed.





(** On the samples: a task completed at the instant of its creation gives
    the average 0, not [null]; the sample project's task, completed after
    500000 seconds, gives 138.89 hours. *)
Example analytics_of_the_samples :
  AnalyticsService.avgCompletionTimeHours
    (AnalyticsService.getProjectAnalytics Sample.env "p1" Sample.store_instant)
  = Some (0 # 100)
  /\ AnalyticsService.completionTimeDistribution
       (AnalyticsService.getProjectAnalytics Sample.env "p1" Sample.store_instant)
     = [ ("< 1 Day", 1%nat); ("1-3 Days", 0%nat);
         ("3-7 Days", 0%nat); ("> 7 Days", 0%nat) ]
  /\ AnalyticsService.avgCompletionTimeHours
       (AnalyticsService.getProjectAnalytics Sample.env "p1" Sample.store)
     = Some (13889 # 100).
Proof. repeat split; vm_compute; reflexivity. Qed.

(** * More of the services *)

(** ** Lookups after an insert or a delete *)

Section KeyedRows.
Variable R : Type.
Variable key : R -> string.

Lemma find_removed :
  forall (id : string) (l : list R),
    find (fun r => key r =? id) (filter (fun r => negb (key r =? id)) l) = None.
Proof.
  intros id l. induction l as [| r l IH]; simpl; [reflexivity |].
  destruct (key r =? id) eqn:E; simpl; [exact IH |].
  rewrite E. exact IH.
Qed.

Lemma find_remove_other :
  forall (id id' : string) (l : list R),
    id' <> id ->
    find (fun r => key r =? id') (filter (fun r => negb (key r =? id)) l)
    = find (fun r => key r =? id') l.
Proof.
  intros id id' l Hne. induction l as [| r l IH]; simpl; [reflexivity |].
  destruct (key r =? id) eqn:E; simpl.
  - apply String.eqb_eq in E.
    destruct (key r =? id') eqn:E'; [| exact IH].
    apply String.eqb_eq in E'. congruence.
  - rewrite IH. reflexivity.
Qed.

Lemma find_fresh :
  forall (id : string) (l : list R),
    ~ In id (map key l) -> find (fun r => key r =? id) l = None.
Proof.
  intros id l. induction l as [| r l IH]; simpl; [reflexivity |].
  intros Hn. destruct (key r =? id) eqn:E.
  - apply String.eqb_eq in E. exfalso. auto.
  - apply IH. auto.
Qed.

Lemma find_appended :
  forall (p : R -> bool) (l : list R) (x : R),
    find p (l ++ [x])
    = match find p l with
      | Some y => Some y
      | None => if p x then Some x else None
      end.
Proof.
  intros p l x. induction l as [| r l IH]; simpl; [reflexivity |].
  destruct (p r); [reflexivity | exact IH].
Qed.

Lemma filter_fresh :
  forall (id : string) (l : list R),
    ~ In id (map key l) -> filter (fun r => negb (key r =? id)) l = l.
Proof.
  intros id l. induction l as [| r l IH]; simpl; [reflexivity |].
  intros Hn. destruct (key r =? id) eqn:E; simpl.
  - apply String.eqb_eq in E. exfalso. auto.
  - rewrite IH; auto.
Qed.
End KeyedRows.

(** ** Task.delete *)

(** X1.  Task.delete throws "Task not found" and writes nothing when no
    task has the id.  When it returns, the task can no longer be found, every
    task with another id is found as before, and the audit log has one more
    row: a DELETE for the task whose details are the seven columns of the
    row as it was stored. *)
Theorem task_delete_removes_the_row_and_logs_its_snapshot :
  forall env id actorId s,
    (TaskRepository.findById id s = None ->
     TaskService.delete env id actorId s
     = (Thrown (AppErr (AppError.notFound "Task not found"
                          ErrorCodes.TASK.NOT_FOUND)), s))
    /\ (forall s',
        TaskService.delete env id actorId s = (Returned tt, s') ->
        exists task,
          TaskRepository.findById id s = Some task
          /\ TaskRepository.findById id s' = None
          /\ (forall id', id' <> id ->
                TaskRepository.findById id' s' = TaskRepository.findById id' s)
          /\ audit_logs s'
             = (audit_logs s
                ++ [AuditLog.mk (uuid env 1) "Task" id AuditAction.DELETE
                                actorId (db_now env)
                                [ ("title", Js.Str (Task.title task));
                                  ("description",
                                    Js.of_nullable_string (Task.description task));
                                  ("status",
                                    Js.Str (TaskStatus.to_string (Task.status task)));
                                  ("priority",
                                    Js.of_nullable_string (Task.priority task));
                                  ("dueDate",
                                    Js.of_nullable_date (Task.dueDate task));
                                  ("projectId", Js.Str (Task.projectId task));
                                  ("assigneeId",
                                    Js.of_nullable_string (Task.assigneeId task)) ]])%list).
Proof.
  intros env id actorId s. split.
  - intros H. unfold TaskService.delete. rewrite H. reflexivity.
  - intros s' H. apply task_delete_returned in H.
    destruct H as [task [Hfind [Htasks [Haudit _]]]].
    exists task. split; [exact Hfind |].
    unfold TaskRepository.findById, Prisma.task_findUnique. rewrite Htasks.
    split; [apply find_removed |].
    split; [intros id' Hne; apply find_remove_other; exact Hne | exact Haudit].
Qed.

Lemma task_delete_removes_the_row_and_logs_its_snapshot_witness :
  TaskService.delete Sample.env "t-none" "u-admin" Sample.store
  = (Thrown (AppErr (AppError.notFound "Task not found"
                       ErrorCodes.TASK.NOT_FOUND)), Sample.store)
  /\ exists task,
       TaskRepository.findById "t-todo" Sample.store = Some task
       /\ TaskRepository.findById "t-todo"
            (snd (TaskService.delete Sample.env "t-todo" "u-admin" Sample.store))
          = None.
Proof.
  split.
  - apply (task_delete_removes_the_row_and_logs_its_snapshot Sample.env "t-none"
             "u-admin" Sample.store). reflexivity.
  - destruct (task_delete_removes_the_row_and_logs_its_snapshot Sample.env
                "t-todo" "u-admin" Sample.store) as [_ Hdel].
    destruct (Hdel (snd (TaskService.delete Sample.env "t-todo" "u-admin"
                           Sample.store)))
      as [task [Hfind [Hgone _]]].
    + vm_compute. reflexivity.
    + exists task. auto.
Defined.

(** ** Task.create, then a lookup *)

(** X2.  When the id the store generates is new, the task that
    Task.create returns is the one found under its id afterwards, every
    task stored before is found as before, and the CREATE audit row names
    the new task and the actor. *)
Theorem created_task_is_found_under_its_id :
  forall env data actorId s task s',
    TaskService.create env data actorId s = (Returned task, s') ->
    ~ In (uuid env 0) (task_ids s) ->
    TaskRepository.findById (Task.id task) s' = Some task
    /\ (forall id t, TaskRepository.findById id s = Some t ->
                     TaskRepository.findById id s' = Some t)
    /\ (exists a,
          audit_logs s' = (audit_logs s ++ [a])%list
          /\ AuditLog.action a = AuditAction.CREATE
          /\ AuditLog.entityType a = "Task"
          /\ AuditLog.entityId a = Task.id task
          /\ AuditLog.actorId a = actorId).
Proof.
  intros env data actorId s task s' H Hfresh.
  apply task_create_returned in H.
  destruct H as [Ht [Htasks [Haudit _]]].
  assert (Hid : Task.id task = uuid env 0) by (rewrite Ht; reflexivity).
  unfold TaskRepository.findById, Prisma.task_findUnique. rewrite Htasks.
  split; [| split].
  - rewrite find_appended.
    rewrite (find_fresh Task.id) by (rewrite Hid; exact Hfresh).
    rewrite String.eqb_refl. reflexivity.
  - intros id t Hfind. rewrite find_appended, Hfind. reflexivity.
  - eexists. split; [exact Haudit |]. simpl. auto.
Qed.

Lemma created_task_is_found_under_its_id_witness :
  TaskRepository.findById "gen-0"
    (snd (TaskService.create Sample.env SampleCreate.data "u-member" Sample.store))
  = Some SampleCreate.created.
Proof.
  destruct (@created_task_is_found_under_its_id
              Sample.env SampleCreate.data "u-member" Sample.store
              SampleCreate.created
              (snd (TaskService.create Sample.env SampleCreate.data "u-member"
                      Sample.store)))
    as [Hfound _].
  - vm_compute. reflexivity.
  - vm_compute. intros [H | [H | []]]; discriminate.
  - exact Hfound.
Defined.

(** ** Project.delete *)

(** X3.  When Project.delete returns, the project can no longer be
    found, the task and member tables hold exactly the rows of the other
    projects, the other projects and the users are as before, and the
    audit log, which keeps all its earlier rows, has one more: a DELETE for
    the project with the name and description it had. *)
Theorem project_delete_cascades_and_logs_the_snapshot :
  forall env id actorId s s',
    ProjectService.delete env id actorId s = (Returned tt, s') ->
    exists project,
      ProjectRepository.findById id s = Some project
      /\ ProjectRepository.findById id s' = None
      /\ (forall id', id' <> id ->
            ProjectRepository.findById id' s' = ProjectRepository.findById id' s)
      /\ (forall t, In t (tasks s')
                    <-> In t (tasks s) /\ Task.projectId t <> id)
      /\ (forall m, In m (project_members s')
                    <-> In m (project_members s) /\ ProjectMember.projectId m <> id)
      /\ users s' = users s
      /\ audit_logs s'
         = (audit_logs s
            ++ [AuditLog.mk (uuid env 1) "Project" id AuditAction.DELETE actorId
                            (db_now env)
                            [ ("name", Js.Str (Project.name project));
                              ("description",
                                Js.of_nullable_string
                                  (Project.description project)) ]])%list.
Proof.
  intros env id actorId s s' H. apply project_delete_returned in H.
  destruct H as [project [Hfind [Hprojects [Hmembers [Htasks [Haudit Husers]]]]]].
  exists project. split; [exact Hfind |].
  unfold ProjectRepository.findById, Prisma.project_findUnique.
  rewrite Hprojects, Hmembers, Htasks.
  split; [apply find_removed |].
  split; [intros id' Hne; apply find_remove_other; exact Hne |].
  split; [| split; [| split; [exact Husers | exact Haudit]]].
  - intros t. rewrite filter_In, negb_true_iff, String.eqb_neq. tauto.
  - intros m. rewrite filter_In, negb_true_iff, String.eqb_neq. tauto.
Qed.

Lemma project_delete_cascades_and_logs_the_snapshot_witness :
  exists project,
    ProjectRepository.findById "p1" Sample.store = Some project
    /\ tasks (snd (ProjectService.delete Sample.env "p1" "u-admin" Sample.store))
       = []
    /\ project_members
         (snd (ProjectService.delete Sample.env "p1" "u-admin" Sample.store))
       = [].
Proof.
  destruct (@project_delete_cascades_and_logs_the_snapshot
              Sample.env "p1" "u-admin" Sample.store
              (snd (ProjectService.delete Sample.env "p1" "u-admin"
                      Sample.store)))
    as [project [Hfind _]].
  - vm_compute. reflexivity.
  - exists project. split; [exact Hfind |]. split; vm_compute; reflexivity.
Defined.

(** ** Project.create, then a lookup *)

(** X4.  When the id the store generates is new, the project that
    Project.create returns has the submitted name and description and is the
    one found under its id afterwards; the projects stored before are found
    as before, and the CREATE audit row names the new project. *)
Theorem created_project_is_found_under_its_id :
  forall env name description actorId s project s',
    ProjectService.create env name description actorId s = (Returned project, s') ->
    ~ In (uuid env 0) (project_ids s) ->
    Project.name project = name
    /\ Project.description project = description
    /\ ProjectRepository.findById (Project.id project) s' = Some project
    /\ (forall id p, ProjectRepository.findById id s = Some p ->
                     ProjectRepository.findById id s' = Some p)
    /\ (exists a,
          audit_logs s' = (audit_logs s ++ [a])%list
          /\ AuditLog.action a = AuditAction.CREATE
          /\ AuditLog.entityType a = "Project"
          /\ AuditLog.entityId a = Project.id project
          /\ AuditLog.actorId a = actorId).
Proof.
  intros env name description actorId s project s' H Hfresh.
  apply project_create_returned in H.
  destruct H as [Hp [Hprojects [Haudit _]]].
  assert (Hid : Project.id project = uuid env 0) by (rewrite Hp; reflexivity).
  unfold ProjectRepository.findById, Prisma.project_findUnique. rewrite Hprojects.
  split; [rewrite Hp; reflexivity |].
  split; [rewrite Hp; reflexivity |].
  split; [| split].
  - rewrite find_appended.
    rewrite (find_fresh Project.id) by (rewrite Hid; exact Hfresh).
    rewrite String.eqb_refl. reflexivity.
  - intros id p Hfind. rewrite find_appended, Hfind. reflexivity.
  - eexists. split; [exact Haudit |]. simpl. auto.
Qed.

Lemma created_project_is_found_under_its_id_witness :
  ProjectRepository.findById "gen-0"
    (snd (ProjectService.create Sample.env "Mercury" None "u-admin" Sample.store))
  = Some (Project.mk "gen-0" "Mercury" None 1700000000000 1700000000000).
Proof.
  destruct (@created_project_is_found_under_its_id
              Sample.env "Mercury" None "u-admin" Sample.store
              (Project.mk "gen-0" "Mercury" None 1700000000000 1700000000000)
              (snd (ProjectService.create Sample.env "Mercury" None "u-admin"
                      Sample.store)))
    as [_ [_ [Hfound _]]].
  - vm_compute. reflexivity.
  - vm_compute. intros [H | []]; discriminate.
  - exact Hfound.
Defined.

(** ** Member management *)

Lemma ProjectRole_eqb_eq :
  forall a b, ProjectRole.eqb a b = true <-> a = b.
Proof. intros [] []; simpl; split; congruence. Qed.

Lemma member_found_after_role_change :
  forall memberId newRole member s,
    Prisma.projectMember_findUnique memberId s = Some member ->
    find (fun r => ProjectMember.id r =? memberId)
         (map (fun r => if ProjectMember.id r =? memberId
                        then Prisma.member_apply newRole r else r)
              (project_members s))
    = Some (Prisma.member_apply newRole member).
Proof.
  intros memberId newRole member s H.
  apply (@find_update_same ProjectMember.t ProjectMember.id
           (Prisma.member_apply newRole)); [reflexivity | exact H].
Qed.

(** X5.  Project.updateMemberRole throws "Member not found in this
    project" and writes nothing when no member row has the id or the row
    belongs to another project; it returns the row without touching the
    store, whatever the store would do, when the row already has the role;
    and when it changes the role and returns, the stored row has the new role
    and its other columns as before, and the audit log has one more row: an
    UPDATE on the Project by the actor whose details are the single entry
    [memberRoleChanged] with the member's user id, the user's name and the
    old and the new role. *)
Theorem updateMemberRole_outcomes :
  forall env projectId memberId newRole actorId s,
    (Prisma.projectMember_findUnique memberId s = None ->
     ProjectService.updateMemberRole env projectId memberId newRole actorId s
     = (Thrown (AppErr (AppError.notFound "Member not found in this project"
                          ErrorCodes.PROJECT.MEMBER_NOT_FOUND)), s))
    /\ (forall member,
        Prisma.projectMember_findUnique memberId s = Some member ->
        ProjectMember.projectId member <> projectId ->
        ProjectService.updateMemberRole env projectId memberId newRole actorId s
        = (Thrown (AppErr (AppError.notFound "Member not found in this project"
                             ErrorCodes.PROJECT.MEMBER_NOT_FOUND)), s))
    /\ (forall member,
        Prisma.projectMember_findUnique memberId s = Some member ->
        ProjectMember.projectId member = projectId ->
        ProjectMember.projectRole member = newRole ->
        ProjectService.updateMemberRole env projectId memberId newRole actorId s
        = (Returned member, s))
    /\ (forall member updated s',
        Prisma.projectMember_findUnique memberId s = Some member ->
        ProjectMember.projectRole member <> newRole ->
        ProjectService.updateMemberRole env projectId memberId newRole actorId s
        = (Returned updated, s') ->
        Prisma.projectMember_findUnique memberId s' = Some updated
        /\ ProjectMember.projectRole updated = newRole
        /\ ProjectMember.id updated = ProjectMember.id member
        /\ ProjectMember.projectId updated = ProjectMember.projectId member
        /\ ProjectMember.userId updated = ProjectMember.userId member
        /\ ProjectMember.joinedAt updated = ProjectMember.joinedAt member
        /\ exists a,
             audit_logs s' = (audit_logs s ++ [a])%list
             /\ AuditLog.action a = AuditAction.UPDATE
             /\ AuditLog.entityType a = "Project"
             /\ AuditLog.entityId a = projectId
             /\ AuditLog.actorId a = actorId
             /\ forall user,
                  Prisma.user_findUnique (ProjectMember.userId member) s
                  = Some user ->
                  AuditLog.details a
                  = [ ("memberRoleChanged",
                       Js.Obj
                         [ ("userId", Js.Str (ProjectMember.userId member));
                           ("userName", Js.Str (User.name user));
                           ("projectRole",
                             Js.Obj
                               [ ("old",
                                   Js.Str (ProjectRole.to_string
                                             (ProjectMember.projectRole member)));
                                 ("new",
                                   Js.Str (ProjectRole.to_string newRole)) ]) ])
                    ]).
Proof.
  intros env projectId memberId newRole actorId s.
  split; [| split; [| split]].
  - intros H. unfold ProjectService.updateMemberRole. rewrite H. reflexivity.
  - intros member H Hne. unfold ProjectService.updateMemberRole. rewrite H.
    apply String.eqb_neq in Hne. rewrite Hne. reflexivity.
  - intros member H Hp Hr. unfold ProjectService.updateMemberRole.
    rewrite H, Hp, String.eqb_refl, Hr. simpl.
    replace (ProjectRole.eqb newRole newRole) with true
      by (symmetry; apply ProjectRole_eqb_eq; reflexivity).
    reflexivity.
  - intros member updated s' H Hne Hrun.
    apply updateMemberRole_returned in Hrun.
    destruct Hrun as [m [Hm [Hp [[Hsame _] | Hchanged]]]];
      rewrite H in Hm; injection Hm as <-; [contradiction |].
    destruct Hchanged as [_ [Hupd [Hmembers [Haudit _]]]].
    subst updated.
    split.
    + unfold Prisma.projectMember_findUnique. rewrite Hmembers.
      apply member_found_after_role_change. exact H.
    + simpl. repeat split; auto.
      eexists. split; [exact Haudit |]. simpl. repeat split; auto.
      intros user Huser. rewrite Huser. reflexivity.
Qed.

Lemma updateMemberRole_outcomes_witness :
  ProjectService.updateMemberRole Sample.env "p1" "m9" ProjectRole.VIEWER
    "u-admin" Sample.store
  = (Thrown (AppErr (AppError.notFound "Member not found in this project"
                       ErrorCodes.PROJECT.MEMBER_NOT_FOUND)), Sample.store)
  /\ ProjectService.updateMemberRole Sample.env "p2" "m1" ProjectRole.VIEWER
       "u-admin" Sample.store
     = (Thrown (AppErr (AppError.notFound "Member not found in this project"
                          ErrorCodes.PROJECT.MEMBER_NOT_FOUND)), Sample.store)
  /\ ProjectService.updateMemberRole (Sample.env_aborting 0) "p1" "m1"
       ProjectRole.MEMBER "u-admin" Sample.store
     = (Returned (ProjectMember.mk "m1" "p1" "u-member" ProjectRole.MEMBER 6000),
        Sample.store)
  /\ Prisma.projectMember_findUnique "m1"
       (snd (ProjectService.updateMemberRole Sample.env "p1" "m1"
               ProjectRole.VIEWER "u-admin" Sample.store))
     = Some (ProjectMember.mk "m1" "p1" "u-member" ProjectRole.VIEWER 6000)
  /\ exists a,
       audit_logs (snd (ProjectService.updateMemberRole Sample.env "p1" "m1"
                          ProjectRole.VIEWER "u-admin" Sample.store))
       = (audit_logs Sample.store ++ [a])%list
       /\ AuditLog.actorId a = "u-admin"
       /\ AuditLog.details a
          = [ ("memberRoleChanged",
               Js.Obj [ ("userId", Js.Str "u-member");
                        ("userName", Js.Str "Mem");
                        ("projectRole",
                          Js.Obj [ ("old", Js.Str "MEMBER");
                                   ("new", Js.Str "VIEWER") ]) ]) ].
Proof.
  split; [| split; [| split]].
  - destruct (updateMemberRole_outcomes Sample.env "p1" "m9" ProjectRole.VIEWER
                "u-admin" Sample.store) as [H _].
    apply H. reflexivity.
  - destruct (updateMemberRole_outcomes Sample.env "p2" "m1" ProjectRole.VIEWER
                "u-admin" Sample.store) as [_ [H _]].
    apply (H (ProjectMember.mk "m1" "p1" "u-member" ProjectRole.MEMBER 6000));
      [reflexivity | discriminate].
  - destruct (updateMemberRole_outcomes (Sample.env_aborting 0) "p1" "m1"
                ProjectRole.MEMBER "u-admin" Sample.store) as [_ [_ [H _]]].
    apply H; reflexivity.
  - destruct (updateMemberRole_outcomes Sample.env "p1" "m1" ProjectRole.VIEWER
                "u-admin" Sample.store) as [_ [_ [_ H]]].
    destruct (H (ProjectMember.mk "m1" "p1" "u-member" ProjectRole.MEMBER 6000)
                (ProjectMember.mk "m1" "p1" "u-member" ProjectRole.VIEWER 6000)
                (snd (ProjectService.updateMemberRole Sample.env "p1" "m1"
                        ProjectRole.VIEWER "u-admin" Sample.store)))
      as [Hfound [_ [_ [_ [_ [_ [a [Hlog [_ [_ [_ [Hactor Hdetails]]]]]]]]]]]].
    + reflexivity.
    + discriminate.
    + vm_compute. reflexivity.
    + split; [exact Hfound |].
      exists a. split; [exact Hlog |]. split; [exact Hactor |].
      apply (Hdetails Sample.member). reflexivity.
Defined.

(** X6.  Project.updateMemberRole is idempotent: once a call has returned,
    the same call on the resulting store, by any actor and whatever the
    store would abort, returns the same member row and writes nothing. *)
Theorem updateMemberRole_is_idempotent :
  forall env projectId memberId newRole actorId s updated s',
    ProjectService.updateMemberRole env projectId memberId newRole actorId s
    = (Returned updated, s') ->
    forall env' actorId',
      ProjectService.updateMemberRole env' projectId memberId newRole actorId' s'
      = (Returned updated, s').
Proof.
  intros env projectId memberId newRole actorId s updated s' H env' actorId'.
  apply updateMemberRole_returned in H.
  destruct H as [member [Hm [Hp [[Hsame [Hu Hs]] | Hchanged]]]].
  - subst updated s'.
    unfold ProjectService.updateMemberRole.
    rewrite Hm, Hp, String.eqb_refl, Hsame. simpl.
    replace (ProjectRole.eqb newRole newRole) with true
      by (symmetry; apply ProjectRole_eqb_eq; reflexivity).
    reflexivity.
  - destruct Hchanged as [_ [Hupd [Hmembers _]]]. subst updated.
    unfold ProjectService.updateMemberRole.
    unfold Prisma.projectMember_findUnique at 1. rewrite Hmembers.
    rewrite (@member_found_after_role_change memberId newRole member s Hm).
    simpl. rewrite Hp, String.eqb_refl. simpl.
    replace (ProjectRole.eqb newRole newRole) with true
      by (symmetry; apply ProjectRole_eqb_eq; reflexivity).
    reflexivity.
Qed.

Lemma updateMemberRole_is_idempotent_witness :
  ProjectService.updateMemberRole (Sample.env_aborting 0) "p1" "m1"
    ProjectRole.VIEWER "u-member"
    (snd (ProjectService.updateMemberRole Sample.env "p1" "m1"
            ProjectRole.VIEWER "u-admin" Sample.store))
  = (Returned (ProjectMember.mk "m1" "p1" "u-member" ProjectRole.VIEWER 6000),
     snd (ProjectService.updateMemberRole Sample.env "p1" "m1"
            ProjectRole.VIEWER "u-admin" Sample.store)).
Proof.
  apply (@updateMemberRole_is_idempotent Sample.env "p1" "m1" ProjectRole.VIEWER
           "u-admin" Sample.store).
  vm_compute. reflexivity.
Defined.

(** X7.  Project.removeMember throws "Member not found in this project"
    and leaves the store as it was when no member row has the id or the row
    belongs to another project, although the lookup runs inside the
    transaction.  When it returns, the member row can no longer be found, the
    other member rows are found as before, and the audit log has one more
    row: an UPDATE on the Project by the actor whose details are the single
    entry [memberRemoved] with the removed member's user id, the user's name
    and email, and the role the member had. *)
Theorem removeMember_outcomes :
  forall env projectId memberId actorId s,
    (aborts env 0%nat = false ->
     Prisma.projectMember_findUnique memberId s = None ->
     ProjectService.removeMember env projectId memberId actorId s
     = (Thrown (AppErr (AppError.notFound "Member not found in this project"
                          ErrorCodes.PROJECT.MEMBER_NOT_FOUND)), s))
    /\ (forall member,
        aborts env 0%nat = false ->
        Prisma.projectMember_findUnique memberId s = Some member ->
        ProjectMember.projectId member <> projectId ->
        ProjectService.removeMember env projectId memberId actorId s
        = (Thrown (AppErr (AppError.notFound "Member not found in this project"
                             ErrorCodes.PROJECT.MEMBER_NOT_FOUND)), s))
    /\ (forall s',
        ProjectService.removeMember env projectId memberId actorId s
        = (Returned tt, s') ->
        exists member,
          Prisma.projectMember_findUnique memberId s = Some member
          /\ ProjectMember.projectId member = projectId
          /\ Prisma.projectMember_findUnique memberId s' = None
          /\ (forall id', id' <> memberId ->
                Prisma.projectMember_findUnique id' s'
                = Prisma.projectMember_findUnique id' s)
          /\ exists a,
               audit_logs s' = (audit_logs s ++ [a])%list
               /\ AuditLog.action a = AuditAction.UPDATE
               /\ AuditLog.entityType a = "Project"
               /\ AuditLog.entityId a = projectId
               /\ AuditLog.actorId a = actorId
               /\ forall user,
                    Prisma.user_findUnique (ProjectMember.userId member) s
                    = Some user ->
                    AuditLog.details a
                    = [ ("memberRemoved",
                         Js.Obj
                           [ ("userId", Js.Str (ProjectMember.userId member));
                             ("userName", Js.Str (User.name user));
                             ("userEmail", Js.Str (User.email user));
                             ("projectRole",
                               Js.Str (ProjectRole.to_string
                                         (ProjectMember.projectRole member))) ])
                      ]).
Proof.
  intros env projectId memberId actorId s.
  split; [| split].
  - intros H0 H. unfold ProjectService.removeMember, transaction, bind,
      Prisma.tx_projectMember_findUnique, statement, throw. simpl.
    rewrite H0, H. reflexivity.
  - intros member H0 H Hne. unfold ProjectService.removeMember, transaction, bind,
      Prisma.tx_projectMember_findUnique, statement, throw. simpl.
    rewrite H0, H. apply String.eqb_neq in Hne. rewrite Hne. reflexivity.
  - intros s' H. apply removeMember_returned in H.
    destruct H as [member [Hm [Hp [Hmembers [Haudit _]]]]].
    exists member. split; [exact Hm |]. split; [exact Hp |].
    unfold Prisma.projectMember_findUnique. rewrite Hmembers.
    split; [apply find_removed |].
    split; [intros id' Hne; apply find_remove_other; exact Hne |].
    eexists. split; [exact Haudit |]. simpl. repeat split; auto.
    intros user Huser. rewrite Huser. reflexivity.
Qed.

Lemma removeMember_outcomes_witness :
  ProjectService.removeMember Sample.env "p1" "m9" "u-admin" Sample.store
  = (Thrown (AppErr (AppError.notFound "Member not found in this project"
                       ErrorCodes.PROJECT.MEMBER_NOT_FOUND)), Sample.store)
  /\ ProjectService.removeMember Sample.env "p2" "m1" "u-admin" Sample.store
     = (Thrown (AppErr (AppError.notFound "Member not found in this project"
                          ErrorCodes.PROJECT.MEMBER_NOT_FOUND)), Sample.store)
  /\ exists member a,
       Prisma.projectMember_findUnique "m2" Sample.store = Some member
       /\ Prisma.projectMember_findUnique "m2"
            (snd (ProjectService.removeMember Sample.env "p1" "m2" "u-admin"
                    Sample.store)) = None
       /\ audit_logs (snd (ProjectService.removeMember Sample.env "p1" "m2"
                             "u-admin" Sample.store))
          = (audit_logs Sample.store ++ [a])%list
       /\ AuditLog.actorId a = "u-admin"
       /\ AuditLog.details a
          = [ ("memberRemoved",
               Js.Obj [ ("userId", Js.Str "u-viewer");
                        ("userName", Js.Str "Vic");
                        ("userEmail", Js.Str "viewer@example.com");
                        ("projectRole", Js.Str "VIEWER") ]) ].
Proof.
  split; [| split].
  - destruct (removeMember_outcomes Sample.env "p1" "m9" "u-admin" Sample.store)
      as [H _].
    apply H; reflexivity.
  - destruct (removeMember_outcomes Sample.env "p2" "m1" "u-admin" Sample.store)
      as [_ [H _]].
    apply (H (ProjectMember.mk "m1" "p1" "u-member" ProjectRole.MEMBER 6000));
      [reflexivity | reflexivity | discriminate].
  - destruct (removeMember_outcomes Sample.env "p1" "m2" "u-admin" Sample.store)
      as [_ [_ H]].
    destruct (H (snd (ProjectService.removeMember Sample.env "p1" "m2" "u-admin"
                        Sample.store)))
      as [member [Hm [_ [Hgone [_ [a [Hlog [_ [_ [_ [Hactor Hdetails]]]]]]]]]]].
    + vm_compute. reflexivity.
    + exists member, a. split; [exact Hm |]. split; [exact Hgone |].
      split; [exact Hlog |]. split; [exact Hactor |].
      assert (Hmember : member
                        = ProjectMember.mk "m2" "p1" "u-viewer"
                                           ProjectRole.VIEWER 7000)
        by (vm_compute in Hm; congruence).
      rewrite (Hdetails Sample.viewer) by (rewrite Hmember; reflexivity).
      rewrite Hmember. reflexivity.
Defined.

(** X8.  Adding a member and then removing the new row restores the member
    table: when Project.addMember has returned, the generated id was new,
    and the store aborts nothing, Project.removeMember of that row returns
    and leaves the member, user, project and task tables as they were before
    the member was added; the audit log has grown by the two rows. *)
Theorem addMember_then_removeMember_restores_the_members :
  forall env projectId userId projectRole actorId s member s1 env' actorId',
    ProjectService.addMember env projectId userId projectRole actorId s
    = (Returned member, s1) ->
    ~ In (uuid env 0) (member_ids s) ->
    never_aborts env' ->
    exists s2 added removed,
      ProjectService.removeMember env' projectId (ProjectMember.id (fst member))
                                  actorId' s1
      = (Returned tt, s2)
      /\ project_members s2 = project_members s
      /\ users s2 = users s
      /\ projects s2 = projects s
      /\ tasks s2 = tasks s
      /\ audit_logs s2 = (audit_logs s ++ [added; removed])%list
      /\ AuditLog.details added
         = ProjectService.memberAdded userId (snd member) projectRole
      /\ AuditLog.details removed
         = ProjectService.memberRemoved (fst member) (Some (snd member)).
Proof.
  intros env projectId userId projectRole actorId s member s1 env' actorId'
         Hadd Hfresh Hab.
  apply addMember_returned in Hadd.
  destruct Hadd as [Hm [_ [Hu [Hmembers [Haudit [Husers [Hprojects Htasks]]]]]]].
  assert (Hfind : Prisma.projectMember_findUnique (ProjectMember.id (fst member)) s1
                  = Some (fst member)).
  { unfold Prisma.projectMember_findUnique. rewrite Hmembers, find_appended.
    rewrite (find_fresh ProjectMember.id) by (rewrite Hm; exact Hfresh).
    rewrite String.eqb_refl. reflexivity. }
  assert (Huser : Prisma.user_findUnique (ProjectMember.userId (fst member)) s1
                  = Some (snd member)).
  { unfold Prisma.user_findUnique. rewrite Husers, Hm. simpl. exact Hu. }
  unfold ProjectService.removeMember, transaction, bind,
    Prisma.tx_projectMember_findUnique, Prisma.projectMember_delete,
    AuditRepository.create, Prisma.auditLog_create, statement, ret. simpl.
  rewrite !Hab, Hfind, Huser. simpl.
  assert (Hp : (ProjectMember.projectId (fst member) =? projectId) = true)
    by (rewrite Hm; apply String.eqb_refl).
  rewrite Hp. simpl. rewrite !Hab, Hfind. simpl. rewrite !Hab. simpl.
  eexists. eexists. eexists. split; [reflexivity |]. simpl.
  rewrite Hmembers, Husers, Hprojects, Htasks, Haudit, filter_app. simpl.
  rewrite String.eqb_refl. simpl.
  rewrite (filter_fresh ProjectMember.id) by (rewrite Hm; exact Hfresh).
  rewrite app_nil_r, <- app_assoc. simpl. repeat split; reflexivity.
Qed.

Lemma addMember_then_removeMember_restores_the_members_witness :
  project_members
    (snd (ProjectService.removeMember Sample.env "p1" "gen-0" "u-admin"
            (snd (ProjectService.addMember Sample.env "p1" "u-outsider"
                    ProjectRole.MEMBER "u-admin" Sample.store))))
  = project_members Sample.store.
Proof.
  destruct (@addMember_then_removeMember_restores_the_members
              Sample.env "p1" "u-outsider" ProjectRole.MEMBER "u-admin"
              Sample.store
              (ProjectMember.mk "gen-0" "p1" "u-outsider" ProjectRole.MEMBER
                                1700000000000, Sample.outsider)
              (snd (ProjectService.addMember Sample.env "p1" "u-outsider"
                      ProjectRole.MEMBER "u-admin" Sample.store))
              Sample.env "u-admin")
    as [s2 [added [removed [Hrun [Hmembers _]]]]].
  - vm_compute. reflexivity.
  - vm_compute. intros [H | [H | []]]; discriminate.
  - intros k. reflexivity.
  - exact (eq_trans (f_equal (fun r => project_members (snd r)) Hrun) Hmembers).
Defined.

Lemma addMember_returned_role :
  forall env projectId userId projectRole actorId s member s',
    ProjectService.addMember env projectId userId projectRole actorId s
    = (Returned member, s') ->
    ProjectRepository.getUserProjectRole projectId userId s' = Some projectRole.
Proof.
  intros env projectId userId projectRole actorId s member s' H.
  pose proof (addMember_returned _ _ _ _ _ _ H)
    as [Hm [_ [_ [Hmembers _]]]].
  unfold ProjectService.addMember in H.
  destruct (ProjectRepository.findById projectId s); [| discriminate].
  destruct (UserRepository.findById userId s); [| discriminate].
  destruct (ProjectRepository.getUserProjectRole projectId userId s) eqn:Hrole;
    [discriminate |].
  unfold ProjectRepository.getUserProjectRole,
    Prisma.projectMember_findUnique_projectId_userId in *.
  rewrite Hmembers, find_appended.
  destruct (find _ (project_members s)); [discriminate |].
  rewrite Hm. simpl. rewrite !String.eqb_refl. reflexivity.
Qed.

(** X9.  After Project.addMember has returned, the user has the given role
    in the project; a user added as MEMBER passes the assignee validation of
    the project, and a user added as VIEWER is refused with the view-only
    error, whatever the user's global role. *)
Theorem added_member_is_assignable_unless_viewer :
  forall env projectId userId projectRole actorId s member s',
    ProjectService.addMember env projectId userId projectRole actorId s
    = (Returned member, s') ->
    userId <> "" ->
    ProjectRepository.getUserProjectRole projectId userId s' = Some projectRole
    /\ (projectRole = ProjectRole.MEMBER ->
        TaskService.validateAssignee projectId (Some (Some userId)) s'
        = Returned tt)
    /\ (projectRole = ProjectRole.VIEWER ->
        TaskService.validateAssignee projectId (Some (Some userId)) s'
        = Thrown (AppErr (AppError.badRequest
                            "Cannot assign tasks to view-only users. Viewers have read-only access."
                            ErrorCodes.TASK.VIEWER_CANNOT_BE_ASSIGNED
                            [("assigneeId", Js.Str userId);
                             ("projectRole", Js.Str "VIEWER")]))).
Proof.
  intros env projectId userId projectRole actorId s member s' H Hne.
  pose proof (addMember_returned_role _ _ _ _ _ _ H) as Hrole.
  apply String.eqb_neq in Hne.
  split; [exact Hrole |].
  unfold TaskService.validateAssignee. rewrite Hne, Hrole.
  split; intros ->; reflexivity.
Qed.

Lemma added_member_is_assignable_unless_viewer_witness :
  TaskService.validateAssignee "p1" (Some (Some "u-outsider"))
    (snd (ProjectService.addMember Sample.env "p1" "u-outsider"
            ProjectRole.MEMBER "u-admin" Sample.store))
  = Returned tt.
Proof.
  destruct (@added_member_is_assignable_unless_viewer
              Sample.env "p1" "u-outsider" ProjectRole.MEMBER "u-admin"
              Sample.store
              (ProjectMember.mk "gen-0" "p1" "u-outsider" ProjectRole.MEMBER
                                1700000000000, Sample.outsider)
              (snd (ProjectService.addMember Sample.env "p1" "u-outsider"
                      ProjectRole.MEMBER "u-admin" Sample.store)))
    as [_ [Hmember _]].
  - vm_compute. reflexivity.
  - discriminate.
  - apply Hmember. reflexivity.
Defined.

(** ** Repeating an update *)

Lemma or_current_twice :
  forall (T : Type) (patch : option T) (current : T),
    Prisma.or_current patch (Prisma.or_current patch current)
    = Prisma.or_current patch current.
Proof. intros T [v |] current; reflexivity. Qed.

(** After an update, the status of the patch is the status of the task:
    the same patch asks for no transition. *)
Lemma completedAt_of_after_update :
  forall env' task data current,
    Task.status task
    = Prisma.or_current (UpdateTaskData.status data) (Task.status current) ->
    TaskService.completedAt_of env' task data = None.
Proof.
  intros env' task data current Hs. unfold TaskService.completedAt_of.
  destruct (UpdateTaskData.status data) as [st |]; [| reflexivity].
  simpl in Hs. rewrite Hs. destruct st; reflexivity.
Qed.

(** After an update whose due date, if any, was not given as a string, the
    patch carries the values that the task has. *)
Lemma updated_task_repeats_the_patch :
  forall env current data task,
    Prisma.task_apply env (TaskService.updateData env current data) current
    = Some task ->
    (forall text,
        UpdateTaskData.dueDate data <> Some (Some (Prisma.OfString text))) ->
    task_patch_identical task data.
Proof.
  intros env current data task Happ Hdue field.
  apply task_apply_declared in Happ.
  destruct Happ as [_ [Ht [Hd [Hs [Hp [Ha Hdu]]]]]].
  unfold TaskService.updateData in *. simpl in *.
  unfold TaskService.data_get, TaskService.current_get.
  destruct field.
  - rewrite Ht. destruct (UpdateTaskData.title data); simpl; auto.
  - rewrite Hd. destruct (UpdateTaskData.description data); simpl; auto.
  - rewrite Hs. destruct (UpdateTaskData.status data); simpl; auto.
  - rewrite Hp. destruct (UpdateTaskData.priority data); simpl; auto.
  - rewrite Ha. destruct (UpdateTaskData.assigneeId data); simpl; auto.
  - destruct (UpdateTaskData.dueDate data) as [[[ms | text] |] |]; simpl; auto.
    + destruct Hdu as [ms' [Hms Hdu]]. simpl in Hms. injection Hms as <-.
      rewrite Hdu. auto.
    + exfalso. apply (Hdue text). reflexivity.
    + rewrite Hdu. auto.
Qed.

(** X10.  A repeated Task.update logs nothing and changes no column but
    [updatedAt].  Once an update has returned whose patch has the six
    properties of the interface only, with a due date that is not given as a
    string, the same patch applied again, at any time and by any actor,
    appends no audit row and leaves the users, the projects and the members
    as they are; when the second call throws, the store is as the first
    left it; when it returns, it returns the task of the first call with the
    time of the second write as [updatedAt], and that row replaces the
    stored one. *)
Theorem repeated_task_update_logs_nothing :
  forall env id data actorId s task s',
    TaskService.update env id data actorId s = (Returned task, s') ->
    UpdateTaskData.others data = [] ->
    (forall text,
        UpdateTaskData.dueDate data <> Some (Some (Prisma.OfString text))) ->
    forall env' actorId',
      audit_logs (snd (TaskService.update env' id data actorId' s'))
      = audit_logs s'
      /\ users (snd (TaskService.update env' id data actorId' s')) = users s'
      /\ projects (snd (TaskService.update env' id data actorId' s'))
         = projects s'
      /\ project_members (snd (TaskService.update env' id data actorId' s'))
         = project_members s'
      /\ (forall e,
            fst (TaskService.update env' id data actorId' s') = Thrown e ->
            snd (TaskService.update env' id data actorId' s') = s')
      /\ (forall task',
            fst (TaskService.update env' id data actorId' s') = Returned task' ->
            task' = Task.set_updatedAt (db_now env') task
            /\ tasks (snd (TaskService.update env' id data actorId' s'))
               = map (fun r => if Task.id r =? id then task' else r)
                     (tasks s')).
Proof.
  intros env id data actorId s task s' H Hothers Hdue env' actorId'.
  pose proof H as H1. apply task_update_returned in H1.
  destruct H1 as [current [Hfind [Happ _]]].
  destruct (@task_update_stored env id data actorId s task s' current H Hfind)
    as [_ [_ Hstored]].
  pose proof (updated_task_repeats_the_patch _ _ _ Happ Hdue) as Hsame.
  pose proof (task_apply_declared _ _ _ Happ) as Hcols.
  unfold TaskService.updateData in Hcols. simpl in Hcols.
  destruct Hcols as [_ [Ht [Hd [Hs [Hp [Ha Hdu]]]]]].
  destruct (TaskService.update env' id data actorId' s') as [[task' | e] s'']
    eqn:H2; simpl.
  - pose proof H2 as H3. apply task_update_returned in H3.
    destruct H3 as [c [Hc [Happ' [Hu' [Hp' [Hm' [Htasks' Haudit']]]]]]].
    rewrite Hstored in Hc. injection Hc as <-.
    rewrite (compute_diff_identical env' Hsame) in Haudit'. simpl in Haudit'.
    split; [exact Haudit' |]. split; [exact Hu' |]. split; [exact Hp' |].
    split; [exact Hm' |]. split; [intros e He; discriminate |].
    intros t Ht'. injection Ht' as <-. split; [| exact Htasks'].
    unfold Prisma.task_apply, TaskService.updateData in Happ'.
    simpl in Happ'.
    rewrite (completedAt_of_after_update env' task data current Hs),
      Hothers in Happ'.
    destruct (UpdateTaskData.dueDate data) as [[[ms | text] |] |];
      simpl in Happ'.
    + destruct Hdu as [ms' [Hms Hdu]]. simpl in Hms. injection Hms as <-.
      injection Happ' as <-. unfold Task.set_updatedAt.
      rewrite Ht, Hd, Hs, Hp, Ha, Hdu, !or_current_twice. reflexivity.
    + exfalso. apply (Hdue text). reflexivity.
    + injection Happ' as <-. unfold Task.set_updatedAt.
      rewrite Ht, Hd, Hs, Hp, Ha, Hdu, !or_current_twice. reflexivity.
    + injection Happ' as <-. unfold Task.set_updatedAt.
      rewrite Ht, Hd, Hs, Hp, Ha, !or_current_twice. reflexivity.
  - apply task_update_atomic in H2. subst s''.
    split; [reflexivity |]. split; [reflexivity |]. split; [reflexivity |].
    split; [reflexivity |]. split; [reflexivity |].
    intros t Ht'. discriminate.
Qed.

Lemma repeated_task_update_logs_nothing_witness :
  audit_logs
    (snd (TaskService.update (Sample.env_aborting 7) "t-todo"
            SampleInput.patch_complete "u-member"
            (snd (TaskService.update Sample.env "t-todo"
                    SampleInput.patch_complete "u-admin" Sample.store))))
  = audit_logs
      (snd (TaskService.update Sample.env "t-todo" SampleInput.patch_complete
              "u-admin" Sample.store)).
Proof.
  destruct (@repeated_task_update_logs_nothing Sample.env "t-todo"
              SampleInput.patch_complete "u-admin" Sample.store
              SampleInput.todo_completed
              (snd (TaskService.update Sample.env "t-todo"
                      SampleInput.patch_complete "u-admin" Sample.store)))
    with (env' := Sample.env_aborting 7) (actorId' := "u-member")
    as [Hlog _].
  - vm_compute. reflexivity.
  - reflexivity.
  - intros text. discriminate.
  - exact Hlog.
Defined.

(** * Access control *)

Lemma existsb_eqb_member_viewer :
  forall r : ProjectRole.t,
    existsb (ProjectRole.eqb r) [ProjectRole.MEMBER; ProjectRole.VIEWER] = true.
Proof. intros []; reflexivity. Qed.

(** X11.  Write access to a project, for an authenticated request that
    names the project: the request passes exactly when the user is a global
    ADMIN or has the project role MEMBER; a user without a member row is
    refused with PROJECT_ACCESS_DENIED and a project VIEWER with
    WRITE_ACCESS_REQUIRED, both 403; and an ADMIN passes whatever the member
    table holds, also for a project that does not exist. *)
Theorem project_write_access_decision :
  forall user projectId s,
    projectId <> "" ->
    let req := Middleware.mkProjectRequest (Some user) (Some projectId) None in
    (Middleware.requireProjectWriteAccess req s = Middleware.Continue
     <-> Middleware.au_role user = UserRole.ADMIN
         \/ ProjectRepository.getUserProjectRole projectId (Middleware.au_id user) s
            = Some ProjectRole.MEMBER)
    /\ (Middleware.au_role user <> UserRole.ADMIN ->
        ProjectRepository.getUserProjectRole projectId (Middleware.au_id user) s
        = None ->
        Middleware.requireProjectWriteAccess req s
        = Middleware.Fail (AppErrorFactory.forbidden
                             "You do not have access to this project."
                             AuthCodes.AUTHZ.PROJECT_ACCESS_DENIED))
    /\ (Middleware.au_role user <> UserRole.ADMIN ->
        ProjectRepository.getUserProjectRole projectId (Middleware.au_id user) s
        = Some ProjectRole.VIEWER ->
        Middleware.requireProjectWriteAccess req s
        = Middleware.Fail (AppErrorFactory.forbidden
                             "This action requires one of the following project roles: MEMBER"
                             AuthCodes.AUTHZ.WRITE_ACCESS_REQUIRED)).
Proof.
  intros user projectId s Hne req. subst req.
  apply String.eqb_neq in Hne.
  unfold Middleware.requireProjectWriteAccess, Middleware.requireProjectAccess,
    Middleware.or_param. simpl. rewrite Hne. simpl. rewrite Hne.
  split; [| split].
  - destruct (UserRole.eqb (Middleware.au_role user) UserRole.ADMIN) eqn:E.
    + apply UserRole_eqb_eq in E. split; [intros _; left; exact E | reflexivity].
    + assert (Hna : Middleware.au_role user <> UserRole.ADMIN).
      { intros Heq. rewrite Heq in E. discriminate. }
      destruct (ProjectRepository.getUserProjectRole projectId
                  (Middleware.au_id user) s) as [[|] |]; simpl;
        split; intros H; try discriminate; try reflexivity; auto;
        destruct H as [H | H]; congruence.
  - intros Hna Hrole.
    destruct (UserRole.eqb (Middleware.au_role user) UserRole.ADMIN) eqn:E;
      [apply UserRole_eqb_eq in E; contradiction |].
    rewrite Hrole. reflexivity.
  - intros Hna Hrole.
    destruct (UserRole.eqb (Middleware.au_role user) UserRole.ADMIN) eqn:E;
      [apply UserRole_eqb_eq in E; contradiction |].
    rewrite Hrole. reflexivity.
Qed.

Lemma project_write_access_decision_witness :
  Middleware.requireProjectWriteAccess
    (Middleware.mkProjectRequest
       (Some (Middleware.mkAuthUser "u-member" "member@example.com" UserRole.MEMBER))
       (Some "p1") None) Sample.store
  = Middleware.Continue
  /\ Middleware.requireProjectWriteAccess
       (Middleware.mkProjectRequest
          (Some (Middleware.mkAuthUser "u-viewer" "viewer@example.com"
                                       UserRole.VIEWER))
          (Some "p1") None) Sample.store
     = Middleware.Fail (AppErrorFactory.forbidden
                          "This action requires one of the following project roles: MEMBER"
                          AuthCodes.AUTHZ.WRITE_ACCESS_REQUIRED).
Proof.
  split.
  - apply (@project_write_access_decision
             (Middleware.mkAuthUser "u-member" "member@example.com" UserRole.MEMBER)
             "p1" Sample.store); [discriminate |].
    right. reflexivity.
  - apply (@project_write_access_decision
             (Middleware.mkAuthUser "u-viewer" "viewer@example.com" UserRole.VIEWER)
             "p1" Sample.store); [discriminate | discriminate | reflexivity].
Defined.

(** X12.  [requireProjectReadAccess], which lists both project roles,
    decides every request as [requireProjectAccess()] without a list does:
    any member row gives read access. *)
Theorem read_access_is_any_membership :
  forall req s,
    Middleware.requireProjectReadAccess req s
    = Middleware.requireProjectAccess None req s.
Proof.
  intros req s.
  unfold Middleware.requireProjectReadAccess, Middleware.requireProjectAccess.
  destruct (Middleware.pr_user req) as [user |]; [| reflexivity].
  destruct (Middleware.or_param _ _) as [pid |]; [| reflexivity].
  destruct (pid =? ""); [reflexivity |].
  destruct (UserRole.eqb _ _); [reflexivity |].
  destruct (ProjectRepository.getUserProjectRole _ _ _) as [r |]; [| reflexivity].
  rewrite existsb_eqb_member_viewer. reflexivity.
Qed.

(** X13.  Access to a task follows its project.  For an authenticated
    request that names a stored task (of a project with a non-empty id), the
    task write guard lets the request through exactly when the project write
    guard does for the task's project, and the task read guard exactly when
    the project read guard does; the context it attaches is the id and the
    project of the stored task.  For an id no task has, it answers "Task not
    found" (404), also to an ADMIN. *)
Theorem task_access_follows_project_access :
  forall user taskId s,
    taskId <> "" ->
    (TaskRepository.findById taskId s = None ->
     forall requireWrite,
       Middleware.requireTaskAccess requireWrite
         (Middleware.mkTaskRequest (Some user) (Some taskId)) s
       = (Middleware.Fail (AppError.notFound "Task not found."
                             ErrorCodes.TASK.NOT_FOUND), None))
    /\ (forall task,
        TaskRepository.findById taskId s = Some task ->
        Task.projectId task <> "" ->
        let preq := Middleware.mkProjectRequest (Some user)
                      (Some (Task.projectId task)) None in
        let treq := Middleware.mkTaskRequest (Some user) (Some taskId) in
        (fst (Middleware.requireTaskWriteAccess treq s) = Middleware.Continue
         <-> Middleware.requireProjectWriteAccess preq s = Middleware.Continue)
        /\ (fst (Middleware.requireTaskReadAccess treq s) = Middleware.Continue
            <-> Middleware.requireProjectReadAccess preq s = Middleware.Continue)
        /\ (forall requireWrite,
              fst (Middleware.requireTaskAccess requireWrite treq s)
              = Middleware.Continue ->
              snd (Middleware.requireTaskAccess requireWrite treq s)
              = Some (Task.id task, Task.projectId task))).
Proof.
  intros user taskId s Hne. apply String.eqb_neq in Hne.
  split.
  - intros Hfind requireWrite. unfold Middleware.requireTaskAccess. simpl.
    rewrite Hne, Hfind. reflexivity.
  - intros task Hfind Hp preq treq. subst preq treq.
    apply String.eqb_neq in Hp.
    unfold Middleware.requireTaskWriteAccess, Middleware.requireTaskReadAccess,
      Middleware.requireTaskAccess, Middleware.requireProjectWriteAccess,
      Middleware.requireProjectReadAccess, Middleware.requireProjectAccess,
      Middleware.or_param. simpl.
    rewrite Hne, Hfind, Hp. simpl. rewrite ?Hp.
    destruct (UserRole.eqb (Middleware.au_role user) UserRole.ADMIN);
      [simpl; repeat split; auto |].
    destruct (ProjectRepository.getUserProjectRole (Task.projectId task)
                (Middleware.au_id user) s) as [[|] |]; simpl;
      repeat split; intros; try discriminate; auto;
      match goal with
      | rw : bool |- _ => destruct rw; simpl in *; try discriminate; auto
      end.
Qed.

Lemma task_access_follows_project_access_witness :
  Middleware.requireTaskAccess true
    (Middleware.mkTaskRequest
       (Some (Middleware.mkAuthUser "u-admin" "admin@example.com" UserRole.ADMIN))
       (Some "t-none")) Sample.store
  = (Middleware.Fail (AppError.notFound "Task not found."
                        ErrorCodes.TASK.NOT_FOUND), None)
  /\ (fst (Middleware.requireTaskWriteAccess
             (Middleware.mkTaskRequest
                (Some (Middleware.mkAuthUser "u-viewer" "viewer@example.com"
                                             UserRole.VIEWER))
                (Some "t-todo")) Sample.store) = Middleware.Continue
      <-> Middleware.requireProjectWriteAccess
            (Middleware.mkProjectRequest
               (Some (Middleware.mkAuthUser "u-viewer" "viewer@example.com"
                                            UserRole.VIEWER))
               (Some "p1") None) Sample.store = Middleware.Continue).
Proof.
  split.
  - destruct (@task_access_follows_project_access
                (Middleware.mkAuthUser "u-admin" "admin@example.com" UserRole.ADMIN)
                "t-none" Sample.store) as [H _]; [discriminate |].
    apply H. reflexivity.
  - destruct (@task_access_follows_project_access
                (Middleware.mkAuthUser "u-viewer" "viewer@example.com"
                                       UserRole.VIEWER)
                "t-todo" Sample.store) as [_ H]; [discriminate |].
    destruct (H Sample.todo_task) as [Hw _]; [reflexivity | discriminate |].
    exact Hw.
Defined.

(** X14.  Whoever can be assigned a task of a project can write to it: when
    the assignee validation accepts a stored user for a project, the project
    write guard lets that user's requests through. *)
Theorem valid_assignee_has_write_access :
  forall projectId a s user,
    a <> "" -> projectId <> "" ->
    UserRepository.findById a s = Some user ->
    TaskService.validateAssignee projectId (Some (Some a)) s = Returned tt ->
    Middleware.requireProjectWriteAccess
      (Middleware.mkProjectRequest
         (Some (Middleware.mkAuthUser a (User.email user) (User.role user)))
         (Some projectId) None) s
    = Middleware.Continue.
Proof.
  intros projectId a s user Ha Hp Hfind Hvalid.
  apply String.eqb_neq in Ha. apply String.eqb_neq in Hp.
  unfold TaskService.validateAssignee in Hvalid. rewrite Ha in Hvalid.
  unfold Middleware.requireProjectWriteAccess, Middleware.requireProjectAccess,
    Middleware.or_param. simpl. rewrite Hp. simpl. rewrite Hp.
  destruct (UserRole.eqb (User.role user) UserRole.ADMIN) eqn:E; [reflexivity |].
  destruct (ProjectRepository.getUserProjectRole projectId a s) as [[|] |];
    [reflexivity | discriminate |].
  unfold UserRepository.findById in Hfind. rewrite Hfind in Hvalid.
  destruct (User.role user); simpl in E; discriminate.
Qed.

Lemma valid_assignee_has_write_access_witness :
  Middleware.requireProjectWriteAccess
    (Middleware.mkProjectRequest
       (Some (Middleware.mkAuthUser "u-member" "member@example.com" UserRole.MEMBER))
       (Some "p1") None) Sample.store
  = Middleware.Continue.
Proof.
  apply (@valid_assignee_has_write_access "p1" "u-member" Sample.store
           Sample.member); [discriminate | discriminate | reflexivity | reflexivity].
Defined.

(** X15.  [requireRole]: a request passes exactly when it carries a user
    whose global role is one of the allowed roles; without a user it is
    answered 401, with another role 403. *)
Theorem requireRole_decision :
  forall allowedRoles user,
    (Middleware.requireRole allowedRoles user = Middleware.Continue
     <-> exists u, user = Some u /\ In (Middleware.au_role u) allowedRoles)
    /\ (user = None ->
        exists e, Middleware.requireRole allowedRoles user = Middleware.Fail e
                  /\ AppError.statusCode e = 401)
    /\ (forall u, user = Some u -> ~ In (Middleware.au_role u) allowedRoles ->
        exists e, Middleware.requireRole allowedRoles user = Middleware.Fail e
                  /\ AppError.statusCode e = 403
                  /\ AppError.code e = Some AuthCodes.AUTHZ.ROLE_REQUIRED).
Proof.
  intros allowedRoles user.
  assert (Hex : forall r, existsb (UserRole.eqb r) allowedRoles = true
                          <-> In r allowedRoles).
  { intros r. rewrite existsb_exists. split.
    - intros [x [Hin Hx]]. apply UserRole_eqb_eq in Hx. subst. exact Hin.
    - intros Hin. exists r. split; [exact Hin | apply UserRole_eqb_eq; reflexivity]. }
  unfold Middleware.requireRole.
  split; [| split].
  - destruct user as [u |].
    + destruct (existsb (UserRole.eqb (Middleware.au_role u)) allowedRoles) eqn:E.
      * split; [| reflexivity]. intros _. exists u. split; [reflexivity |].
        apply Hex. exact E.
      * split; [discriminate |]. intros [u' [Hu Hin]]. injection Hu as <-.
        apply Hex in Hin. congruence.
    + split; [discriminate |]. intros [u [Hu _]]. discriminate.
  - intros ->. eexists. split; reflexivity.
  - intros u -> Hn.
    destruct (existsb (UserRole.eqb (Middleware.au_role u)) allowedRoles) eqn:E.
    + apply Hex in E. contradiction.
    + eexists. repeat split.
Qed.

Lemma requireRole_decision_witness :
  (exists e,
     Middleware.requireAdminRole
       (Some (Middleware.mkAuthUser "u-member" "member@example.com"
                                    UserRole.MEMBER))
     = Middleware.Fail e
     /\ AppError.statusCode e = 403
     /\ AppError.code e = Some AuthCodes.AUTHZ.ROLE_REQUIRED)
  /\ exists e, Middleware.requireAdminRole None = Middleware.Fail e
               /\ AppError.statusCode e = 401.
Proof.
  split.
  - destruct (requireRole_decision [UserRole.ADMIN]
                (Some (Middleware.mkAuthUser "u-member" "member@example.com"
                                             UserRole.MEMBER)))
      as [_ [_ H]].
    apply (H (Middleware.mkAuthUser "u-member" "member@example.com"
                                    UserRole.MEMBER)); [reflexivity |].
    simpl. intros [H1 | []]. discriminate.
  - destruct (requireRole_decision [UserRole.ADMIN] None) as [_ [H _]].
    apply H. reflexivity.
Defined.

(** * Authentication *)

Lemma substring_all :
  forall t : string, substring 0 (String.length t) t = t.
Proof. induction t as [| c t IH]; simpl; [reflexivity | rewrite IH; reflexivity]. Qed.

Lemma until_space_no_space :
  forall t, no_space t = true -> Middleware.until_space t = t.
Proof.
  induction t as [| c t IH]; simpl; [reflexivity |].
  intros H. apply andb_true_iff in H. destruct H as [Hc Ht].
  apply negb_true_iff in Hc. rewrite Hc, (IH Ht). reflexivity.
Qed.

Lemma bearer_token_of_client :
  forall t, no_space t = true ->
            Middleware.bearer_token (Middleware.client_authorization t) = t.
Proof.
  intros t H. unfold Middleware.bearer_token, Middleware.client_authorization.
  simpl. rewrite Nat.sub_0_r, substring_all. apply until_space_no_space. exact H.
Qed.

(** X16.  A request whose header the client built from a token without a
    space is authenticated from the store, not from the token: when the
    token verifies, the user attached to the request has the id, the email
    and the role of the row stored under the decoded id, whatever email and
    role the token carries; when no user has that id the request is answered
    401 USER_NOT_FOUND; and an expired token is answered 401 TOKEN_EXPIRED
    whatever the store holds. *)
Theorem authenticate_attaches_the_stored_user :
  forall jwt_verify token s,
    no_space token = true ->
    let header := Some (Middleware.client_authorization token) in
    (forall id email role user,
       jwt_verify token = Middleware.Decoded id email role ->
       UserRepository.findById id s = Some user ->
       Middleware.authenticate jwt_verify header s
       = (Middleware.Continue,
          Some (Middleware.mkAuthUser id (User.email user) (User.role user))))
    /\ (forall id email role,
       jwt_verify token = Middleware.Decoded id email role ->
       UserRepository.findById id s = None ->
       Middleware.authenticate jwt_verify header s
       = (Middleware.Fail (AppErrorFactory.unauthorized "User no longer exists."
                             AuthCodes.AUTH.USER_NOT_FOUND), None))
    /\ (jwt_verify token = Middleware.TokenExpired ->
       Middleware.authenticate jwt_verify header s
       = (Middleware.Fail (AppErrorFactory.unauthorized
                             "Token has expired. Please login again."
                             AuthCodes.AUTH.TOKEN_EXPIRED), None)).
Proof.
  intros jwt_verify token s Hns header. subst header.
  assert (Hpre : prefix "Bearer " (Middleware.client_authorization token) = true)
    by (destruct token; reflexivity).
  unfold Middleware.authenticate. rewrite Hpre. simpl negb. cbv iota.
  rewrite (bearer_token_of_client _ Hns).
  split; [| split].
  - intros id email role user Hv Hfind. rewrite Hv, Hfind.
    assert (Hid : User.id user = id).
    { unfold UserRepository.findById, Prisma.user_findUnique in Hfind.
      apply find_some in Hfind. destruct Hfind as [_ Hid].
      apply String.eqb_eq in Hid. exact Hid. }
    rewrite Hid. reflexivity.
  - intros id email role Hv Hfind. rewrite Hv, Hfind. reflexivity.
  - intros Hv. rewrite Hv. reflexivity.
Qed.

Lemma authenticate_attaches_the_stored_user_witness :
  Middleware.authenticate
    (fun t => if t =? "token-u-member"
              then Middleware.Decoded "u-member" "old@example.com" UserRole.ADMIN
              else Middleware.JwtError)
    (Some (Middleware.client_authorization "token-u-member")) Sample.store
  = (Middleware.Continue,
     Some (Middleware.mkAuthUser "u-member" (User.email Sample.member)
                                 (User.role Sample.member))).
Proof.
  destruct (@authenticate_attaches_the_stored_user
              (fun t => if t =? "token-u-member"
                        then Middleware.Decoded "u-member" "old@example.com"
                                                UserRole.ADMIN
                        else Middleware.JwtError)
              "token-u-member" Sample.store) as [H _]; [reflexivity |].
  apply (H "u-member" "old@example.com" UserRole.ADMIN Sample.member);
    reflexivity.
Defined.

(** X17.  Every request without a usable header is refused before the
    token library and the store are consulted: with no Authorization header,
    or one that does not start with "Bearer ", [authenticate] answers 401
    AUTHENTICATION_REQUIRED and attaches no user; and whenever it attaches a
    user, that user is stored. *)
Theorem authenticate_refuses_or_attaches_a_stored_user :
  forall jwt_verify authorization s,
    ((authorization = None
      \/ exists h, authorization = Some h /\ prefix "Bearer " h = false) ->
     Middleware.authenticate jwt_verify authorization s
     = (Middleware.Fail (AppErrorFactory.unauthorized
                           "Authentication required. Please provide a valid Bearer token."
                           AuthCodes.AUTH.AUTHENTICATION_REQUIRED), None))
    /\ (forall u,
        snd (Middleware.authenticate jwt_verify authorization s) = Some u ->
        fst (Middleware.authenticate jwt_verify authorization s)
        = Middleware.Continue
        /\ exists user,
            UserRepository.findById (Middleware.au_id u) s = Some user
            /\ Middleware.au_email u = User.email user
            /\ Middleware.au_role u = User.role user)
    /\ (forall e,
        fst (Middleware.authenticate jwt_verify authorization s)
        = Middleware.Fail e ->
        AppError.statusCode e = 401
        /\ snd (Middleware.authenticate jwt_verify authorization s) = None).
Proof.
  intros jwt_verify authorization s. unfold Middleware.authenticate.
  split; [| split].
  - intros [-> | [h [-> Hp]]]; [reflexivity |]. rewrite Hp. reflexivity.
  - intros u. destruct authorization as [h |]; [| discriminate].
    destruct (prefix "Bearer " h); simpl; [| discriminate].
    destruct (jwt_verify _) as [id email role | |]; try discriminate.
    destruct (UserRepository.findById id s) as [user |] eqn:Hfind;
      simpl; [| discriminate].
    intros Hu. injection Hu as <-. split; [reflexivity |]. simpl.
    assert (Hid : User.id user = id).
    { unfold UserRepository.findById, Prisma.user_findUnique in Hfind.
      apply find_some in Hfind. destruct Hfind as [_ Hid].
      apply String.eqb_eq in Hid. exact Hid. }
    exists user. rewrite Hid. auto.
  - intros e. destruct authorization as [h |];
      [| simpl; intros H; injection H as <-; split; reflexivity].
    destruct (prefix "Bearer " h); simpl;
      [| intros H; injection H as <-; split; reflexivity].
    destruct (jwt_verify _) as [id email role | |]; simpl;
      try (intros H; injection H as <-; split; reflexivity).
    destruct (UserRepository.findById id s); simpl;
      [discriminate | intros H; injection H as <-; split; reflexivity].
Qed.

Lemma authenticate_refuses_or_attaches_a_stored_user_witness :
  Middleware.authenticate (fun _ => Middleware.Decoded "u-admin" "" UserRole.ADMIN)
    (Some "Basic dXNlcg==") Sample.store
  = (Middleware.Fail (AppErrorFactory.unauthorized
                        "Authentication required. Please provide a valid Bearer token."
                        AuthCodes.AUTH.AUTHENTICATION_REQUIRED), None).
Proof.
  destruct (authenticate_refuses_or_attaches_a_stored_user
              (fun _ => Middleware.Decoded "u-admin" "" UserRole.ADMIN)
              (Some "Basic dXNlcg==") Sample.store) as [H _].
  apply H. right. exists "Basic dXNlcg==". split; reflexivity.
Defined.

(** * Registration and login *)

(** X18.  A registered user can log in.  When [register] returns, no user
    had the email before, the store has one more user, with that email, the
    hashed password and the requested role (VIEWER when none is given), and
    nothing else changed; and if the password library accepts a password
    against its own hash, [login] with the same email and password returns
    the summary that [register] returned, with a token signed for the id,
    the email and the role of the new user, and writes nothing. *)
Theorem registered_user_can_log_in :
  forall env crypto email name password role s registered s',
    AuthService.register env crypto email name password role s
    = (Returned registered, s') ->
    AuthService.findByEmail email s = None
    /\ (exists user,
          users s' = (users s ++ [user])%list
          /\ AuthService.summary user = registered
          /\ User.email user = email
          /\ User.name user = name
          /\ User.password user = AuthService.bcrypt_hash crypto password
          /\ User.role user
             = match role with Some r => r | None => UserRole.VIEWER end
          /\ (AuthService.bcrypt_compare crypto password
                (AuthService.bcrypt_hash crypto password) = true ->
              AuthService.login crypto email password s'
              = (Returned (AuthService.jwt_sign crypto
                             (AuthService.mkPayload (User.id user) email
                                (User.role user)),
                           registered), s')))
    /\ projects s' = projects s
    /\ project_members s' = project_members s
    /\ tasks s' = tasks s
    /\ audit_logs s' = audit_logs s.
Proof.
  intros env crypto email name password role s registered s' H.
  unfold AuthService.register in H.
  destruct (AuthService.findByEmail email s) eqn:Hfree; [discriminate |].
  split; [reflexivity |].
  unfold AuthService.user_create, AuthService.email_is_free in H.
  rewrite Hfree in H.
  destruct (aborts env 0); [discriminate |].
  injection H as Hsum Hs. subst s'. simpl.
  split; [| auto].
  eexists. split; [reflexivity |]. repeat split; try exact Hsum.
  intros Hcmp. unfold AuthService.login, AuthService.findByEmail. simpl.
  rewrite find_appended.
  unfold AuthService.findByEmail in Hfree. rewrite Hfree. simpl.
  rewrite String.eqb_refl. simpl. rewrite Hcmp, <- Hsum. reflexivity.
Qed.

Lemma registered_user_can_log_in_witness :
  exists token,
    AuthService.login sample_crypto "new@example.com" "secret"
      (snd (AuthService.register Sample.env sample_crypto "new@example.com"
              "New" "secret" None Sample.store))
    = (Returned (token,
                 AuthService.mkSummary (uuid Sample.env 0) "new@example.com"
                   "New" UserRole.VIEWER),
       snd (AuthService.register Sample.env sample_crypto "new@example.com"
              "New" "secret" None Sample.store)).
Proof.
  assert (Hrun :
    AuthService.register Sample.env sample_crypto "new@example.com" "New"
      "secret" None Sample.store
    = (Returned (AuthService.mkSummary (uuid Sample.env 0) "new@example.com"
                   "New" UserRole.VIEWER),
       snd (AuthService.register Sample.env sample_crypto "new@example.com"
              "New" "secret" None Sample.store)))
    by (vm_compute; reflexivity).
  destruct (@registered_user_can_log_in Sample.env sample_crypto
              "new@example.com" "New" "secret" None Sample.store _ _ Hrun)
    as [_ [[user [_ [_ [_ [_ [_ [_ Hlogin]]]]]]] _]].
  eexists. apply Hlogin. reflexivity.
Defined.

Lemma find_email_in :
  forall email l u,
    find (fun u => User.email u =? email) l = Some u ->
    In u l /\ User.email u = email.
Proof.
  intros email l u H. apply find_some in H. destruct H as [Hin He].
  apply String.eqb_eq in He. auto.
Qed.

(** X19.  Registration keeps emails unique and never replaces a user.  If
    no two users of the store share an email, the same holds after any call
    of [register], returned or thrown; a call for an email that a user
    already has throws the 400 error "User with this email already exists"
    and leaves the store as it was; and every user of the store is still in
    it afterwards, unchanged. *)
Theorem register_keeps_emails_unique :
  forall env crypto email name password role s,
    NoDup (map User.email (users s)) ->
    let s' := snd (AuthService.register env crypto email name password role s) in
    NoDup (map User.email (users s'))
    /\ (In email (map User.email (users s)) ->
        AuthService.register env crypto email name password role s
        = (Thrown (AppErr (AppError.new "User with this email already exists"
                             400)), s))
    /\ (forall u, In u (users s) -> In u (users s')).
Proof.
  intros env crypto email name password role s Hnd s'. subst s'.
  unfold AuthService.register, AuthService.user_create,
    AuthService.email_is_free.
  destruct (AuthService.findByEmail email s) as [u |] eqn:Hfind.
  - simpl. repeat split; auto.
  - assert (Hfresh : ~ In email (map User.email (users s))).
    { intros Hin. apply in_map_iff in Hin. destruct Hin as [u [He Hin]].
      unfold AuthService.findByEmail in Hfind.
      apply (find_none _ _ Hfind) in Hin. simpl in Hin.
      rewrite He, String.eqb_refl in Hin. discriminate. }
    destruct (aborts env 0); simpl.
    + repeat split; auto. intros Hin. contradiction.
    + repeat split.
      * rewrite map_app. simpl.
        apply NoDup_app; [exact Hnd | constructor; [simpl; tauto | constructor] |].
        intros x Hx [Hx' | []]. subst x. contradiction.
      * intros Hin. contradiction.
      * intros u Hin. apply in_or_app. left. exact Hin.
Qed.

Lemma register_keeps_emails_unique_witness :
  AuthService.register Sample.env sample_crypto (User.email Sample.member)
    "Again" "secret" (Some UserRole.ADMIN) Sample.store
  = (Thrown (AppErr (AppError.new "User with this email already exists" 400)),
     Sample.store).
Proof.
  destruct (@register_keeps_emails_unique Sample.env sample_crypto
              (User.email Sample.member) "Again" "secret" (Some UserRole.ADMIN)
              Sample.store) as [_ [H _]].
  - repeat constructor; simpl; intuition discriminate.
  - apply H. vm_compute. tauto.
Defined.

(** X20.  [login] does not tell an unknown email from a wrong password:
    in both cases it throws the same 401 error "Invalid email or password";
    it returns only when a user with the email is stored and the password
    library accepts the password against the stored hash, and it never
    writes. *)
Theorem login_outcomes :
  forall crypto email password s,
    snd (AuthService.login crypto email password s) = s
    /\ ((AuthService.findByEmail email s = None
         \/ exists user, AuthService.findByEmail email s = Some user
                         /\ AuthService.bcrypt_compare crypto password
                              (User.password user) = false) ->
        fst (AuthService.login crypto email password s)
        = Thrown (AppErr (AppError.new "Invalid email or password" 401)))
    /\ (forall token who,
        fst (AuthService.login crypto email password s)
        = Returned (token, who) ->
        exists user,
          In user (users s)
          /\ User.email user = email
          /\ AuthService.bcrypt_compare crypto password (User.password user)
             = true
          /\ who = AuthService.summary user
          /\ token = AuthService.jwt_sign crypto
                       (AuthService.mkPayload (User.id user) (User.email user)
                          (User.role user))).
Proof.
  intros crypto email password s. unfold AuthService.login.
  split; [| split].
  - destruct (AuthService.findByEmail email s) as [u |]; [| reflexivity].
    destruct (AuthService.bcrypt_compare _ _ _); reflexivity.
  - intros [-> | [user [-> Hc]]]; [reflexivity |]. rewrite Hc. reflexivity.
  - intros token who.
    destruct (AuthService.findByEmail email s) as [u |] eqn:Hfind;
      [| discriminate].
    destruct (AuthService.bcrypt_compare crypto password (User.password u))
      eqn:Hc; [| discriminate].
    simpl. intros H. injection H as <- <-.
    apply find_email_in in Hfind. destruct Hfind as [Hin He].
    exists u. auto.
Qed.

Lemma login_outcomes_witness :
  fst (AuthService.login sample_crypto "nobody@example.com" "secret" Sample.store)
  = Thrown (AppErr (AppError.new "Invalid email or password" 401))
  /\ fst (AuthService.login sample_crypto (User.email Sample.member)
            "not the password" Sample.store)
     = Thrown (AppErr (AppError.new "Invalid email or password" 401)).
Proof.
  split.
  - destruct (login_outcomes sample_crypto "nobody@example.com" "secret"
                Sample.store) as [_ [H _]].
    apply H. left. reflexivity.
  - destruct (login_outcomes sample_crypto (User.email Sample.member)
                "not the password" Sample.store) as [_ [H _]].
    apply H. right. exists Sample.member. split; reflexivity.
Defined.

(** * Paginated reads *)

Section Paging.
Variable A : Type.

Lemma window_length :
  forall (page pageSize : positive) (l : list A),
    (length (Reads.window page pageSize l) <= Pos.to_nat pageSize)%nat.
Proof. intros. unfold Reads.window. apply firstn_le_length. Qed.

Lemma firstn_in :
  forall (n : nat) (l : list A) (x : A), In x (firstn n l) -> In x l.
Proof.
  induction n as [| n IH]; intros [| y l] x H; simpl in *; try contradiction.
  destruct H as [H | H]; [left; exact H | right; apply IH; exact H].
Qed.

Lemma skipn_in :
  forall (n : nat) (l : list A) (x : A), In x (skipn n l) -> In x l.
Proof.
  induction n as [| n IH]; intros [| y l] x H; simpl in *; auto.
Qed.

Lemma window_incl :
  forall (page pageSize : positive) (l : list A) (x : A),
    In x (Reads.window page pageSize l) -> In x l.
Proof.
  intros page pageSize l x H. unfold Reads.window in H.
  apply firstn_in in H. apply (skipn_in _ _ _ H).
Qed.

Lemma ceil_div_covers :
  forall (total : nat) (pageSize : positive),
    (total <= Reads.ceil_div total pageSize * Pos.to_nat pageSize)%nat.
Proof.
  intros total pageSize. unfold Reads.ceil_div.
  pose proof (Pos2Nat.is_pos pageSize) as Hpos.
  set (n := Pos.to_nat pageSize) in *.
  pose proof (Nat.div_mod (total + n - 1) n ltac:(lia)) as Hdm.
  pose proof (Nat.mod_upper_bound (total + n - 1) n ltac:(lia)) as Hm.
  nia.
Qed.

Lemma ceil_div_least :
  forall (total : nat) (pageSize : positive) (m : nat),
    (total <= m * Pos.to_nat pageSize)%nat ->
    (Reads.ceil_div total pageSize <= m)%nat.
Proof.
  intros total pageSize m H. unfold Reads.ceil_div.
  pose proof (Pos2Nat.is_pos pageSize) as Hpos.
  set (n := Pos.to_nat pageSize) in *.
  apply Nat.lt_succ_r. apply Nat.Div0.div_lt_upper_bound. nia.
Qed.

Lemma chunks_cover :
  forall (n m : nat) (l : list A),
    (length l <= m * n)%nat ->
    concat (map (fun k => firstn n (skipn (k * n) l)) (seq 0 m)) = l.
Proof.
  intros n m. induction m as [| m IH]; intros l Hlen.
  - simpl in *. destruct l; [reflexivity | simpl in Hlen; lia].
  - simpl seq. rewrite <- seq_shift. simpl map. rewrite map_map. simpl concat.
    transitivity (firstn n l ++ skipn n l)%list; [| apply firstn_skipn].
    f_equal.
    assert (Hrest : (length (skipn n l) <= m * n)%nat)
      by (rewrite length_skipn; simpl in Hlen; lia).
    rewrite <- (IH (skipn n l) Hrest) at 1.
    f_equal. apply map_ext. intros k. rewrite skipn_skipn.
    f_equal. f_equal. lia.
Qed.

Lemma windows_cover :
  forall (pageSize : positive) (m : nat) (l : list A),
    (length l <= m * Pos.to_nat pageSize)%nat ->
    concat (map (fun p => Reads.window p pageSize l) (pages m)) = l.
Proof.
  intros pageSize m l Hlen. unfold pages. rewrite <- seq_shift, !map_map.
  transitivity
    (concat (map (fun k => firstn (Pos.to_nat pageSize)
                             (skipn (k * Pos.to_nat pageSize) l)) (seq 0 m)));
    [| apply chunks_cover; exact Hlen].
  f_equal. apply map_ext. intros k. unfold Reads.window, Reads.skip.
  rewrite Nat2Pos.id by discriminate.
  replace (S k - 1)%nat with k by lia. reflexivity.
Qed.

Lemma window_past_the_end :
  forall (page pageSize : positive) (l : list A),
    (Reads.ceil_div (length l) pageSize < Pos.to_nat page)%nat ->
    Reads.window page pageSize l = [].
Proof.
  intros page pageSize l H. unfold Reads.window.
  rewrite skipn_all2; [apply firstn_nil |].
  pose proof (ceil_div_covers (length l) pageSize) as Hc.
  unfold Reads.skip. nia.
Qed.

Variable key : A -> Z.

Lemma insert_desc_perm :
  forall (x : A) (l : list A), Permutation (Reads.insert_desc key x l) (x :: l).
Proof.
  intros x l. induction l as [| y l IH]; simpl; [apply Permutation_refl |].
  destruct (key y <=? key x)%Z; [apply Permutation_refl |].
  eapply perm_trans; [apply perm_skip; exact IH | apply perm_swap].
Qed.

Lemma order_desc_perm :
  forall l : list A, Permutation (Reads.order_desc key l) l.
Proof.
  induction l as [| x l IH]; simpl; [constructor |].
  eapply perm_trans; [apply insert_desc_perm | apply perm_skip; exact IH].
Qed.

Lemma insert_desc_sorted :
  forall (x : A) (l : list A),
    Sorted (fun a b => (key b <= key a)%Z) l ->
    Sorted (fun a b => (key b <= key a)%Z) (Reads.insert_desc key x l).
Proof.
  intros x l Hs. induction Hs as [| y l Hs IH Hhd]; simpl.
  - repeat constructor.
  - destruct (key y <=? key x)%Z eqn:E.
    + apply Z.leb_le in E. repeat constructor; assumption.
    + apply Z.leb_gt in E. constructor; [exact IH |].
      destruct l as [| z l]; simpl.
      * constructor. lia.
      * inversion Hhd; subst.
        destruct (key z <=? key x)%Z; constructor; lia.
Qed.

Lemma order_desc_sorted :
  forall l : list A,
    Sorted (fun a b => (key b <= key a)%Z) (Reads.order_desc key l).
Proof.
  induction l as [| x l IH]; simpl; [constructor |].
  apply insert_desc_sorted. exact IH.
Qed.

Lemma order_desc_length :
  forall l : list A, length (Reads.order_desc key l) = length l.
Proof. intros l. apply Permutation_length, order_desc_perm. Qed.
End Paging.

(** X21.  The history of an entity.  [findByEntity] reports as total the
    number of audit rows of that entity type and id; the pages
    [1 .. ceil(total / pageSize)] put one after the other are those rows and
    no others, each once, with timestamps that never increase; every page
    holds at most [pageSize] rows, and every page after the last is empty. *)
Theorem history_pages_list_the_rows_of_the_entity :
  forall entityType entityId pageSize s,
    let rows := filter (Reads.of_entity entityType entityId) (audit_logs s) in
    let page_data p :=
      Reads.found_data (Reads.findByEntity entityType entityId p pageSize s) in
    let history :=
      concat (map page_data (pages (Reads.ceil_div (length rows) pageSize))) in
    (forall p, Reads.found_total
                 (Reads.findByEntity entityType entityId p pageSize s)
               = length rows)
    /\ Permutation history rows
    /\ Sorted (fun a b => (AuditLog.timestamp b <= AuditLog.timestamp a)%Z)
              history
    /\ (forall a, In a history <->
                  In a (audit_logs s)
                  /\ AuditLog.entityType a = entityType
                  /\ AuditLog.entityId a = entityId)
    /\ (forall p, (length (page_data p) <= Pos.to_nat pageSize)%nat)
    /\ (forall p, (Reads.ceil_div (length rows) pageSize < Pos.to_nat p)%nat ->
                  page_data p = []).
Proof.
  intros entityType entityId pageSize s rows page_data history.
  assert (Hh : history = Reads.order_desc AuditLog.timestamp rows).
  { subst history page_data. unfold Reads.findByEntity. simpl.
    apply windows_cover. rewrite order_desc_length. apply ceil_div_covers. }
  split; [reflexivity |].
  split; [rewrite Hh; apply order_desc_perm |].
  split; [rewrite Hh; apply order_desc_sorted |].
  split; [| split].
  - intros a. rewrite Hh. split.
    + intros Hin.
      apply (Permutation_in _ (order_desc_perm AuditLog.timestamp rows)) in Hin.
      subst rows. apply filter_In in Hin. destruct Hin as [Hin Hof].
      unfold Reads.of_entity in Hof. apply andb_true_iff in Hof.
      destruct Hof as [H1 H2]. apply String.eqb_eq in H1, H2. auto.
    + intros [Hin [H1 H2]].
      apply (Permutation_in _
               (Permutation_sym (order_desc_perm AuditLog.timestamp rows))).
      subst rows. apply filter_In. split; [exact Hin |].
      unfold Reads.of_entity. rewrite H1, H2, !String.eqb_refl. reflexivity.
  - intros p. subst page_data. simpl. apply window_length.
  - intros p Hp. subst page_data. simpl. apply window_past_the_end.
    rewrite order_desc_length. exact Hp.
Qed.

Lemma of_entity_false :
  forall entityType entityId a,
    (AuditLog.entityType a, AuditLog.entityId a) <> (entityType, entityId) ->
    Reads.of_entity entityType entityId a = false.
Proof.
  intros entityType entityId a Hne. unfold Reads.of_entity.
  destruct (AuditLog.entityType a =? entityType) eqn:E1; [| reflexivity].
  destruct (AuditLog.entityId a =? entityId) eqn:E2; [| reflexivity].
  apply String.eqb_eq in E1, E2. subst. contradiction.
Qed.

Lemma findByEntity_after_one_row :
  forall entityType entityId page pageSize s s' a,
    audit_logs s' = (audit_logs s ++ [a])%list ->
    ((AuditLog.entityType a, AuditLog.entityId a) <> (entityType, entityId) ->
     Reads.findByEntity entityType entityId page pageSize s'
     = Reads.findByEntity entityType entityId page pageSize s)
    /\ (AuditLog.entityType a = entityType -> AuditLog.entityId a = entityId ->
        Reads.found_total (Reads.findByEntity entityType entityId page pageSize s')
        = S (Reads.found_total
               (Reads.findByEntity entityType entityId page pageSize s))).
Proof.
  intros entityType entityId page pageSize s s' a Hlogs.
  unfold Reads.findByEntity. rewrite Hlogs, filter_app. simpl. split.
  - intros Hne. rewrite (@of_entity_false entityType entityId a Hne), app_nil_r. reflexivity.
  - intros H1 H2. unfold Reads.of_entity.
    rewrite H1, H2, !String.eqb_refl. simpl. rewrite length_app. simpl. lia.
Qed.

Lemma set_is_not_empty :
  forall (V : Type) (o : Js.object V) (k : string) (v : V),
    (0 <? length (Js.set o k v))%nat = true.
Proof.
  intros V [| [k0 v0] o] k v; simpl; [reflexivity |].
  destruct (k0 =? k); reflexivity.
Qed.

Lemma diff_field_is_logged :
  forall env current data diff field,
    (0 <? length (TaskService.diff_field env current data diff field))%nat
    = (0 <? length diff)%nat || field_is_logged env current data field.
Proof.
  intros env current data diff field.
  unfold TaskService.diff_field, field_is_logged.
  destruct (TaskService.data_get data field) eqn:Hd; simpl;
    try (rewrite orb_false_r; reflexivity);
    match goal with
    | |- context [negb (?a =? ?b)] => destruct (a =? b)
    end; simpl;
    rewrite ?orb_false_r, ?orb_true_r, ?set_is_not_empty; reflexivity.
Qed.

(** The diff has a key exactly when the test of the loop holds for one of
    the six fields. *)
Lemma compute_diff_is_logged :
  forall env current data,
    (0 <? length (Js.keys (TaskService.compute_diff env current data)))%nat
    = update_is_logged env current data.
Proof.
  intros env current data.
  unfold TaskService.compute_diff, update_is_logged, Js.keys.
  rewrite length_map.
  assert (Hfold : forall fields diff,
            (0 <? length (fold_left (TaskService.diff_field env current data)
                            fields diff))%nat
            = (0 <? length diff)%nat
              || existsb (field_is_logged env current data) fields).
  { induction fields as [| f fields IH]; intros diff; simpl.
    - rewrite orb_false_r. reflexivity.
    - rewrite IH, diff_field_is_logged, orb_assoc. reflexivity. }
  rewrite Hfold. reflexivity.
Qed.

(** X22.  The writes of a task show in its history and in no other.  A
    Task.update that returns adds one row to the history of the task exactly
    when the test of its diff loop holds for one of the six checked fields,
    that is when the patch has a value for the field whose [String]
    rendering is not that of the current value, and none otherwise (a change
    that [String] does not show, such as [null] to the string "null", adds
    none); a Task.delete that returns adds one; and after either, the
    history of every other task and of every project, on every page, is what
    it was. *)
Theorem task_writes_show_in_the_history_of_the_task_only :
  forall env id actorId s s' page pageSize,
    let total s :=
      Reads.found_total (Reads.task_getHistory id page pageSize s) in
    (forall data task current,
       TaskService.update env id data actorId s = (Returned task, s') ->
       TaskRepository.findById id s = Some current ->
       total s'
       = if existsb
              (fun field =>
                 negb (Js.is_undefined (TaskService.data_get data field))
                 && negb (Js.String_of (date_toString env)
                            (TaskService.current_get current field)
                          =? Js.String_of (date_toString env)
                               (TaskService.data_get data field)))
              [ Field.title; Field.description; Field.status; Field.priority;
                Field.assigneeId; Field.dueDate ]
         then S (total s) else total s)
    /\ (TaskService.delete env id actorId s = (Returned tt, s') ->
        total s' = S (total s))
    /\ ((TaskService.delete env id actorId s = (Returned tt, s')
         \/ exists data task,
              TaskService.update env id data actorId s = (Returned task, s')) ->
        forall entityType entityId page' pageSize',
          (entityType, entityId) <> ("Task", id) ->
          Reads.findByEntity entityType entityId page' pageSize' s'
          = Reads.findByEntity entityType entityId page' pageSize' s).
Proof.
  intros env id actorId s s' page pageSize total. subst total. unfold Reads.task_getHistory.
  split; [| split].
  - intros data task current H Hfind.
    apply task_update_returned in H.
    destruct H as [c [Hc [_ [_ [_ [_ [_ Hlogs]]]]]]].
    rewrite Hfind in Hc. injection Hc as <-.
    rewrite compute_diff_is_logged in Hlogs.
    change (existsb _ _) with (update_is_logged env current data).
    destruct (update_is_logged env current data).
    + apply (@findByEntity_after_one_row "Task" id page pageSize s s' _
               Hlogs); reflexivity.
    + unfold Reads.findByEntity. rewrite Hlogs. reflexivity.
  - intros H. apply task_delete_returned in H.
    destruct H as [task [_ [_ [Hlogs _]]]].
    apply (@findByEntity_after_one_row "Task" id page pageSize s s' _
               Hlogs); reflexivity.
  - intros [H | [data [task H]]] entityType entityId page' pageSize' Hne.
    + apply task_delete_returned in H.
      destruct H as [task [_ [_ [Hlogs _]]]].
      apply (@findByEntity_after_one_row entityType entityId page' pageSize' s s'
               _ Hlogs).
      simpl. congruence.
    + apply task_update_returned in H.
      destruct H as [c [_ [_ [_ [_ [_ [_ Hlogs]]]]]]].
      destruct (0 <? length (Js.keys (TaskService.compute_diff env c data)))%nat.
      * apply (@findByEntity_after_one_row entityType entityId page' pageSize' s
                 s' _ Hlogs).
        simpl. congruence.
      * unfold Reads.findByEntity. rewrite Hlogs. reflexivity.
Qed.

Lemma task_writes_show_in_the_history_of_the_task_only_witness :
  Reads.found_total
    (Reads.task_getHistory "t-todo" 1 10
       (snd (TaskService.update Sample.env "t-todo" SampleInput.patch_complete
               "u-admin" Sample.store)))
  = S (Reads.found_total (Reads.task_getHistory "t-todo" 1 10 Sample.store))
  /\ Reads.found_total
       (Reads.task_getHistory "t-todo" 1 10
          (snd (TaskService.update Sample.env "t-todo"
                  SampleInput.patch_null_string "u-admin" Sample.store)))
     = Reads.found_total (Reads.task_getHistory "t-todo" 1 10 Sample.store).
Proof.
  assert (Hrun :
    TaskService.update Sample.env "t-todo" SampleInput.patch_complete "u-admin"
      Sample.store
    = (Returned SampleInput.todo_completed,
       snd (TaskService.update Sample.env "t-todo" SampleInput.patch_complete
              "u-admin" Sample.store)))
    by (vm_compute; reflexivity).
  assert (Hrun' :
    TaskService.update Sample.env "t-todo" SampleInput.patch_null_string
      "u-admin" Sample.store
    = (Returned SampleInput.todo_null_string,
       snd (TaskService.update Sample.env "t-todo"
              SampleInput.patch_null_string "u-admin" Sample.store)))
    by (vm_compute; reflexivity).
  destruct (@task_writes_show_in_the_history_of_the_task_only Sample.env
              "t-todo" "u-admin" Sample.store
              (snd (TaskService.update Sample.env "t-todo"
                      SampleInput.patch_complete "u-admin" Sample.store))
              1%positive 10%positive)
    as [H _].
  destruct (@task_writes_show_in_the_history_of_the_task_only Sample.env
              "t-todo" "u-admin" Sample.store
              (snd (TaskService.update Sample.env "t-todo"
                      SampleInput.patch_null_string "u-admin" Sample.store))
              1%positive 10%positive)
    as [H' _].
  split.
  - exact (H SampleInput.patch_complete SampleInput.todo_completed
             Sample.todo_task Hrun eq_refl).
  - exact (H' SampleInput.patch_null_string SampleInput.todo_null_string
              Sample.todo_task Hrun' eq_refl).
Defined.

Lemma has_member_iff :
  forall userId s p,
    Reads.has_member userId s p = true
    <-> exists m, In m (project_members s)
                  /\ ProjectMember.projectId m = Project.id p
                  /\ ProjectMember.userId m = userId.
Proof.
  intros userId s p. unfold Reads.has_member. rewrite existsb_exists.
  split; intros [m [Hin H]]; exists m; split; auto.
  - apply andb_true_iff in H. destruct H as [H1 H2].
    apply String.eqb_eq in H1, H2. auto.
  - destruct H as [H1 H2]. rewrite H1, H2, !String.eqb_refl. reflexivity.
Qed.

(** X23.  The project list.  [ProjectService.getAll] shows an ADMIN every
    project and any other user exactly the projects in which a member row
    names them: the pages [1 .. totalPages] put one after the other hold
    those projects and no others, each once, in an order in which
    [createdAt] never increases; [total] is their number, [totalPages] is
    the least number of pages of [pageSize] that hold them, and no page has
    more than [pageSize] projects. *)
Theorem project_list_shows_the_projects_of_the_user :
  forall userId (isAdmin : bool) pageSize s,
    let visible :=
      if isAdmin then projects s
      else filter (Reads.has_member userId s) (projects s) in
    let result p := Reads.getAll userId isAdmin p pageSize s in
    let listed :=
      concat (map (fun p => Reads.data (result p))
                  (pages (Reads.totalPages (result 1%positive)))) in
    Permutation listed visible
    /\ Sorted (fun a b => (Project.createdAt b <= Project.createdAt a)%Z) listed
    /\ (forall p,
          Reads.total (result p) = length visible
          /\ (length (Reads.data (result p)) <= Pos.to_nat pageSize)%nat
          /\ (Reads.total (result p)
              <= Reads.totalPages (result p) * Pos.to_nat pageSize)%nat
          /\ (forall m, (Reads.total (result p) <= m * Pos.to_nat pageSize)%nat ->
                        (Reads.totalPages (result p) <= m)%nat))
    /\ (isAdmin = false ->
        forall project,
          In project listed <->
          In project (projects s)
          /\ exists m, In m (project_members s)
                       /\ ProjectMember.projectId m = Project.id project
                       /\ ProjectMember.userId m = userId).
Proof.
  intros userId isAdmin pageSize s visible result listed.
  assert (Hh : listed = Reads.order_desc Project.createdAt visible).
  { subst listed result visible. unfold Reads.getAll, Reads.findByUserId,
      Reads.findAll.
    destruct isAdmin; simpl; apply windows_cover; rewrite order_desc_length;
      apply ceil_div_covers. }
  split; [rewrite Hh; apply order_desc_perm |].
  split; [rewrite Hh; apply order_desc_sorted |].
  split.
  - intros p. subst result visible.
    unfold Reads.getAll, Reads.findByUserId, Reads.findAll.
    destruct isAdmin; simpl;
      (split; [reflexivity |]; split; [apply window_length |];
       split; [apply ceil_div_covers | apply ceil_div_least]).
  - intros -> project. rewrite Hh. subst visible. cbv iota.
    rewrite <- has_member_iff, <- filter_In.
    split; apply Permutation_in;
      [| apply Permutation_sym]; apply order_desc_perm.
Qed.

(** * Analytics *)

Lemma count_occ_status :
  forall (l : list Task.t) (st : TaskStatus.t),
    count_occ string_dec
      (map (fun t => TaskStatus.to_string (Task.status t)) l)
      (TaskStatus.to_string st)
    = length (filter (fun t => TaskStatus.eqb (Task.status t) st) l).
Proof.
  intros l st. induction l as [| t l IH]; simpl; [reflexivity |].
  destruct (string_dec (TaskStatus.to_string (Task.status t))
                       (TaskStatus.to_string st)) as [E | E].
  - apply status_to_string_inj in E. rewrite E.
    replace (TaskStatus.eqb st st) with true by (destruct st; reflexivity).
    simpl. rewrite IH. reflexivity.
  - replace (TaskStatus.eqb (Task.status t) st) with false; [exact IH |].
    destruct (Task.status t), st; simpl in *; try reflexivity;
      exfalso; apply E; reflexivity.
Qed.

Lemma status_counts_add_up :
  forall l : list Task.t,
    (length (filter (fun t => TaskStatus.eqb (Task.status t) TaskStatus.TODO) l)
     + length (filter (fun t => TaskStatus.eqb (Task.status t)
                                  TaskStatus.IN_PROGRESS) l)
     + length (filter (fun t => TaskStatus.eqb (Task.status t) TaskStatus.DONE) l)
     = length l)%nat.
Proof.
  induction l as [| t l IH]; simpl; [reflexivity |].
  destruct (Task.status t); simpl; lia.
Qed.

(** X24.  The status counts of a project.  [getTasksByStatus] returns an
    object with exactly the keys TODO, IN_PROGRESS and DONE, in this order;
    the value of each is the number of tasks of the project with that status
    (0 when there is none, and tasks of other projects are not counted), so
    the three values add up to the number of tasks of the project. *)
Theorem status_counts_partition_the_tasks_of_the_project :
  forall projectId s,
    let stats := AnalyticsService.getTasksByStatus projectId s in
    let mine := filter (fun t => Task.projectId t =? projectId) (tasks s) in
    Js.keys stats = ["TODO"; "IN_PROGRESS"; "DONE"]
    /\ (forall st,
          Js.get stats (TaskStatus.to_string st)
          = Some (length (filter (fun t => TaskStatus.eqb (Task.status t) st)
                                 mine)))
    /\ (exists todo in_progress done,
          Js.get stats "TODO" = Some todo
          /\ Js.get stats "IN_PROGRESS" = Some in_progress
          /\ Js.get stats "DONE" = Some done
          /\ (todo + in_progress + done = length mine)%nat).
Proof.
  intros projectId s stats mine.
  assert (Hget : forall st,
            Js.get stats (TaskStatus.to_string st)
            = Some (length (filter (fun t => TaskStatus.eqb (Task.status t) st)
                                   mine))).
  { intros st. subst stats. unfold AnalyticsService.getTasksByStatus.
    rewrite assign_all_get by (apply fold_bump_nodup; constructor).
    rewrite group_count_get. fold mine. rewrite count_occ_status.
    destruct (length _); [destruct st |]; reflexivity. }
  split; [| split].
  - subst stats. unfold AnalyticsService.getTasksByStatus.
    rewrite assign_all_keys; [reflexivity |].
    intros k Hk.
    destruct (Js.get (AnalyticsService.group_count
                        (map (fun t => TaskStatus.to_string (Task.status t))
                             (filter (fun t => Task.projectId t =? projectId)
                                     (tasks s)))) k) as [n |] eqn:Hk'.
    + rewrite group_count_get in Hk'.
      destruct (count_occ string_dec _ k) eqn:Hc; [discriminate |].
      assert (Hin : In k (map (fun t => TaskStatus.to_string (Task.status t))
                              (filter (fun t => Task.projectId t =? projectId)
                                      (tasks s)))).
      { apply (count_occ_In string_dec). lia. }
      apply in_map_iff in Hin. destruct Hin as [t [<- _]].
      destruct (Task.status t); simpl; auto.
    + apply get_none_not_key in Hk'. contradiction.
  - exact Hget.
  - exists (length (filter (fun t => TaskStatus.eqb (Task.status t)
                                       TaskStatus.TODO) mine)),
           (length (filter (fun t => TaskStatus.eqb (Task.status t)
                                       TaskStatus.IN_PROGRESS) mine)),
           (length (filter (fun t => TaskStatus.eqb (Task.status t)
                                       TaskStatus.DONE) mine)).
    repeat split.
    + exact (Hget TaskStatus.TODO).
    + exact (Hget TaskStatus.IN_PROGRESS).
    + exact (Hget TaskStatus.DONE).
    + apply status_counts_add_up.
Qed.

Lemma insert_by_due_perm :
  forall t l, Permutation (AnalyticsService.insert_by_due t l) (t :: l).
Proof.
  intros t l. induction l as [| x l IH]; simpl; [apply Permutation_refl |].
  destruct (AnalyticsService.due t <? AnalyticsService.due x)%Z;
    [apply Permutation_refl |].
  eapply perm_trans; [apply perm_skip; exact IH | apply perm_swap].
Qed.

Lemma order_by_due_perm :
  forall l, Permutation (AnalyticsService.order_by_due l) l.
Proof.
  induction l as [| x l IH]; simpl; [constructor |].
  eapply perm_trans; [apply insert_by_due_perm | apply perm_skip; exact IH].
Qed.

Lemma insert_by_due_sorted :
  forall t l,
    Sorted (fun a b => (AnalyticsService.due a <= AnalyticsService.due b)%Z) l ->
    Sorted (fun a b => (AnalyticsService.due a <= AnalyticsService.due b)%Z)
           (AnalyticsService.insert_by_due t l).
Proof.
  intros t l Hs. induction Hs as [| y l Hs IH Hhd]; simpl.
  - repeat constructor.
  - destruct (AnalyticsService.due t <? AnalyticsService.due y)%Z eqn:E.
    + apply Z.ltb_lt in E. repeat constructor; [assumption .. | lia].
    + apply Z.ltb_ge in E. constructor; [exact IH |].
      destruct l as [| z l]; simpl.
      * constructor. exact E.
      * inversion Hhd; subst.
        destruct (AnalyticsService.due t <? AnalyticsService.due z)%Z;
          constructor; assumption.
Qed.

Lemma order_by_due_sorted :
  forall l,
    Sorted (fun a b => (AnalyticsService.due a <= AnalyticsService.due b)%Z)
           (AnalyticsService.order_by_due l).
Proof.
  induction l as [| x l IH]; simpl; [constructor |].
  apply insert_by_due_sorted. exact IH.
Qed.

Lemma sorted_prefix_below_suffix :
  forall (n : nat) (l : list Task.t),
    Sorted (fun a b => (AnalyticsService.due a <= AnalyticsService.due b)%Z) l ->
    forall t u, In t (firstn n l) -> In u (skipn n l) ->
                (AnalyticsService.due t <= AnalyticsService.due u)%Z.
Proof.
  intros n l Hs.
  assert (Hss : StronglySorted
                  (fun a b => (AnalyticsService.due a <= AnalyticsService.due b)%Z)
                  l).
  { apply Sorted_StronglySorted; [| exact Hs]. intros a b c Hab Hbc. lia. }
  clear Hs. revert n. induction Hss as [| x l Hss IH Hall]; intros n t u Ht Hu.
  - rewrite firstn_nil in Ht. contradiction.
  - destruct n as [| n]; simpl in *; [contradiction |].
    destruct Ht as [<- | Ht].
    + rewrite Forall_forall in Hall. apply Hall.
      eapply skipn_in. exact Hu.
    + apply (IH n); assumption.
Qed.

Lemma overdue_iff :
  forall env projectId t,
    AnalyticsService.overdue env projectId t = true
    <-> Task.projectId t = projectId
        /\ Task.status t <> TaskStatus.DONE
        /\ exists d, Task.dueDate t = Some d /\ (d < js_now env)%Z.
Proof.
  intros env projectId t. unfold AnalyticsService.overdue.
  rewrite !andb_true_iff, String.eqb_eq, negb_true_iff. split.
  - intros [[Hp Hs] Hd]. split; [exact Hp |]. split.
    + intros E. rewrite E in Hs. discriminate.
    + destruct (Task.dueDate t) as [d |]; [| discriminate].
      exists d. split; [reflexivity | apply Z.ltb_lt; exact Hd].
  - intros [Hp [Hs [d [Hd Hlt]]]]. repeat split; [exact Hp | |].
    + destruct (Task.status t); simpl; try reflexivity.
      exfalso. apply Hs. reflexivity.
    + rewrite Hd. apply Z.ltb_lt. exact Hlt.
Qed.

(** X25.  The overdue tasks of the analytics.  The list has
    [min(5, overdueCount)] tasks; each is a stored task of the project that
    is not DONE and whose due date is before the current time; the due dates
    never decrease along the list; no task is listed twice when no stored
    task is repeated; and every overdue task of the project that is left out
    is due no earlier than every listed one. *)
Theorem overdue_tasks_are_the_earliest_due :
  forall env projectId s,
    let a := AnalyticsService.getProjectAnalytics env projectId s in
    let listed := AnalyticsService.overdueTasks a in
    length listed = Nat.min 5 (AnalyticsService.overdueCount a)
    /\ (forall t, In t listed ->
          In t (tasks s)
          /\ Task.projectId t = projectId
          /\ Task.status t <> TaskStatus.DONE
          /\ exists d, Task.dueDate t = Some d /\ (d < js_now env)%Z)
    /\ Sorted (fun x y => (AnalyticsService.due x <= AnalyticsService.due y)%Z)
              listed
    /\ exists left_out,
         Permutation (listed ++ left_out)%list
                     (filter (AnalyticsService.overdue env projectId) (tasks s))
         /\ forall t u, In t listed -> In u left_out ->
                        (AnalyticsService.due t <= AnalyticsService.due u)%Z.
Proof.
  intros env projectId s a listed. subst listed a. simpl.
  unfold AnalyticsService.getOverdueTasks, AnalyticsService.getOverdueCount.
  set (rows := filter (AnalyticsService.overdue env projectId) (tasks s)).
  set (ordered := AnalyticsService.order_by_due rows).
  assert (Hperm : Permutation ordered rows) by apply order_by_due_perm.
  assert (Hsorted :
            Sorted (fun x y => (AnalyticsService.due x <= AnalyticsService.due y)%Z)
                   ordered) by apply order_by_due_sorted.
  split; [| split; [| split]].
  - rewrite length_firstn, (Permutation_length Hperm). reflexivity.
  - intros t Hin.
    assert (Hrow : In t rows).
    { apply (Permutation_in _ Hperm).
      rewrite <- (firstn_skipn 5 ordered). apply in_or_app. left. exact Hin. }
    subst rows. apply filter_In in Hrow. destruct Hrow as [Hstored Hover].
    apply overdue_iff in Hover. tauto.
  - clear - Hsorted. revert Hsorted. generalize 5%nat as n.
    induction ordered as [| x l IH]; intros n Hs.
    + rewrite firstn_nil. constructor.
    + destruct n as [| n]; simpl; [constructor |].
      inversion Hs as [| ? ? Hs' Hhd]; subst.
      constructor; [apply IH; exact Hs' |].
      destruct l as [| y l]; [rewrite firstn_nil; constructor |].
      destruct n as [| n]; simpl; [constructor |].
      inversion Hhd; subst. constructor. assumption.
  - exists (skipn 5 ordered). split.
    + rewrite firstn_skipn. exact Hperm.
    + apply sorted_prefix_below_suffix. exact Hsorted.
Qed.

Lemma count_occ_map_filter :
  forall (f : Q -> string) (k : string) (l : list Q),
    count_occ string_dec (map f l) k
    = length (filter (fun h => f h =? k) l).
Proof.
  intros f k l. induction l as [| h l IH]; simpl; [reflexivity |].
  destruct (string_dec (f h) k) as [E | E].
  - rewrite E, String.eqb_refl. simpl. rewrite IH. reflexivity.
  - apply String.eqb_neq in E. rewrite E. exact IH.
Qed.

Lemma filter_ext_length :
  forall (p q : Q -> bool) (l : list Q),
    (forall h, p h = q h) -> length (filter p l) = length (filter q l).
Proof.
  intros p q l H. rewrite (filter_ext p q H). reflexivity.
Qed.

Lemma ranges_add_up :
  forall l : list Q,
    (length (filter (fun h => String.eqb (AnalyticsService.range_of h) "< 1 Day") l)
     + length (filter (fun h => String.eqb (AnalyticsService.range_of h) "1-3 Days") l)
     + length (filter (fun h => String.eqb (AnalyticsService.range_of h) "3-7 Days") l)
     + length (filter (fun h => String.eqb (AnalyticsService.range_of h) "> 7 Days") l)
     = length l)%nat.
Proof.
  induction l as [| h l IH]; [reflexivity |].
  cbn [filter].
  remember (filter (fun h => String.eqb (AnalyticsService.range_of h) "< 1 Day") l)
    as f1 eqn:E1 in *.
  remember (filter (fun h => String.eqb (AnalyticsService.range_of h) "1-3 Days") l)
    as f2 eqn:E2 in *.
  remember (filter (fun h => String.eqb (AnalyticsService.range_of h) "3-7 Days") l)
    as f3 eqn:E3 in *.
  remember (filter (fun h => String.eqb (AnalyticsService.range_of h) "> 7 Days") l)
    as f4 eqn:E4 in *.
  clear E1 E2 E3 E4.
  pose proof (range_of_is_a_range h) as Hr. unfold ranges in Hr. simpl in Hr.
  destruct Hr as [<- | [<- | [<- | [<- | []]]]]; simpl; lia.
Qed.

(** X26.  The buckets of the histogram.  With the durations of the
    completed tasks of the project in hours, the histogram counts under
    "< 1 Day" those below 24, under "1-3 Days" those from 24 to 72 with both
    ends, under "3-7 Days" those above 72 up to 168 with 168, and under
    "> 7 Days" those above 168: a duration of exactly 72 hours is counted in
    "1-3 Days" only.  Each duration is counted in one bucket, so the four
    counts add up to the number of durations. *)
Theorem histogram_buckets_partition_the_durations :
  forall projectId s,
    let durations := AnalyticsService.completed_durations projectId s in
    let histogram := AnalyticsService.getCompletionTimeDistribution projectId s in
    let count p := length (filter p durations) in
    Js.get histogram "< 1 Day" = Some (count (fun h => negb (Qle_bool 24 h)))
    /\ Js.get histogram "1-3 Days"
       = Some (count (fun h => Qle_bool 24 h && Qle_bool h 72))
    /\ Js.get histogram "3-7 Days"
       = Some (count (fun h => negb (Qle_bool h 72) && Qle_bool h 168))
    /\ Js.get histogram "> 7 Days"
       = Some (count (fun h => negb (Qle_bool h 168)))
    /\ (count (fun h => negb (Qle_bool 24 h))
        + count (fun h => Qle_bool 24 h && Qle_bool h 72)
        + count (fun h => negb (Qle_bool h 72) && Qle_bool h 168)
        + count (fun h => negb (Qle_bool h 168))
        = length durations)%nat.
Proof.
  intros projectId s durations histogram count.
  assert (Hle : forall a b c : Q,
            (a <= b)%Q -> Qle_bool b c = true -> Qle_bool a c = true).
  { intros a b c Hab Hbc. apply Qle_bool_iff. apply Qle_bool_iff in Hbc.
    eapply Qle_trans; eassumption. }
  assert (H72 : forall h, Qle_bool h 72 = false -> Qle_bool 72 h = true).
  { intros h H. apply Qle_bool_iff. apply Qlt_le_weak. apply Qnot_le_lt.
    intros Hh. apply Qle_bool_iff in Hh. congruence. }
  assert (H24_72 : forall h, Qle_bool 24 h = false -> Qle_bool h 72 = true).
  { intros h H. apply Qle_bool_iff.
    apply Qle_trans with (y := 24%Q); [| discriminate].
    apply Qlt_le_weak. apply Qnot_le_lt.
    intros Hh. apply Qle_bool_iff in Hh. congruence. }
  assert (H24_168 : forall h, Qle_bool 24 h = false -> Qle_bool h 168 = true).
  { intros h H. apply Qle_bool_iff.
    apply Qle_trans with (y := 72%Q); [| discriminate].
    apply Qle_bool_iff. apply H24_72. exact H. }
  assert (H72_168 : forall h, Qle_bool h 72 = true -> Qle_bool h 168 = true).
  { intros h H. apply Qle_bool_iff.
    apply Qle_trans with (y := 72%Q); [| discriminate].
    apply Qle_bool_iff. exact H. }
  assert (E1 : forall h, (AnalyticsService.range_of h =? "< 1 Day")
                         = negb (Qle_bool 24 h)).
  { intros h. unfold AnalyticsService.range_of.
    destruct (Qle_bool 24 h); simpl; [| reflexivity].
    destruct (Qle_bool h 72); simpl; [reflexivity |].
    destruct (Qle_bool 72 h); simpl; [| reflexivity].
    destruct (Qle_bool h 168); reflexivity. }
  assert (E2 : forall h, (AnalyticsService.range_of h =? "1-3 Days")
                         = Qle_bool 24 h && Qle_bool h 72).
  { intros h. unfold AnalyticsService.range_of.
    destruct (Qle_bool 24 h); simpl; [| reflexivity].
    destruct (Qle_bool h 72); simpl; [reflexivity |].
    destruct (Qle_bool 72 h); simpl; [| reflexivity].
    destruct (Qle_bool h 168); reflexivity. }
  assert (E3 : forall h, (AnalyticsService.range_of h =? "3-7 Days")
                         = negb (Qle_bool h 72) && Qle_bool h 168).
  { intros h. unfold AnalyticsService.range_of.
    destruct (Qle_bool 24 h) eqn:A; simpl.
    - destruct (Qle_bool h 72) eqn:B; simpl; [reflexivity |].
      rewrite (H72 h B). simpl. destruct (Qle_bool h 168); reflexivity.
    - rewrite (H24_72 h A). reflexivity. }
  assert (E4 : forall h, (AnalyticsService.range_of h =? "> 7 Days")
                         = negb (Qle_bool h 168)).
  { intros h. unfold AnalyticsService.range_of.
    destruct (Qle_bool 24 h) eqn:A; simpl.
    - destruct (Qle_bool h 72) eqn:B; simpl.
      + rewrite (H72_168 h B). reflexivity.
      + rewrite (H72 h B). simpl. destruct (Qle_bool h 168); reflexivity.
    - rewrite (H24_168 h A). reflexivity. }
  assert (Hget : forall range,
            In range ranges ->
            Js.get histogram range
            = Some (count (fun h => AnalyticsService.range_of h =? range))).
  { intros range Hin. subst histogram count. simpl.
    rewrite (distribution_counts projectId s Hin).
    rewrite count_occ_map_filter. reflexivity. }
  subst count. cbv beta in *.
  rewrite <- (filter_ext_length _ _ durations E1),
          <- (filter_ext_length _ _ durations E2),
          <- (filter_ext_length _ _ durations E3),
          <- (filter_ext_length _ _ durations E4).
  repeat split; try (apply Hget; unfold ranges; simpl; tauto).
  apply ranges_add_up.
Qed.

(** * Deleting a user *)

Lemma sample_user_delete_only_the_target :
  deletes_only_the_target sample_user_delete.
Proof.
  intros id other s Hne. unfold sample_user_delete. simpl.
  unfold UserRepository.findById, Prisma.user_findUnique. simpl.
  apply (@find_remove_other User.t User.id id other (users s) Hne).
Qed.

(** X27.  The user controller never deletes the account of the caller.
    With a delete statement that leaves the users with another id as they
    are, the acting user is stored after [delete] exactly as before,
    whatever the request names; a request that names the caller is answered
    400 "Cannot delete your own account" and a request that names no stored
    user 404 "User not found", both without a write. *)
Theorem delete_spares_the_acting_user :
  forall user_delete req s,
    deletes_only_the_target user_delete ->
    UserRepository.findById (UserDelete.user_id req)
      (snd (UserDelete.delete user_delete req s))
    = UserRepository.findById (UserDelete.user_id req) s
    /\ (UserRepository.findById (UserDelete.params_id req) s = None ->
        UserDelete.delete user_delete req s
        = (Thrown (AppErr (AppError.new "User not found" 404)), s))
    /\ (forall u,
        UserRepository.findById (UserDelete.params_id req) s = Some u ->
        UserDelete.user_id req = UserDelete.params_id req ->
        UserDelete.delete user_delete req s
        = (Thrown (AppErr (AppError.new "Cannot delete your own account" 400)),
           s))
    /\ (forall u,
        UserRepository.findById (UserDelete.params_id req) s = Some u ->
        UserDelete.user_id req <> UserDelete.params_id req ->
        snd (UserDelete.delete user_delete req s)
        = snd (user_delete (UserDelete.params_id req) s)).
Proof.
  intros user_delete req s Honly. unfold UserDelete.delete.
  split; [| split; [| split]].
  - destruct (UserRepository.findById (UserDelete.params_id req) s);
      [| reflexivity].
    destruct (UserDelete.user_id req =? UserDelete.params_id req) eqn:E;
      [reflexivity |].
    apply String.eqb_neq in E.
    rewrite <- (Honly (UserDelete.params_id req) (UserDelete.user_id req) s E).
    destruct (user_delete (UserDelete.params_id req) s) as [[] ?]; reflexivity.
  - intros ->. reflexivity.
  - intros u -> ->. rewrite String.eqb_refl. reflexivity.
  - intros u -> Hne. apply String.eqb_neq in Hne. rewrite Hne.
    destruct (user_delete (UserDelete.params_id req) s) as [[] ?]; reflexivity.
Qed.

Lemma delete_spares_the_acting_user_witness :
  UserRepository.findById "u-admin"
    (snd (UserDelete.delete sample_user_delete
            (UserDelete.mkDeleteRequest "u-viewer" "u-admin") Sample.store))
  = Some Sample.admin
  /\ UserDelete.delete sample_user_delete
       (UserDelete.mkDeleteRequest "u-admin" "u-admin") Sample.store
     = (Thrown (AppErr (AppError.new "Cannot delete your own account" 400)),
        Sample.store).
Proof.
  destruct (@delete_spares_the_acting_user sample_user_delete
              (UserDelete.mkDeleteRequest "u-viewer" "u-admin") Sample.store
              sample_user_delete_only_the_target) as [Hkept _].
  destruct (@delete_spares_the_acting_user sample_user_delete
              (UserDelete.mkDeleteRequest "u-admin" "u-admin") Sample.store
              sample_user_delete_only_the_target) as [_ [_ [Hself _]]].
  split.
  - exact (eq_trans Hkept eq_refl).
  - exact (Hself Sample.admin eq_refl eq_refl).
Defined.

(** * The permission hooks of the client *)

Lemma membership_of_project :
  forall projectId userId s,
    Permissions.membership userId (Permissions.members_of projectId s)
    = Prisma.projectMember_findUnique_projectId_userId projectId userId s.
Proof.
  intros projectId userId s.
  unfold Permissions.membership, Permissions.members_of,
    Prisma.projectMember_findUnique_projectId_userId.
  induction (project_members s) as [| m l IH]; simpl; [reflexivity |].
  destruct (ProjectMember.projectId m =? projectId); simpl; [| exact IH].
  destruct (ProjectMember.userId m =? userId); [reflexivity | exact IH].
Qed.

(** X28.  The client's write permission is the server's.  For a signed-in
    user and the member list of a project, as the server stores it,
    [canWrite] of [useProjectPermissions] holds exactly when
    [requireProjectWriteAccess] lets the user's request for that project
    through; [isReadOnly] holds exactly for a user who is not a global ADMIN
    and is a VIEWER of the project; and the two never hold together. *)
Theorem client_canWrite_is_the_write_guard :
  forall user projectId s,
    projectId <> "" ->
    let client := Some (Middleware.au_id user, Middleware.au_role user) in
    let members := Some (Permissions.members_of projectId s) in
    (Permissions.canWrite client members = true
     <-> Middleware.requireProjectWriteAccess
           (Middleware.mkProjectRequest (Some user) (Some projectId) None) s
         = Middleware.Continue)
    /\ (Permissions.isReadOnly client members = true
        <-> Middleware.au_role user <> UserRole.ADMIN
            /\ ProjectRepository.getUserProjectRole projectId
                 (Middleware.au_id user) s = Some ProjectRole.VIEWER)
    /\ Permissions.canWrite client members
       && Permissions.isReadOnly client members = false.
Proof.
  intros user projectId s Hne client members. subst client members.
  apply String.eqb_neq in Hne.
  unfold Permissions.canWrite, Permissions.isReadOnly,
    Permissions.currentUserProjectRole, Permissions.isGlobalAdmin,
    Middleware.requireProjectWriteAccess, Middleware.requireProjectAccess,
    Middleware.or_param, ProjectRepository.getUserProjectRole.
  simpl. rewrite Hne. simpl. rewrite Hne. rewrite membership_of_project.
  destruct (UserRole.eqb (Middleware.au_role user) UserRole.ADMIN) eqn:E.
  - apply UserRole_eqb_eq in E. repeat split; auto; try discriminate.
    intros [Hna _]. contradiction.
  - assert (Hna : Middleware.au_role user <> UserRole.ADMIN).
    { intros Heq. rewrite Heq in E. discriminate. }
    destruct (Prisma.projectMember_findUnique_projectId_userId projectId
                (Middleware.au_id user) s) as [m |]; simpl.
    + destruct (ProjectMember.projectRole m); simpl; repeat split; auto;
        try discriminate; intros [_ H]; discriminate.
    + repeat split; auto; try discriminate. intros [_ H]. discriminate.
Qed.

Lemma client_canWrite_is_the_write_guard_witness :
  Permissions.canWrite (Some ("u-member", UserRole.MEMBER))
    (Some (Permissions.members_of "p1" Sample.store)) = true
  <-> Middleware.requireProjectWriteAccess
        (Middleware.mkProjectRequest
           (Some (Middleware.mkAuthUser "u-member" "member@example.com"
                                        UserRole.MEMBER))
           (Some "p1") None) Sample.store
      = Middleware.Continue.
Proof.
  destruct (@client_canWrite_is_the_write_guard
              (Middleware.mkAuthUser "u-member" "member@example.com"
                                     UserRole.MEMBER)
              "p1" Sample.store) as [H _]; [discriminate |].
  exact H.
Defined.

(** X29.  The client's assignee check against the server's.  For a stored
    user, [canBeAssignedTask] with the user's global role and the member
    list of the project agrees with [validateAssignee] in every case but
    one: a global ADMIN with a VIEWER row in the project is offered by the
    client and refused by the server with VIEWER_CANNOT_BE_ASSIGNED. *)
Theorem client_assignee_check_against_validateAssignee :
  forall projectId a s user,
    a <> "" ->
    UserRepository.findById a s = Some user ->
    let client :=
      Permissions.canBeAssignedTask a (Permissions.members_of projectId s)
        (Some (User.role user)) in
    let server := TaskService.validateAssignee projectId (Some (Some a)) s in
    (~ (User.role user = UserRole.ADMIN
        /\ ProjectRepository.getUserProjectRole projectId a s
           = Some ProjectRole.VIEWER) ->
     (client = true <-> server = Returned tt))
    /\ (User.role user = UserRole.ADMIN ->
        ProjectRepository.getUserProjectRole projectId a s
        = Some ProjectRole.VIEWER ->
        client = true
        /\ server
           = Thrown (AppErr (AppError.badRequest
               "Cannot assign tasks to view-only users. Viewers have read-only access."
               ErrorCodes.TASK.VIEWER_CANNOT_BE_ASSIGNED
               [("assigneeId", Js.Str a); ("projectRole", Js.Str "VIEWER")]))).
Proof.
  intros projectId a s user Ha Hfind client server. subst client server.
  apply String.eqb_neq in Ha.
  unfold TaskService.validateAssignee, Permissions.canBeAssignedTask.
  rewrite Ha, membership_of_project.
  unfold UserRepository.findById in Hfind. rewrite Hfind.
  unfold ProjectRepository.getUserProjectRole.
  destruct (Prisma.projectMember_findUnique_projectId_userId projectId a s)
    as [m |]; simpl.
  - destruct (ProjectMember.projectRole m) eqn:Hrole; simpl.
    + split.
      * intros _. destruct (User.role user); split; reflexivity.
      * intros _ H. discriminate.
    + split.
      * intros Hn. destruct (User.role user) eqn:Hr.
        -- exfalso. apply Hn. split; reflexivity.
        -- split; discriminate.
        -- split; discriminate.
      * intros -> _. split; reflexivity.
  - split.
    + intros _. destruct (User.role user); split; try reflexivity; discriminate.
    + intros _ H. discriminate.
Qed.

Lemma client_assignee_check_against_validateAssignee_witness :
  Permissions.canBeAssignedTask "u-admin"
    (Permissions.members_of "p1" Sample.store_admin_viewer)
    (Some UserRole.ADMIN) = true
  /\ TaskService.validateAssignee "p1" (Some (Some "u-admin"))
       Sample.store_admin_viewer
     = Thrown (AppErr (AppError.badRequest
         "Cannot assign tasks to view-only users. Viewers have read-only access."
         ErrorCodes.TASK.VIEWER_CANNOT_BE_ASSIGNED
         [("assigneeId", Js.Str "u-admin"); ("projectRole", Js.Str "VIEWER")])).
Proof.
  destruct (@client_assignee_check_against_validateAssignee "p1" "u-admin"
              Sample.store_admin_viewer Sample.admin) as [_ H];
    [discriminate | reflexivity |].
  apply H; reflexivity.
Defined.

(** * Project.update *)

(** X30.  Project.update with a body of [name] and [description] only
    changes the name, the description and [updatedAt] of one project and
    nothing else.  When it returns, the project is stored under its id as
    returned; the returned row has the id and [createdAt] of the row before,
    the name and the description of the patch where the patch has them (a
    [null] description clears it) and the previous ones where it has not,
    and the time of the write as [updatedAt]; every other project is found
    as before, no project is added or removed, and users, members and tasks
    are untouched. *)
Theorem project_update_changes_name_and_description_only :
  forall env id data actorId s project s' current,
    ProjectService.update env id data actorId s = (Returned project, s') ->
    ProjectRepository.findById id s = Some current ->
    UpdateProjectData.others data = [] ->
    ProjectRepository.findById id s' = Some project
    /\ project
       = Project.mk id
           (match UpdateProjectData.name data with
            | Some n => n
            | None => Project.name current
            end)
           (match UpdateProjectData.description data with
            | Some d => d
            | None => Project.description current
            end)
           (Project.createdAt current)
           (db_now env)
    /\ (forall other, other <> id ->
          ProjectRepository.findById other s' = ProjectRepository.findById other s)
    /\ project_ids s' = project_ids s
    /\ users s' = users s
    /\ project_members s' = project_members s
    /\ tasks s' = tasks s.
Proof.
  intros env id data actorId s project s' current H Hfind Hothers.
  apply project_update_returned in H.
  destruct H as [c [Hc [Hp [Hu [Hm [Ht [_ Hrows]]]]]]].
  rewrite Hfind in Hc. injection Hc as <-.
  assert (Hcur : Project.id current = id)
    by (apply (@find_key Project.t Project.id id (projects s) current);
        exact Hfind).
  unfold Prisma.project_apply in Hp. rewrite Hothers in Hp. simpl in Hp.
  injection Hp as Hp. rewrite Hcur in Hp.
  assert (Hid : Project.id project = id) by (rewrite <- Hp; reflexivity).
  split; [| split; [| split; [| split]]].
  - unfold ProjectRepository.findById, Prisma.project_findUnique in *.
    rewrite Hrows.
    apply (@find_replace_same Project.t Project.id id (projects s) current
             project Hid Hfind).
  - rewrite <- Hp. unfold Prisma.or_current. reflexivity.
  - intros other Hne.
    unfold ProjectRepository.findById, Prisma.project_findUnique.
    rewrite Hrows.
    apply (@find_replace_other Project.t Project.id id other (projects s)
             project Hid Hne).
  - unfold project_ids. rewrite Hrows, map_map. apply map_ext_in.
    intros r _. destruct (Project.id r =? id) eqn:E; [| reflexivity].
    apply String.eqb_eq in E. congruence.
  - auto.
Qed.

Lemma project_update_changes_name_and_description_only_witness :
  ProjectRepository.findById "p1"
    (snd (ProjectService.update Sample.env "p1"
            SampleInput.project_patch_describe "u-admin" Sample.store))
  = Some SampleInput.project_described
  /\ SampleInput.project_described
     = Project.mk "p1" "Apollo" (Some "Moon") 5000 (db_now Sample.env).
Proof.
  assert (Hrun :
    ProjectService.update Sample.env "p1" SampleInput.project_patch_describe
      "u-admin" Sample.store
    = (Returned SampleInput.project_described,
       snd (ProjectService.update Sample.env "p1"
              SampleInput.project_patch_describe "u-admin" Sample.store)))
    by (vm_compute; reflexivity).
  destruct (@project_update_changes_name_and_description_only Sample.env "p1"
              SampleInput.project_patch_describe "u-admin" Sample.store
              SampleInput.project_described _ Sample.project Hrun eq_refl
              eq_refl)
    as [Hfound [Hrow _]].
  split; [exact Hfound | exact Hrow].
Defined.

(** A body with another key reaches the statement too: [createdAt] of the
    sample project is rewritten by [{ createdAt: '2020-01-01T00:00:00.000Z' }],
    and no audit row is written. *)
Example project_body_key_rewrites_createdAt :
  ProjectService.update Sample.env "p1"
    (UpdateProjectData.mk None None
       [("createdAt", Js.Str "2020-01-01T00:00:00.000Z")])
    "u-admin" Sample.store
  = (Returned (Project.mk "p1" "Apollo" (Some "Launch plan") 1577836800000
                          1700000000000),
     set_projects Sample.store
       [Project.mk "p1" "Apollo" (Some "Launch plan") 1577836800000
                   1700000000000]).
Proof. vm_compute. reflexivity. Qed.
